(** * VtsVndkAbiTest: ABI compliance check of vendor libraries

    A shallow embedding of [abi/VtsVndkAbiTest.py].  The test class reads
    golden dumps, asks two parsers (ELF symbols, vtables) about the libraries
    pulled from the device, and counts the libraries whose symbols or vtable
    layout regressed.

    Python values are modelled as follows.
    - [str] is [string]; comparison of [str] is byte-wise lexicographic,
      which is [String.compare].
    - [dict] and [set] are stdpp's [gmap] and [gset]; iteration
      ([iteritems], [sorted(set)]) goes through [map_to_list]/[elements].
    - vtable offsets are Python integers, here [Z].
    - [None] / a path is [option string]; truthiness is written out.
    - exceptions and the [logging] calls are threaded through a small
      state-and-error monad [M] whose state is the list of log records. *)

From Stdlib Require Import ZArith Ascii String DecimalString DecimalZ DecimalPos.
From stdpp Require Import gmap strings list fin_maps sorting.

Local Open Scope string_scope.
Local Open Scope list_scope.

(** ** Python string primitives used by the module *)

Module Py.

(** [str.isspace] for one byte in the C locale: space, \t, \n, \v, \f, \r. *)
Definition is_space (c : ascii) : bool :=
  let n := N_of_ascii c in
  (n =? 32)%N || ((9 <=? n)%N && (n <=? 13)%N).

Fixpoint lstrip (s : string) : string :=
  match s with
  | String c s' => if is_space c then lstrip s' else s
  | EmptyString => EmptyString
  end.

(** Dropping trailing white space, right to left. *)
Fixpoint rstrip (s : string) : string :=
  match s with
  | EmptyString => EmptyString
  | String c s' =>
      match rstrip s' with
      | EmptyString => if is_space c then EmptyString else String c EmptyString
      | r => String c r
      end
  end.

(** [s.strip()] *)
Definition strip (s : string) : string := rstrip (lstrip s).

(** Iterating a file opened with mode "r": the lines, each one keeping its
    terminating newline; a last line without newline is yielded as it is. *)
Fixpoint readlines_go (cur : string) (s : string) : list string :=
  match s with
  | EmptyString => match cur with EmptyString => [] | _ => [String.rev cur] end
  | String c s' =>
      if Ascii.eqb c "010"%char
      then String.rev (String c cur) :: readlines_go EmptyString s'
      else readlines_go (String c cur) s'
  end.

Definition readlines (s : string) : list string := readlines_go EmptyString s.

(** [s.startswith(p)] and [s.endswith(p)] *)
Definition startswith (s p : string) : bool := String.prefix p s.

Definition endswith (s p : string) : bool :=
  (String.length p <=? String.length s)%nat &&
  String.eqb (substring (String.length s - String.length p) (String.length p) s) p.

(** Start of the last occurrence of [sep] in [s], scanning left from [i]. *)
Fixpoint rfind_from (sep s : string) (i : nat) : option nat :=
  if String.eqb (substring i (String.length sep) s) sep then Some i
  else match i with
       | O => None
       | S i' => rfind_from sep s i'
       end.

(** [s.rpartition(sep)] *)
Definition rpartition (s sep : string) : string * string * string :=
  match rfind_from sep s (String.length s - String.length sep) with
  | Some i =>
      (substring 0 i s, sep,
       substring (i + String.length sep)
                 (String.length s - (i + String.length sep)) s)
  | None => (EmptyString, EmptyString, s)
  end.

(** [str(n)] for an integer. *)
Definition str (n : Z) : string := NilZero.string_of_int (Z.to_int n).

(** [sep.join(parts)] *)
Definition join (sep : string) (parts : list string) : string :=
  String.concat sep parts.

(** [os.path.join(a, b)] on POSIX. *)
Definition path_join2 (a b : string) : string :=
  if startswith b "/" then b
  else if String.eqb a "" || endswith a "/" then a ++ b
  else a ++ "/" ++ b.

(** [os.path.join(a, *p)] *)
Definition path_join (a : string) (p : list string) : string :=
  fold_left path_join2 p a.

(** The newline character as a string. *)
Definition nl : string := String "010"%char EmptyString.

(** [sorted(xs)] on strings. *)
Definition sorted (xs : list string) : list string := merge_sort String.le xs.

(** Truth value of a path that may be [None]. *)
Definition truthy (p : option string) : bool :=
  match p with
  | Some s => negb (String.eqb s "")
  | None => false
  end.

End Py.

(** ** Exceptions, log records and the monad of the test class *)

(** The exception classes the module names, and a catch-all for any other
    class an external call may raise.  [TestFailure] is what [asserts.fail],
    [asserts.assertTrue] and [asserts.assertEqual] raise; it carries the
    message handed to the assertion. *)
Inductive exn : Type :=
| IOError
| ElfError
| VtableError
| TestFailure (msg : string)
| OtherException (class_name : string).

Inductive result (A : Type) : Type :=
| Ok (a : A)
| Raised (e : exn).
Arguments Ok {A} a.
Arguments Raised {A} e.

(** A vtable layout as the vtable parser returns it:
    a dict from vtable name to the list of (offset, symbol) entries. *)
Abbreviation Vtables := (gmap string (list (Z * string))).

(** A mismatch record (VTABLE, SYMBOL, EXPECTED_OFFSET, ACTUAL_OFFSET). *)
Abbreviation Mismatch := (string * string * string * string)%type.

Inductive Level : Type := DEBUG | INFO | WARNING | ERROR.

(** Arguments of a logging call, kept unformatted as [logging] does. *)
Inductive LogArg : Type :=
| AStr (s : string)
| ASymbols (l : list string)
| AVtables (v : Vtables).

Record LogRecord : Type := mkLog {
  level : Level;
  msg : string;
  args : list LogArg;
  exc_info : option exn
}.

Abbreviation Log := (list LogRecord).

Definition M (A : Type) : Type := Log -> result A * Log.

Definition ret {A} (a : A) : M A := fun l => (Ok a, l).

Definition bind {A B} (m : M A) (k : A -> M B) : M B :=
  fun l => match m l with
           | (Ok a, l') => k a l'
           | (Raised e, l') => (Raised e, l')
           end.

Definition raise {A} (e : exn) : M A := fun l => (Raised e, l).

(** [try: body  except classes: handler] *)
Definition try_except {A} (body : M A) (classes : exn -> bool)
    (handler : exn -> M A) : M A :=
  fun l => match body l with
           | (Raised e, l') => if classes e then handler e l' else (Raised e, l')
           | r => r
           end.

(** Lifting the outcome of an external call. *)
Definition call {A} (r : result A) : M A := fun l => (r, l).

Definition logging (lv : Level) (m : string) (a : list LogArg)
    (exc : option exn) : M unit :=
  fun l => (Ok tt, l ++ [mkLog lv m a exc]).

Notation "'let*' x ':=' c1 'in' c2" := (bind c1 (fun x => c2))
  (at level 10, x pattern, c1 at level 100, c2 at level 200).

(** A [for] loop threading an accumulator through a monadic body. *)
Fixpoint for_each {A S} (xs : list A) (body : S -> A -> M S) (s : S) : M S :=
  match xs with
  | [] => ret s
  | x :: xs' => let* s' := body s x in for_each xs' body s'
  end.

(** [vts.runners.host.asserts]: a failed assertion raises [TestFailure]. *)
Module asserts.

Definition fail {A} (m : string) : M A := raise (TestFailure m).

Definition assertTrue (expr : bool) (m : string) : M unit :=
  if expr then ret tt else fail m.

Definition assertEqual (first second : nat) (m : string) : M unit :=
  if (first =? second)%nat then ret tt else fail m.

End asserts.

(** ** The host, the device and the external parsers *)

Record World : Type := mkWorld {
  (** [utils.iterate_files(dir)]: (root_dir, file_name) of every file below *)
  iterate_files : string -> list (string * string);
  (** [open(path, "r")] and reading it; [None] is an [IOError] *)
  read_file : string -> option string;
  (** [os.path.isdir] *)
  isdir : string -> bool;
  (** [os.path.relpath(path, start)] *)
  relpath : string -> string -> string;
  (** [elf_parser.ElfParser(lib_path)], [ListGlobalDynamicSymbols()], [Close()] *)
  ListGlobalDynamicSymbols : string -> result (list string);
  (** [VtableParser(dumper_dir).ParseVtablesFromString(text)] *)
  ParseVtablesFromString : string -> string -> result Vtables;
  (** [VtableParser(dumper_dir).ParseVtablesFromLibrary(lib_path)] *)
  ParseVtablesFromLibrary : string -> string -> result Vtables;
  (** attributes of the test object and of the device under test *)
  data_file_path : string;
  _temp_dir : string;
  _sdk_version : string;
  cpu_abi : string;
  is64Bit : bool
}.

Module VtsVndkAbiTest.

Definition _DUMP_DIR : string :=
  Py.path_join "vts" ["testcases"; "vndk"; "golden"].

Section WithWorld.

Variable w : World.

Definition _vendor_lib : string := Py.path_join (_temp_dir w) ["vendor_lib"].
Definition _vendor_lib64 : string := Py.path_join (_temp_dir w) ["vendor_lib64"].
Definition _system_lib : string := Py.path_join (_temp_dir w) ["system_lib"].
Definition _system_lib64 : string := Py.path_join (_temp_dir w) ["system_lib64"].

(** [with open(path, "r") as f: f.read()] *)
Definition open_read (path : string) : M string :=
  match read_file w path with
  | Some text => ret text
  | None => raise IOError
  end.

(** *** _DiffSymbols *)

(** [set(line.strip() for line in dump_file if line.strip())] *)
Definition dump_symbol_set (text : string) : gset string :=
  list_to_set
    (map Py.strip
       (filter (fun line => Py.strip line <> "") (Py.readlines text))).

Definition _DiffSymbols (dump_path lib_path : string) : M (list string) :=
  let* text := open_read dump_path in
  let dump_symbols := dump_symbol_set text in
  let* lib_symbols := call (ListGlobalDynamicSymbols w lib_path) in
  let* _ := logging DEBUG "%s: %s" [AStr lib_path; ASymbols lib_symbols] None in
  ret (Py.sorted (elements (dump_symbols ∖ list_to_set lib_symbols))).

(** *** _DiffVtables *)

(** The directory handed to [vtable_parser.VtableParser]. *)
Definition vtable_parser_dir : string :=
  Py.path_join (data_file_path w) ["host"].

(** The inner loop that fills [lib_inv_vtable]: symbol to its offsets. *)
Definition lib_inv_vtable_add (inv : gmap string (list Z)) (entry : Z * string)
    : gmap string (list Z) :=
  let '(off, sym) := entry in
  match inv !! sym with
  | None => <[sym := [off]]> inv
  | Some offs => <[sym := offs ++ [off]]> inv
  end.

Definition build_lib_inv_vtable (lib_vtables : Vtables) (vtable : string)
    : gmap string (list Z) :=
  match lib_vtables !! vtable with
  | Some entries => fold_left lib_inv_vtable_add entries ∅
  | None => ∅
  end.

(** What one [(off, sym)] of the dump appends to [diff]. *)
Definition diff_entry (lib_inv_vtable : gmap string (list Z)) (vtable : string)
    (entry : Z * string) : list Mismatch :=
  let '(off, sym) := entry in
  match lib_inv_vtable !! sym with
  | None => [(vtable, sym, Py.str off, "missing")]
  | Some offs =>
      if bool_decide (off ∈ offs) then []
      else [(vtable, sym, Py.str off, Py.join "," (map Py.str offs))]
  end.

(** The body of [for vtable, dump_symbols in dump_vtables.iteritems()]. *)
Definition diff_vtable (lib_vtables : Vtables) (diff : list Mismatch)
    (item : string * list (Z * string)) : list Mismatch :=
  let '(vtable, dump_symbols) := item in
  let lib_inv_vtable := build_lib_inv_vtable lib_vtables vtable in
  fold_left (fun diff entry => diff ++ diff_entry lib_inv_vtable vtable entry)
            dump_symbols diff.

(** [dump_vtables.iteritems()] yields the vtables in the order of the
    interpreter's hash table, which the model does not know: the order of
    [map_to_list] stands for it.  The records of the diff, and the order of
    those of one vtable, are the same in every order of iteration; this is
    proved at the end of the development. *)
Definition diff_vtables (dump_vtables lib_vtables : Vtables) : list Mismatch :=
  fold_left (diff_vtable lib_vtables) (map_to_list dump_vtables) [].

Definition _DiffVtables (dump_path lib_path : string) : M (list Mismatch) :=
  let parser := vtable_parser_dir in
  let* text := open_read dump_path in
  let* dump_vtables := call (ParseVtablesFromString w parser text) in
  let* lib_vtables := call (ParseVtablesFromLibrary w parser lib_path) in
  let* _ := logging DEBUG "%s: %s" [AStr lib_path; AVtables lib_vtables] None in
  ret (diff_vtables dump_vtables lib_vtables).

(** *** _ScanLibDirs *)

(** The three dicts filled from the dump directory.  In [lib_paths] the
    value [None] is Python's [None]. *)
Record Dumps : Type := mkDumps {
  symbol_dumps : gmap string string;
  vtable_dumps : gmap string string;
  lib_paths : gmap string (option string)
}.

(** The body of [for root_dir, file_name in utils.iterate_files(dump_dir)]. *)
Definition register_dump (d : Dumps) (item : string * string) : M Dumps :=
  let '(root_dir, file_name) := item in
  let dump_path := Py.path_join root_dir [file_name] in
  if Py.endswith file_name "_symbol.dump" then
    let lib_name := (Py.rpartition file_name "_symbol.dump").1.1 in
    ret (mkDumps (<[lib_name := dump_path]> (symbol_dumps d))
                 (vtable_dumps d)
                 (<[lib_name := None]> (lib_paths d)))
  else if Py.endswith file_name "_vtable.dump" then
    let lib_name := (Py.rpartition file_name "_vtable.dump").1.1 in
    ret (mkDumps (symbol_dumps d)
                 (<[lib_name := dump_path]> (vtable_dumps d))
                 (<[lib_name := None]> (lib_paths d)))
  else
    let* _ := logging WARNING ("Unknown dump: " ++ dump_path) [] None in
    ret d.

(** The body of [for root_dir, lib_name in utils.iterate_files(lib_dir)]. *)
Definition bind_lib_path (paths : gmap string (option string))
    (item : string * string) : gmap string (option string) :=
  let '(root_dir, lib_name) := item in
  match paths !! lib_name with
  | Some bound =>
      if negb (Py.truthy bound)
      then <[lib_name := Some (Py.path_join root_dir [lib_name])]> paths
      else paths
  | None => paths
  end.

(** [for lib_dir in lib_dirs: for ... in utils.iterate_files(lib_dir): ...] *)
Definition resolve_lib_paths (paths : gmap string (option string))
    (lib_dirs : list string) : gmap string (option string) :=
  fold_left
    (fun paths lib_dir => fold_left bind_lib_path (iterate_files w lib_dir) paths)
    lib_dirs paths.

(** [except (IOError, elf_parser.ElfError)] *)
Definition symbol_handler_catches (e : exn) : bool :=
  match e with
  | IOError | ElfError => true
  | _ => false
  end.

(** [except (IOError, vtable_parser.VtableError)] *)
Definition vtable_handler_catches (e : exn) : bool :=
  match e with
  | IOError | VtableError => true
  | _ => false
  end.

(** "Compare symbols": the new [missing_symbols] and [has_exception]. *)
Definition compare_symbols (d : Dumps) (lib_name lib_path rel_path : string)
    (has_exception : bool) : M (list string * bool) :=
  match symbol_dumps d !! lib_name with
  | Some dump_path =>
      try_except
        (let* missing_symbols := _DiffSymbols dump_path lib_path in
         ret (missing_symbols, has_exception))
        symbol_handler_catches
        (fun e =>
           let* _ := logging ERROR "%s: Cannot diff symbols" [AStr rel_path] (Some e) in
           ret ([], true))
  | None => ret ([], has_exception)
  end.

(** "Compare vtables": the new [vtable_diff] and [has_exception]. *)
Definition compare_vtables (d : Dumps) (lib_name lib_path rel_path : string)
    (has_exception : bool) : M (list Mismatch * bool) :=
  match vtable_dumps d !! lib_name with
  | Some dump_path =>
      try_except
        (let* vtable_diff := _DiffVtables dump_path lib_path in
         ret (vtable_diff, has_exception))
        vtable_handler_catches
        (fun e =>
           let* _ := logging ERROR "%s: Cannot diff vtables" [AStr rel_path] (Some e) in
           ret ([], true))
  | None => ret ([], has_exception)
  end.

(** Truth value of a list. *)
Definition nonempty {A} (l : list A) : bool :=
  match l with [] => false | _ => true end.

Definition mismatch_words (x : Mismatch) : list string :=
  let '(vtable, sym, expected, actual) := x in [vtable; sym; expected; actual].

(** The tail of the loop body: the two error reports and the verdict. *)
Definition report_lib (rel_path : string) (has_exception : bool)
    (missing_symbols : list string) (vtable_diff : list Mismatch)
    (error_count : nat) : M nat :=
  let* _ :=
    (if nonempty missing_symbols
     then logging ERROR ("%s: Missing Symbols:" ++ Py.nl ++ "%s")
            [AStr rel_path; AStr (Py.join Py.nl missing_symbols)] None
     else ret tt) in
  let* _ :=
    (if nonempty vtable_diff
     then logging ERROR
            ("%s: Vtable Difference:" ++ Py.nl ++
             "vtable symbol expected actual" ++ Py.nl ++ "%s")
            [AStr rel_path;
             AStr (Py.join Py.nl
                     (map (fun x => Py.join " " (mismatch_words x)) vtable_diff))]
            None
     else ret tt) in
  if has_exception || nonempty missing_symbols || nonempty vtable_diff
  then ret (S error_count)
  else
    let* _ := logging INFO "%s: Pass" [AStr rel_path] None in
    ret error_count.

(** The body of [for lib_name, lib_path in lib_paths.iteritems()]. *)
Definition scan_lib (d : Dumps) (error_count : nat)
    (item : string * option string) : M nat :=
  let '(lib_name, bound) := item in
  if negb (Py.truthy bound) then
    let* _ := logging INFO "%s: Not found on target" [AStr lib_name] None in
    ret error_count
  else
    let lib_path := default "" bound in
    let rel_path := relpath w lib_path (_temp_dir w) in
    let has_exception := false in
    let* (missing_symbols, has_exception) :=
      compare_symbols d lib_name lib_path rel_path has_exception in
    let* (vtable_diff, has_exception) :=
      compare_vtables d lib_name lib_path rel_path has_exception in
    report_lib rel_path has_exception missing_symbols vtable_diff error_count.

(** [lib_paths.iteritems()] likewise: the libraries are visited in the
    order of [map_to_list], which stands for the order of the interpreter's
    hash table.  The count returned and the records logged are the same in
    every order of iteration; this is proved at the end of the
    development. *)
Definition _ScanLibDirs (dump_dir : string) (lib_dirs : list string) : M nat :=
  let error_count := 0 in
  let* d := for_each (iterate_files w dump_dir) register_dump
                     (mkDumps ∅ ∅ ∅) in
  let paths := resolve_lib_paths (lib_paths d) lib_dirs in
  for_each (map_to_list paths) (scan_lib d) error_count.

(** *** testAbiCompatibility *)

Definition abi_families (abi : string) : M (string * string) :=
  if Py.startswith abi "arm" then ret ("arm", "arm64")
  else if Py.startswith abi "x86" then ret ("x86", "x86_64")
  else if Py.startswith abi "mips" then ret ("mips", "mips64")
  else asserts.fail ("Unknown ABI " ++ abi).

Definition no_dump_files : string :=
  "No dump files for SDK version " ++ _sdk_version w.

Definition testAbiCompatibility : M unit :=
  let abi := cpu_abi w in
  let* (abi_32, abi_64) := abi_families abi in
  let dump_dir_32 := Py.path_join _DUMP_DIR [_sdk_version w; abi_32] in
  let dump_dir_64 := Py.path_join _DUMP_DIR [_sdk_version w; abi_64] in
  let* _ := logging INFO "Check 32-bit libraries" [] None in
  let* _ := asserts.assertTrue (isdir w dump_dir_32) no_dump_files in
  let* error_count := _ScanLibDirs dump_dir_32 [_vendor_lib; _system_lib] in
  let* error_count :=
    (if is64Bit w then
       let* _ := logging INFO "Check 64-bit libraries" [] None in
       let* _ := asserts.assertTrue (isdir w dump_dir_64) no_dump_files in
       let* more := _ScanLibDirs dump_dir_64 [_vendor_lib64; _system_lib64] in
       ret (error_count + more)
     else ret error_count) in
  asserts.assertEqual error_count 0
    ("Total number of errors: " ++ Py.str (Z.of_nat error_count)).

End WithWorld.

End VtsVndkAbiTest.

Import VtsVndkAbiTest.

(** ** Vocabulary of the specification *)

(** *** Symbol dumps *)

(** Python's [a < b] on [str]. *)
Definition str_lt (a b : string) : Prop := String.compare a b = Lt.

(** [s] is a trimmed, non-empty line of the dump text. *)
Definition dump_line_symbol (text s : string) : Prop :=
  ∃ line, line ∈ Py.readlines text ∧ s = Py.strip line ∧ s ≠ "".

(** *** Vtable layouts *)

(** The offsets at which [sym] appears in a list of entries, in list order. *)
Definition offsets_in (sym : string) (entries : list (Z * string)) : list Z :=
  map fst (filter (fun e : Z * string => e.2 = sym) entries).

(** The offsets at which [sym] appears in the actual vtable named [vtable];
    none when the library has no vtable of that name. *)
Definition actual_offsets (lib_vtables : Vtables) (vtable sym : string) : list Z :=
  offsets_in sym (default [] (lib_vtables !! vtable)).

(** The symbol occurs at some offset in the same-named actual vtable. *)
Definition occurs_in_actual (lib_vtables : Vtables) (vtable sym : string) : Prop :=
  ∃ entries off, lib_vtables !! vtable = Some entries ∧ (off, sym) ∈ entries.

(** offsets collected so far, extended by the offsets of later entries *)
Definition extend_offsets (o : option (list Z)) (offs : list Z) : option (list Z) :=
  match offs with
  | [] => o
  | _ => Some (default [] o ++ offs)
  end.

(** The vtable differ as the specification words it: the record, if any,
    for one expected (offset, symbol) pair of one golden vtable. *)
Definition spec_mismatch (lib_vtables : Vtables) (vtable : string)
    (entry : Z * string) : list Mismatch :=
  let '(off, sym) := entry in
  match actual_offsets lib_vtables vtable sym with
  | [] => [(vtable, sym, Py.str off, "missing")]
  | offs =>
      if bool_decide (off ∈ offs) then []
      else [(vtable, sym, Py.str off, Py.join "," (map Py.str offs))]
  end.

(** For each vtable id of the golden layout, for each expected pair. *)
Definition spec_DiffVtables (dump_vtables lib_vtables : Vtables) : list Mismatch :=
  flat_map (fun item : string * list (Z * string) =>
              flat_map (spec_mismatch lib_vtables item.1) item.2)
           (map_to_list dump_vtables).

(** The characters of a comma-separated list of decimal integers. *)
Definition offset_char (c : ascii) : bool :=
  let n := N_of_ascii c in
  ((48 <=? n)%N && (n <=? 57)%N) || (n =? 45)%N || (n =? 44)%N.

Fixpoint string_forall (p : ascii -> bool) (s : string) : bool :=
  match s with
  | EmptyString => true
  | String c s' => p c && string_forall p s'
  end.

(** *** Log records of the scan *)

Definition not_found_record (lib_name : string) : LogRecord :=
  mkLog INFO "%s: Not found on target" [AStr lib_name] None.

Definition pass_record (rel_path : string) : LogRecord :=
  mkLog INFO "%s: Pass" [AStr rel_path] None.

Definition exception_record (m rel_path : string) (e : exn) : LogRecord :=
  mkLog ERROR m [AStr rel_path] (Some e).

Definition check_record (bits : string) : LogRecord :=
  mkLog INFO ("Check " ++ bits ++ "-bit libraries") [] None.

(** *** Failures of the external parsers *)

(** The parsers raise only the classes that the docstrings of [_DiffSymbols]
    and [_DiffVtables] list under "Raises": [IOError] or [ElfError] from the
    ELF parser, [IOError] or [VtableError] from the vtable parser. *)
Definition documented_failures (w : World) : Prop :=
  (∀ lib_path e, ListGlobalDynamicSymbols w lib_path = Raised e ->
                 e = IOError ∨ e = ElfError) ∧
  (∀ dir text e, ParseVtablesFromString w dir text = Raised e ->
                 e = IOError ∨ e = VtableError) ∧
  (∀ dir lib_path e, ParseVtablesFromLibrary w dir lib_path = Raised e ->
                     e = IOError ∨ e = VtableError).

(** Dump unreadable, or binary not loadable. *)
Definition symbols_diff_fails (w : World) (dump_path lib_path : string) : Prop :=
  read_file w dump_path = None ∨
  ∃ e, ListGlobalDynamicSymbols w lib_path = Raised e.

(** Dump unreadable, vtable parse failure, or binary not loadable. *)
Definition vtables_diff_fails (w : World) (dump_path lib_path : string) : Prop :=
  read_file w dump_path = None ∨
  ∃ text, read_file w dump_path = Some text ∧
    ((∃ e, ParseVtablesFromString w (vtable_parser_dir w) text = Raised e) ∨
     (∃ e, ParseVtablesFromLibrary w (vtable_parser_dir w) lib_path = Raised e)).

(** *** Dumps and search directories *)

(** A library name has a dump of some kind. *)
Definition registered (d : Dumps) (lib_name : string) : Prop :=
  is_Some (symbol_dumps d !! lib_name) ∨ is_Some (vtable_dumps d !! lib_name).

(** Every file the search directories list, in the order they are visited. *)
Definition files_in_order (w : World) (lib_dirs : list string)
    : list (string * string) :=
  flat_map (iterate_files w) lib_dirs.

(** After the first loop [lib_paths] holds [None] for exactly the names
    that have a dump. *)
Definition paths_match_dumps (d : Dumps) : Prop :=
  ∀ lib_name,
    lib_paths d !! lib_name =
      if decide (registered d lib_name) then Some None else None.

(** The dump directory of one ABI family for the device's SDK version. *)
Definition dump_dir (w : World) (abi_family : string) : string :=
  Py.path_join _DUMP_DIR [_sdk_version w; abi_family].

(** *** Records about libraries in the log *)

(** The records the per-library code writes all start with the library. *)
Definition per_library_record (r : LogRecord) : bool :=
  Py.startswith (msg r) "%s: ".

Definition library_records (log : Log) : Log :=
  filter (fun r => per_library_record r = true) log.

(** The run ends in the configuration error and has written no record about
    any library. *)
Definition fails_before_any_library (w : World) (log : Log) : Prop :=
  ∃ log',
    testAbiCompatibility w log = (Raised (TestFailure (no_dump_files w)), log') ∧
    library_records log' = library_records log.

(** ** Two devices to run the module on *)

Definition golden_dir : string := "vts/testcases/vndk/golden/26/arm".

(** [os.path.relpath] for a path that lies below [start]. *)
Definition relpath_below (p start : string) : string :=
  substring (S (String.length start))
            (String.length p - S (String.length start)) p.

Definition golden0 : Vtables :=
  {[ "Vtable_X" := [(0, "m1"); (16, "m2"); (24, "m2"); (32, "m3")]%Z ]}.

Definition actual0 : Vtables :=
  {[ "Vtable_X" := [(0, "m1"); (8, "m2"); (16, "m2")]%Z;
     "Vtable_Z" := [(0, "z")]%Z ]}.

(** A 32-bit ARM device: libfoo.so is in vendor and in system, libbar.so is
    nowhere, and the symbol dump of libbaz.so cannot be read. *)
Definition w32 : World := {|
  iterate_files := fun d =>
    if String.eqb d golden_dir
    then [(d, "libfoo.so_symbol.dump"); (d, "libfoo.so_vtable.dump");
          (d, "libbar.so_symbol.dump"); (d, "libbaz.so_symbol.dump");
          (d, "README")]
    else if String.eqb d "/tmp/abi/vendor_lib"
    then [("/tmp/abi/vendor_lib/hw", "libfoo.so")]
    else if String.eqb d "/tmp/abi/system_lib"
    then [("/tmp/abi/system_lib", "libfoo.so");
          ("/tmp/abi/system_lib", "libbaz.so");
          ("/tmp/abi/system_lib", "libc.so")]
    else [];
  read_file := fun p =>
    if String.eqb p (golden_dir ++ "/libfoo.so_symbol.dump")
    then Some ("foo" ++ Py.nl ++ "  bar " ++ Py.nl ++ Py.nl ++ "foo")%string
    else if String.eqb p (golden_dir ++ "/libfoo.so_vtable.dump")
    then Some "vtables"
    else if String.eqb p (golden_dir ++ "/libbar.so_symbol.dump")
    then Some "bar"
    else None;
  isdir := fun d => String.eqb d golden_dir;
  relpath := relpath_below;
  ListGlobalDynamicSymbols := fun _ => Ok ["foo"; "baz"];
  ParseVtablesFromString := fun _ _ => Ok golden0;
  ParseVtablesFromLibrary := fun _ _ => Ok actual0;
  data_file_path := "/data";
  _temp_dir := "/tmp/abi";
  _sdk_version := "26";
  cpu_abi := "armeabi-v7a";
  is64Bit := false
|}.

(** The same device, its ELF parser listing the symbols in another order
    and one of them twice. *)
Definition w32_reordered : World := {|
  iterate_files := iterate_files w32;
  read_file := read_file w32;
  isdir := isdir w32;
  relpath := relpath w32;
  ListGlobalDynamicSymbols := fun _ => Ok ["baz"; "foo"; "baz"];
  ParseVtablesFromString := ParseVtablesFromString w32;
  ParseVtablesFromLibrary := ParseVtablesFromLibrary w32;
  data_file_path := "/other/data";
  _temp_dir := "/tmp/other";
  _sdk_version := "26";
  cpu_abi := "armeabi-v7a";
  is64Bit := false
|}.

(** The dicts [_ScanLibDirs] builds from the dump directory of [w32]. *)
Definition dumps32 : Dumps :=
  mkDumps
    {[ "libfoo.so" := (golden_dir ++ "/libfoo.so_symbol.dump")%string;
       "libbar.so" := (golden_dir ++ "/libbar.so_symbol.dump")%string;
       "libbaz.so" := (golden_dir ++ "/libbaz.so_symbol.dump")%string ]}
    {[ "libfoo.so" := (golden_dir ++ "/libfoo.so_vtable.dump")%string ]}
    {[ "libfoo.so" := None; "libbar.so" := None; "libbaz.so" := None ]}.

Definition unknown_dump_record : LogRecord :=
  mkLog WARNING ("Unknown dump: " ++ golden_dir ++ "/README") [] None.

(** A 64-bit ARM device whose golden tree has 32-bit dumps only. *)
Definition w64 : World := {|
  iterate_files := fun d =>
    if String.eqb d golden_dir
    then [(d, "libfoo.so_symbol.dump")]
    else if String.eqb d "/tmp/abi/vendor_lib"
    then [("/tmp/abi/vendor_lib", "libfoo.so")]
    else [];
  read_file := fun p =>
    if String.eqb p (golden_dir ++ "/libfoo.so_symbol.dump")
    then Some "foo" else None;
  isdir := fun d => String.eqb d golden_dir;
  relpath := relpath_below;
  ListGlobalDynamicSymbols := fun _ => Ok ["foo"; "bar"];
  ParseVtablesFromString := fun _ _ => Ok ∅;
  ParseVtablesFromLibrary := fun _ _ => Ok ∅;
  data_file_path := "/data";
  _temp_dir := "/tmp/abi";
  _sdk_version := "26";
  cpu_abi := "arm64-v8a";
  is64Bit := true
|}.

(** ** Vocabulary for the rest of the module *)

(** *** Dump files *)

(** The files of a listing named [lib_name] followed by [suffix]. *)
Definition dump_files_of (suffix lib_name : string)
    (files : list (string * string)) : list (string * string) :=
  filter (fun item : string * string => item.2 = (lib_name ++ suffix)%string)
         files.

(** The path of the last such file, in listing order. *)
Definition last_dump_path (suffix lib_name : string)
    (files : list (string * string)) : option string :=
  match last (dump_files_of suffix lib_name files) with
  | Some (root_dir, file_name) => Some (Py.path_join root_dir [file_name])
  | None => None
  end.

(** A file name with neither dump suffix. *)
Definition unknown_dump (item : string * string) : bool :=
  negb (Py.endswith item.2 "_symbol.dump") &&
  negb (Py.endswith item.2 "_vtable.dump").

Definition unknown_dump_warning (item : string * string) : LogRecord :=
  mkLog WARNING ("Unknown dump: " ++ Py.path_join item.1 [item.2]) [] None.

Definition unknown_dump_warnings (files : list (string * string)) : Log :=
  map unknown_dump_warning (filter (fun item => unknown_dump item = true) files).

(** *** Scanned libraries and verdicts *)

(** The libraries of a dict of paths that were found on the target. *)
Definition found_on_target (items : list (string * option string))
    : list (string * option string) :=
  filter (fun item : string * option string => Py.truthy item.2 = true) items.

(** The record [report_lib] writes about a non-empty vtable diff. *)
Definition vtable_difference_record (rel_path : string)
    (vtable_diff : list Mismatch) : LogRecord :=
  mkLog ERROR
    ("%s: Vtable Difference:" ++ Py.nl ++
     "vtable symbol expected actual" ++ Py.nl ++ "%s")
    [AStr rel_path;
     AStr (Py.join Py.nl
             (map (fun x => Py.join " " (mismatch_words x)) vtable_diff))]
    None.

(** What [asserts.assertEqual(error_count, 0, ...)] makes of a count. *)
Definition verdict (error_count : nat) : result unit :=
  match error_count with
  | 0 => Ok tt
  | _ => Raised (TestFailure
                   ("Total number of errors: " ++ Py.str (Z.of_nat error_count)))
  end.

(** *** Vtable layouts, again *)

(** Every expected pair of the golden layout is in the same-named actual
    vtable. *)
Definition layout_kept (dump_vtables lib_vtables : Vtables) : Prop :=
  ∀ vtable entries off sym,
    dump_vtables !! vtable = Some entries -> (off, sym) ∈ entries ->
    ∃ lib_entries, lib_vtables !! vtable = Some lib_entries ∧
                   (off, sym) ∈ lib_entries.

(** The record for an expected pair whose symbol the library lacks. *)
Definition missing_record (vtable : string) (entry : Z * string) : Mismatch :=
  (vtable, entry.2, Py.str entry.1, "missing").

(** The number of expected pairs of a layout. *)
Definition expected_pairs (dump_vtables : Vtables) : nat :=
  sum_list (map (fun item : string * list (Z * string) => length item.2)
                (map_to_list dump_vtables)).

(** *** The verdict on a library *)

(** A computation only appends to the log, and what it returns and appends
    does not depend on the log it starts from. *)
Definition appends_only {A} (m : M A) : Prop :=
  ∀ log, m log = ((m []).1, log ++ (m []).2).

(** What [_DiffSymbols] answers for a library that has a symbol dump: the
    list it returns, or the exception it raises. *)
Definition symbols_result (w : World) (d : Dumps) (lib_name lib_path : string)
    (r : result (list string)) : Prop :=
  ∃ dump_path log,
    symbol_dumps d !! lib_name = Some dump_path ∧
    (_DiffSymbols w dump_path lib_path log).1 = r.

(** What [_DiffVtables] answers for a library that has a vtable dump. *)
Definition vtables_result (w : World) (d : Dumps) (lib_name lib_path : string)
    (r : result (list Mismatch)) : Prop :=
  ∃ dump_path log,
    vtable_dumps d !! lib_name = Some dump_path ∧
    (_DiffVtables w dump_path lib_path log).1 = r.

(** The verdict of the specification on a library with a path: it is
    incompatible when [_DiffSymbols] returns a non-empty list for it, when
    [_DiffVtables] returns a non-empty list for it, or when one of the two
    raises. *)
Definition library_incompatible (w : World) (d : Dumps)
    (lib_name lib_path : string) : Prop :=
  (∃ missing_symbols,
     symbols_result w d lib_name lib_path (Ok missing_symbols) ∧
     missing_symbols ≠ []) ∨
  (∃ vtable_diff,
     vtables_result w d lib_name lib_path (Ok vtable_diff) ∧ vtable_diff ≠ []) ∨
  (∃ e, symbols_result w d lib_name lib_path (Raised e)) ∨
  (∃ e, vtables_result w d lib_name lib_path (Raised e)).

(** The record [report_lib] writes about a non-empty list of missing
    symbols. *)
Definition missing_symbols_record (rel_path : string)
    (missing_symbols : list string) : LogRecord :=
  mkLog ERROR ("%s: Missing Symbols:" ++ Py.nl ++ "%s")
    [AStr rel_path; AStr (Py.join Py.nl missing_symbols)] None.

(** A record that tells the verdict on the library at [rel_path]: the pass
    record, or a record of level ERROR about that path. *)
Definition verdict_record (rel_path : string) (r : LogRecord) : Prop :=
  r = pass_record rel_path ∨
  (level r = ERROR ∧ head (args r) = Some (AStr rel_path)).

(** The records hold what the loop over [lib_paths] writes about an item:
    "Not found on target" for a name without a path, a verdict for a name
    with one. *)
Definition examined (w : World) (item : string * option string) (new : Log)
    : Prop :=
  if Py.truthy item.2
  then ∃ r, r ∈ new ∧
            verdict_record (relpath w (default "" item.2) (_temp_dir w)) r
  else not_found_record item.1 ∈ new.

(** ** Setting the test class up and tearing it down

    [setUpClass], [_PullOrCreateDir] and [tearDownClass] talk to the device
    through adb and to the host file system.  The calls they issue are kept
    in a trace next to the log. *)

(** A call issued to the device or to the host file system. *)
Inductive HostOp : Type :=
| OpMkdtemp
| OpShell (cmd : string)
| OpMkdir (path : string) (mode : nat)
| OpPull (target_dir host_dir : string)
| OpRmtree (path : string).

(** The framework, the device and the host, as far as set-up uses them. *)
Record Bench : Type := mkBench {
  (** [self.getUserParams(required_params)]: the data file path *)
  getUserParams : result string;
  (** [self.registerController(android_device)[0]] *)
  registerController : result unit;
  dut_is64Bit : bool;
  (** [tempfile.mkdtemp()] *)
  mkdtemp : result string;
  (** [os.mkdir(path, mode)] *)
  os_mkdir : string -> nat -> result unit;
  (** [adb.shell(cmd, no_except=True)[const.EXIT_CODE]] *)
  adb_shell_exit_code : string -> result Z;
  (** [adb.shell(cmd)]: the output *)
  adb_shell : string -> result string;
  (** [adb.pull(target_dir, host_dir)]: the output *)
  adb_pull : string -> string -> result string;
  (** [shutil.rmtree(path)] *)
  shutil_rmtree : string -> result unit
}.

(** What [setUpClass] leaves in [self]. *)
Record Attributes : Type := mkAttributes {
  attr_data_file_path : string;
  attr_temp_dir : string;
  attr_sdk_version : string
}.

Module SetUp.

Record Host : Type := mkHost {
  host_log : Log;
  host_ops : list HostOp
}.

Definition H (A : Type) : Type := Host -> result A * Host.

Definition hret {A} (a : A) : H A := fun h => (Ok a, h).

Definition hbind {A B} (m : H A) (k : A -> H B) : H B :=
  fun h => match m h with
           | (Ok a, h') => k a h'
           | (Raised e, h') => (Raised e, h')
           end.

(** A call of the framework that leaves no trace. *)
Definition framework {A} (r : result A) : H A := fun h => (r, h).

(** A call to the device or the file system: it is issued, then returns or
    raises. *)
Definition external {A} (op : HostOp) (r : result A) : H A :=
  fun h => (r, mkHost (host_log h) (host_ops h ++ [op])).

Definition hlogging (lv : Level) (m : string) (a : list LogArg) : H unit :=
  fun h => (Ok tt, mkHost (host_log h ++ [mkLog lv m a None]) (host_ops h)).

Notation "'let+' x ':=' c1 'in' c2" := (hbind c1 (fun x => c2))
  (at level 10, x pattern, c1 at level 100, c2 at level 200).

Definition _TARGET_VENDOR_LIB : string := "/vendor/lib".
Definition _TARGET_VENDOR_LIB64 : string := "/vendor/lib64".
Definition _TARGET_SYSTEM_LIB : string := "/system/lib".
Definition _TARGET_SYSTEM_LIB64 : string := "/system/lib64".

Section WithBench.

Variable b : Bench.

Definition _PullOrCreateDir (target_dir host_dir : string) : H unit :=
  let test_cmd := ("test -d " ++ target_dir)%string in
  let+ _ := hlogging INFO "adb shell %s" [AStr test_cmd] in
  let+ exit_code := external (OpShell test_cmd) (adb_shell_exit_code b test_cmd) in
  if negb (exit_code =? 0)%Z then
    let+ _ := hlogging INFO "%s doesn't exist. Create %s."
                [AStr target_dir; AStr host_dir] in
    external (OpMkdir host_dir 488) (os_mkdir b host_dir 488)
  else
    let+ _ := hlogging INFO "adb pull %s %s" [AStr target_dir; AStr host_dir] in
    let+ pull_output :=
      external (OpPull target_dir host_dir) (adb_pull b target_dir host_dir) in
    hlogging DEBUG pull_output [].

Definition setUpClass : H Attributes :=
  let+ data_file_path := framework (getUserParams b) in
  let+ _ := framework (registerController b) in
  let+ _temp_dir := external OpMkdtemp (mkdtemp b) in
  let _vendor_lib := Py.path_join _temp_dir ["vendor_lib"] in
  let _vendor_lib64 := Py.path_join _temp_dir ["vendor_lib64"] in
  let _system_lib := Py.path_join _temp_dir ["system_lib"] in
  let _system_lib64 := Py.path_join _temp_dir ["system_lib64"] in
  let+ _ := hlogging INFO "host lib dir: %s %s %s %s"
              [AStr _vendor_lib; AStr _vendor_lib64;
               AStr _system_lib; AStr _system_lib64] in
  let+ _ := _PullOrCreateDir _TARGET_VENDOR_LIB _vendor_lib in
  let+ _ := _PullOrCreateDir _TARGET_SYSTEM_LIB _system_lib in
  let+ _ :=
    (if dut_is64Bit b then
       let+ _ := _PullOrCreateDir _TARGET_VENDOR_LIB64 _vendor_lib64 in
       _PullOrCreateDir _TARGET_SYSTEM_LIB64 _system_lib64
     else hret tt) in
  let cmd := "getprop ro.build.version.sdk" in
  let+ _ := hlogging INFO "adb shell %s" [AStr cmd] in
  let+ output := external (OpShell cmd) (adb_shell b cmd) in
  let _sdk_version := Py.rstrip output in
  let+ _ := hlogging INFO "sdk version: %s" [AStr _sdk_version] in
  hret (mkAttributes data_file_path _temp_dir _sdk_version).

Definition tearDownClass (self : Attributes) : H unit :=
  let+ _ := hlogging INFO "Delete %s" [AStr (attr_temp_dir self)] in
  external (OpRmtree (attr_temp_dir self)) (shutil_rmtree b (attr_temp_dir self)).

End WithBench.

End SetUp.

(** The calls [_PullOrCreateDir] issues when nothing raises. *)
Definition provision_ops (b : Bench) (target_dir host_dir : string) : list HostOp :=
  [OpShell ("test -d " ++ target_dir);
   match adb_shell_exit_code b ("test -d " ++ target_dir) with
   | Ok 0%Z => OpPull target_dir host_dir
   | _ => OpMkdir host_dir 488
   end].

(** The host directories [testAbiCompatibility] scans on a device. *)
Definition scanned_dirs (temp_dir : string) (is64 : bool) : list string :=
  [Py.path_join temp_dir ["vendor_lib"]; Py.path_join temp_dir ["system_lib"]]
  ++ (if is64
      then [Py.path_join temp_dir ["vendor_lib64"];
            Py.path_join temp_dir ["system_lib64"]]
      else []).

(** A call that reads or writes one of the 64-bit library directories. *)
Definition touches_lib64 (op : HostOp) : bool :=
  match op with
  | OpShell cmd => Py.endswith cmd "lib64"
  | OpMkdir path _ => Py.endswith path "lib64"
  | OpPull target_dir host_dir =>
      Py.endswith target_dir "lib64" || Py.endswith host_dir "lib64"
  | _ => false
  end.

(** The calls issued between two states of the host all satisfy [P]. *)
Definition issued (P : HostOp -> Prop) (h h' : SetUp.Host) : Prop :=
  ∃ new, SetUp.host_ops h' = SetUp.host_ops h ++ new ∧ Forall P new.

(** ** More devices *)

(** A device whose ELF parser breaks down on libfoo.so with an exception
    that is neither an [IOError] nor an [ElfError]. *)
Definition w32_broken : World := {|
  iterate_files := iterate_files w32;
  read_file := read_file w32;
  isdir := isdir w32;
  relpath := relpath w32;
  ListGlobalDynamicSymbols := fun lib_path =>
    if String.eqb lib_path "/tmp/abi/vendor_lib/hw/libfoo.so"
    then Raised (OtherException "struct.error") else Ok ["foo"; "bar"];
  ParseVtablesFromString := ParseVtablesFromString w32;
  ParseVtablesFromLibrary := ParseVtablesFromLibrary w32;
  data_file_path := "/data";
  _temp_dir := "/tmp/abi";
  _sdk_version := "26";
  cpu_abi := "armeabi-v7a";
  is64Bit := false
|}.

(** The device of [w32] with a blank symbol dump, an old and a new build of
    one library, and a vtable dump taken from the library itself. *)
Definition w32_builds : World := {|
  iterate_files := iterate_files w32;
  read_file := fun p =>
    if String.eqb p "blank_symbol.dump"
    then Some (" " ++ Py.nl ++ String "009" Py.nl)%string
    else read_file w32 p;
  isdir := isdir w32;
  relpath := relpath w32;
  ListGlobalDynamicSymbols := fun lib_path =>
    if String.eqb lib_path "old/libfoo.so" then Ok ["baz"]
    else Ok ["foo"; "baz"];
  ParseVtablesFromString := fun _ _ => Ok golden0;
  ParseVtablesFromLibrary := fun _ _ => Ok golden0;
  data_file_path := "/data";
  _temp_dir := "/tmp/abi";
  _sdk_version := "26";
  cpu_abi := "armeabi-v7a";
  is64Bit := false
|}.

(** A device of an ABI the test does not know. *)
Definition w_riscv : World := {|
  iterate_files := iterate_files w32;
  read_file := read_file w32;
  isdir := fun _ => true;
  relpath := relpath w32;
  ListGlobalDynamicSymbols := ListGlobalDynamicSymbols w32;
  ParseVtablesFromString := ParseVtablesFromString w32;
  ParseVtablesFromLibrary := ParseVtablesFromLibrary w32;
  data_file_path := "/data";
  _temp_dir := "/tmp/abi";
  _sdk_version := "26";
  cpu_abi := "riscv64";
  is64Bit := true
|}.

(** A 32-bit device that has /vendor/lib but no /system/lib. *)
Definition bench32 : Bench := {|
  getUserParams := Ok "/data";
  registerController := Ok tt;
  dut_is64Bit := false;
  mkdtemp := Ok "/tmp/abi";
  os_mkdir := fun _ _ => Ok tt;
  adb_shell_exit_code := fun cmd =>
    if String.eqb cmd "test -d /vendor/lib" then Ok 0%Z else Ok 1%Z;
  adb_shell := fun _ => Ok ("26" ++ Py.nl)%string;
  adb_pull := fun _ _ => Ok "3 files pulled.";
  shutil_rmtree := fun _ => Ok tt
|}.

Definition host0 : SetUp.Host := SetUp.mkHost [] [].

(** The device of [w32] with a readable symbol dump for libbaz.so.  Its ELF
    parser cannot load libbaz.so and its vtable parser cannot dump any
    library. *)
Definition w32_unloadable : World := {|
  iterate_files := iterate_files w32;
  read_file := fun p =>
    if String.eqb p (golden_dir ++ "/libbaz.so_symbol.dump")
    then Some "baz" else read_file w32 p;
  isdir := isdir w32;
  relpath := relpath w32;
  ListGlobalDynamicSymbols := fun lib_path =>
    if String.eqb lib_path "/tmp/abi/system_lib/libbaz.so"
    then Raised ElfError else Ok ["foo"; "bar"];
  ParseVtablesFromString := ParseVtablesFromString w32;
  ParseVtablesFromLibrary := fun _ _ => Raised VtableError;
  data_file_path := "/data";
  _temp_dir := "/tmp/abi";
  _sdk_version := "26";
  cpu_abi := "armeabi-v7a";
  is64Bit := false
|}.

(** A golden layout that expects m2 and n at offset 24. *)
Definition golden24 : Vtables :=
  {[ "Vtable_X" := [(24, "m2")]%Z; "Vtable_Y" := [(24, "n")]%Z ]}.

(** An actual layout that lists m2 at 16 before 8, and n at 8, 16 and 32. *)
Definition actual_unordered : Vtables :=
  {[ "Vtable_X" := [(16, "m2"); (8, "m2")]%Z;
     "Vtable_Y" := [(8, "n"); (16, "n"); (32, "n")]%Z ]}.


(** * Properties *)

(** ** The model on small inputs *)

Example strip_ex : Py.strip ("  foo bar" ++ Py.nl) = "foo bar".
Proof. reflexivity. Qed.

Example strip_blank_ex : Py.strip (String "009" (" " ++ Py.nl)) = "".
Proof. reflexivity. Qed.

Example readlines_ex :
  Py.readlines ("a" ++ Py.nl ++ " b" ++ Py.nl ++ "c")
  = [("a" ++ Py.nl)%string; (" b" ++ Py.nl)%string; "c"].
Proof. reflexivity. Qed.

Example rpartition_ex :
  Py.rpartition "libc++.so_symbol.dump" "_symbol.dump"
  = ("libc++.so", "_symbol.dump", "").
Proof. reflexivity. Qed.

Example rpartition_last_ex :
  Py.rpartition "a_symbol.dump_symbol.dump" "_symbol.dump"
  = ("a_symbol.dump", "_symbol.dump", "").
Proof. reflexivity. Qed.

Example endswith_ex :
  map (fun f => Py.endswith f "_vtable.dump")
      ["libfoo.so_vtable.dump"; "_vtable.dump"; "vtable.dump"; "x_vtable.dump.bak"]
  = [true; true; false; false].
Proof. reflexivity. Qed.

Example str_ex : map Py.str [0; 16; -8; 1024]%Z = ["0"; "16"; "-8"; "1024"].
Proof. reflexivity. Qed.

Example path_join_ex :
  Py.path_join "vts" ["testcases"; "vndk"; "golden"] = "vts/testcases/vndk/golden"
  ∧ Py.path_join "/tmp/abi/" ["vendor_lib"] = "/tmp/abi/vendor_lib"
  ∧ Py.path_join "/tmp/abi" ["/vendor/lib"] = "/vendor/lib".
Proof. repeat split. Qed.

Example sorted_ex : Py.sorted ["b"; "a"; "B"; "ab"] = ["B"; "a"; "ab"; "b"].
Proof. vm_compute. reflexivity. Qed.

Example register_dumps32 :
  for_each (iterate_files w32 golden_dir) register_dump (mkDumps ∅ ∅ ∅) [] =
    (Ok dumps32, [unknown_dump_record]).
Proof. vm_compute. reflexivity. Qed.

Example scan32 :
  (_ScanLibDirs w32 golden_dir [_vendor_lib w32; _system_lib w32] []).1 = Ok 2.
Proof. vm_compute. reflexivity. Qed.

(** The first end-to-end scenario of the specification. *)
Example DiffSymbols_scenario :
  _DiffSymbols w32 (golden_dir ++ "/libfoo.so_symbol.dump") "libfoo.so" [] =
    (Ok ["bar"],
     [mkLog DEBUG "%s: %s" [AStr "libfoo.so"; ASymbols ["foo"; "baz"]] None]).
Proof. vm_compute. reflexivity. Qed.

Example diff_vtables_ex :
  diff_vtables golden0 actual0 =
    [("Vtable_X", "m2", "24", "8,16"); ("Vtable_X", "m3", "32", "missing")].
Proof. vm_compute. reflexivity. Qed.

(** The second end-to-end scenario of the specification. *)
Example diff_vtables_scenario :
  diff_vtables {[ "Vtable_X" := [(0, "m1"); (8, "m2")]%Z ]}
               {[ "Vtable_X" := [(0, "m1")]%Z ]}
  = [("Vtable_X", "m2", "8", "missing")].
Proof. vm_compute. reflexivity. Qed.

(** ** The monad *)

(** Exposing what a computation does to the log. *)
Ltac run_M := unfold try_except, bind, call, raise, ret, logging.

Lemma run_bind {A B} (m : M A) (k : A -> M B) l a l' :
  m l = (Ok a, l') -> bind m k l = k a l'.
Proof. intros H. unfold bind. by rewrite H. Qed.

Lemma run_bind_raised {A B} (m : M A) (k : A -> M B) l e l' :
  m l = (Raised e, l') -> bind m k l = (Raised e, l').
Proof. intros H. unfold bind. by rewrite H. Qed.

Lemma bind_Ok_inv {A B} (m : M A) (k : A -> M B) l b l' :
  bind m k l = (Ok b, l') ->
  ∃ a l1, m l = (Ok a, l1) ∧ k a l1 = (Ok b, l').
Proof.
  unfold bind. destruct (m l) as [[a|e] l1]; [|done]. intros H. by exists a, l1.
Qed.

Lemma for_each_total {A S} (body : S -> A -> M S) (xs : list A) :
  (∀ s x log, ∃ s' log', body s x log = (Ok s', log')) ->
  ∀ s log, ∃ s' log', for_each xs body s log = (Ok s', log').
Proof.
  intros Hbody. induction xs as [|x xs IH]; intros s log; cbn.
  - by eexists _, _.
  - destruct (Hbody s x log) as (s1 & log1 & H1).
    erewrite run_bind by exact H1. apply IH.
Qed.

Lemma for_each_invariant {A S} (P : S -> Prop) (body : S -> A -> M S) xs :
  (∀ s x log s' log', P s -> body s x log = (Ok s', log') -> P s') ->
  ∀ s log s' log', P s -> for_each xs body s log = (Ok s', log') -> P s'.
Proof.
  intros Hbody. induction xs as [|x xs IH]; intros s log s' log' Hs; cbn.
  - by intros [= <- <-].
  - unfold bind. destruct (body s x log) as [[s1|e] log1] eqn:E; [|done].
    intros H. eapply IH; [|exact H]. eapply Hbody; eauto.
Qed.

(** ** Python strings *)

Lemma string_app_empty_r s : (s ++ "")%string = s.
Proof.
  induction s as [|c s IH]; [done|].
  change (String c (s ++ "")%string = String c s). by rewrite IH.
Qed.

Lemma rev_app_app s t u :
  (String.rev_app s t ++ u = String.rev_app s (t ++ u))%string.
Proof.
  revert t. induction s as [|c s IH]; intros t; [done|].
  change (String.rev_app s (String c t) ++ u = String.rev_app s (String c t ++ u))%string.
  by rewrite IH.
Qed.

Lemma concat_empty_cons x l :
  String.concat "" (x :: l) = (x ++ String.concat "" l)%string.
Proof. destruct l; cbn; [by rewrite string_app_empty_r|done]. Qed.

(** The lines of a file are consecutive pieces of its text. *)
Lemma readlines_concat text : String.concat "" (Py.readlines text) = text.
Proof.
  unfold Py.readlines.
  enough (∀ cur, String.concat "" (Py.readlines_go cur text) =
                 (String.rev cur ++ text)%string) as H by apply H.
  induction text as [|c text IH]; intros cur.
  - cbn [Py.readlines_go]. rewrite string_app_empty_r. by destruct cur.
  - cbn [Py.readlines_go]. destruct (Ascii.eqb c "010").
    + rewrite concat_empty_cons, IH. unfold String.rev.
      change (String.rev_app (String c cur) "") with
        (String.rev_app cur (String c "")).
      by rewrite !rev_app_app.
    + rewrite IH. unfold String.rev.
      change (String.rev_app (String c cur) "") with
        (String.rev_app cur (String c "")).
      by rewrite !rev_app_app.
Qed.

Lemma string_forall_app p s t :
  string_forall p (s ++ t) = string_forall p s && string_forall p t.
Proof. induction s as [|c s IH]; simpl; [done|]. by rewrite IH, andb_assoc. Qed.

Lemma lstrip_blank s : Py.lstrip s = "" <-> string_forall Py.is_space s = true.
Proof.
  induction s as [|c s IH]; cbn; [done|].
  destruct (Py.is_space c); cbn; [done|]. split; discriminate.
Qed.

Lemma rstrip_blank s : Py.rstrip s = "" <-> string_forall Py.is_space s = true.
Proof.
  induction s as [|c s IH]; cbn; [done|].
  destruct (Py.rstrip s) eqn:E.
  - destruct (Py.is_space c); cbn; [by rewrite <- IH|]. split; discriminate.
  - split; [discriminate|]. intros [_ H]%andb_true_iff.
    apply IH in H. discriminate.
Qed.

Lemma string_forall_lstrip p s :
  string_forall p s = true -> string_forall p (Py.lstrip s) = true.
Proof.
  induction s as [|c s IH]; cbn; [done|].
  intros [Hc Hs]%andb_true_iff. destruct (Py.is_space c); [by apply IH|].
  cbn. by rewrite Hc, Hs.
Qed.

Lemma strip_blank s : Py.strip s = "" <-> string_forall Py.is_space s = true.
Proof.
  unfold Py.strip. rewrite rstrip_blank. split.
  - intros H. apply lstrip_blank. induction s as [|c s IH]; cbn in *; [done|].
    destruct (Py.is_space c) eqn:Hc; [by apply IH|].
    cbn in H. by rewrite Hc in H.
  - apply string_forall_lstrip.
Qed.

Lemma rstrip_idemp s : Py.rstrip (Py.rstrip s) = Py.rstrip s.
Proof.
  induction s as [|c s IH]; cbn; [done|].
  destruct (Py.rstrip s) as [|c' r] eqn:E.
  - destruct (Py.is_space c) eqn:Hc; cbn; [done|]. by rewrite Hc.
  - change (Py.rstrip (String c (String c' r))) with
      (match Py.rstrip (String c' r) with
       | EmptyString => if Py.is_space c then EmptyString else String c EmptyString
       | r0 => String c r0
       end).
    by rewrite IH.
Qed.

Lemma lstrip_rstrip_lstrip s :
  Py.lstrip (Py.rstrip (Py.lstrip s)) = Py.rstrip (Py.lstrip s).
Proof.
  induction s as [|c s IH]; cbn; [done|].
  destruct (Py.is_space c) eqn:Hc; [done|].
  change (Py.rstrip (String c s)) with
    (match Py.rstrip s with
     | EmptyString => if Py.is_space c then EmptyString else String c EmptyString
     | r0 => String c r0
     end).
  rewrite Hc. destruct (Py.rstrip s); cbn [Py.lstrip]; by rewrite Hc.
Qed.

(** [strip] leaves neither leading nor trailing white space. *)
Lemma strip_trimmed s :
  Py.lstrip (Py.strip s) = Py.strip s ∧ Py.rstrip (Py.strip s) = Py.strip s.
Proof.
  unfold Py.strip. split; [apply lstrip_rstrip_lstrip|apply rstrip_idemp].
Qed.


Lemma str_chars n : string_forall offset_char (Py.str n) = true.
Proof.
  assert (Hu : ∀ d, string_forall offset_char (NilEmpty.string_of_uint d) = true).
  { induction d; cbn; try done. }
  assert (Hz : ∀ d, string_forall offset_char (NilZero.string_of_uint d) = true).
  { intros d. destruct d; try apply Hu. done. }
  unfold Py.str. destruct (Z.to_int n); cbn [NilZero.string_of_int]; [apply Hz|].
  cbn [string_forall]. rewrite Hz. done.
Qed.

Lemma str_nonempty n : Py.str n ≠ "".
Proof.
  unfold Py.str. destruct (Z.to_int n) as [d|d]; cbn; [|done].
  destruct d; cbn; done.
Qed.

Lemma join_offsets_chars offs :
  string_forall offset_char (Py.join "," (map Py.str offs)) = true.
Proof.
  induction offs as [|o offs IH]; [done|].
  unfold Py.join in *. cbn [map String.concat].
  destruct (map Py.str offs) as [|s l]; [apply str_chars|].
  rewrite !string_forall_app, str_chars, IH. done.
Qed.

Lemma join_offsets_not_missing offs : Py.join "," (map Py.str offs) ≠ "missing".
Proof.
  intros H. pose proof (join_offsets_chars offs) as Hc. rewrite H in Hc. done.
Qed.

Lemma join_offsets_nonempty offs :
  offs ≠ [] -> Py.join "," (map Py.str offs) ≠ "".
Proof.
  destruct offs as [|o offs]; [done|]. intros _.
  unfold Py.join. cbn [map String.concat].
  pose proof (str_nonempty o) as Ho.
  destruct (map Py.str offs); [done|].
  destruct (Py.str o); [done|]. discriminate.
Qed.

Lemma path_join_nonempty root_dir file_name :
  file_name ≠ "" -> Py.path_join root_dir [file_name] ≠ "".
Proof.
  intros Hne. unfold Py.path_join, Py.path_join2. cbn [fold_left].
  assert (Happ : ∀ a b : string, b ≠ "" -> (a ++ b)%string ≠ "").
  { intros a b Hb. destruct a; [done|discriminate]. }
  repeat case_match; try done; apply Happ; try done.
Qed.

Lemma truthy_Some p : Py.truthy (Some p) = true <-> p ≠ "".
Proof.
  cbn. destruct (String.eqb_spec p ""); cbn; intuition congruence.
Qed.

Lemma le_ne_str_lt a b : String.le a b -> a ≠ b -> str_lt a b.
Proof.
  unfold String.le, String.leb, str_lt. intros Hle Hne.
  destruct (String.compare a b) eqn:E; try done.
  by apply String.compare_eq_iff in E.
Qed.

Lemma sorted_strict (l : list string) :
  NoDup l -> StronglySorted str_lt (Py.sorted l).
Proof.
  intros Hnd.
  assert (Hs : StronglySorted String.le (Py.sorted l))
    by (apply StronglySorted_merge_sort; apply _).
  assert (Hn : NoDup (Py.sorted l)).
  { unfold Py.sorted. by rewrite merge_sort_Permutation. }
  induction Hs as [|x k Hk IH Hall]; [constructor|].
  apply NoDup_cons in Hn as [Hx Hn].
  constructor; [by apply IH|].
  rewrite Forall_forall in *. intros y Hy.
  apply le_ne_str_lt; [by apply Hall|]. intros ->. by apply Hx.
Qed.

Lemma elem_of_sorted (l : list string) s : s ∈ Py.sorted l <-> s ∈ l.
Proof. unfold Py.sorted. by rewrite merge_sort_Permutation. Qed.

(** ** _DiffSymbols *)

Lemma elem_of_dump_symbol_set text s :
  s ∈ dump_symbol_set text <-> dump_line_symbol text s.
Proof.
  unfold dump_symbol_set, dump_line_symbol.
  rewrite elem_of_list_to_set, list_elem_of_In, in_map_iff.
  split.
  - intros (line & <- & Hin). apply list_elem_of_In, list_elem_of_filter in Hin as [Hne Hin].
    eauto.
  - intros (line & Hin & -> & Hne). exists line. split; [done|].
    apply list_elem_of_In, list_elem_of_filter. done.
Qed.

Lemma DiffSymbols_run w dump_path lib_path text lib_symbols log :
  read_file w dump_path = Some text ->
  ListGlobalDynamicSymbols w lib_path = Ok lib_symbols ->
  _DiffSymbols w dump_path lib_path log =
    (Ok (Py.sorted (elements (dump_symbol_set text ∖ list_to_set lib_symbols))),
     log ++ [mkLog DEBUG "%s: %s" [AStr lib_path; ASymbols lib_symbols] None]).
Proof.
  intros Hr Hl. unfold _DiffSymbols, open_read; run_M.
  by rewrite Hr, Hl.
Qed.

(** C1.  When the dump can be read and the library parsed, [_DiffSymbols]
    returns a list that is strictly ascending in byte-wise lexicographic
    order (hence free of duplicates) and holds exactly the trimmed non-empty
    lines of the dump that are not among the library's global dynamic
    symbols; the list is empty if and only if every such line is a symbol of
    the library. *)
Theorem DiffSymbols_sorted_difference w dump_path lib_path text lib_symbols log :
  read_file w dump_path = Some text ->
  ListGlobalDynamicSymbols w lib_path = Ok lib_symbols ->
  ∃ missing log',
    _DiffSymbols w dump_path lib_path log = (Ok missing, log') ∧
    StronglySorted str_lt missing ∧
    NoDup missing ∧
    (∀ s, s ∈ missing <-> dump_line_symbol text s ∧ s ∉ lib_symbols) ∧
    (missing = [] <-> ∀ s, dump_line_symbol text s -> s ∈ lib_symbols).
Proof.
  intros Hr Hl. eexists _, _. split; [by apply DiffSymbols_run|].
  set (X := dump_symbol_set text ∖ list_to_set lib_symbols).
  assert (Hmem : ∀ s, s ∈ Py.sorted (elements X) <->
                      dump_line_symbol text s ∧ s ∉ lib_symbols).
  { intros s. rewrite elem_of_sorted, elem_of_elements. unfold X.
    rewrite elem_of_difference, elem_of_dump_symbol_set, elem_of_list_to_set. done. }
  split; [apply sorted_strict, NoDup_elements|].
  split; [unfold Py.sorted; rewrite merge_sort_Permutation; apply NoDup_elements|].
  split; [done|].
  split.
  - intros Hnil s Hs. destruct (decide (s ∈ lib_symbols)) as [|Hn]; [done|].
    assert (s ∈ Py.sorted (elements X)) as Hin by (apply Hmem; done).
    rewrite Hnil in Hin. by apply elem_of_nil in Hin.
  - intros Hsub. destruct (Py.sorted (elements X)) as [|s k] eqn:E; [done|].
    assert (s ∈ s :: k) as Hin by left.
    apply Hmem in Hin as [Hd Hn]. destruct Hn. by apply Hsub.
Qed.

Lemma DiffSymbols_sorted_difference_witness :
  ∃ missing log',
    _DiffSymbols w32 (golden_dir ++ "/libfoo.so_symbol.dump")
      "/tmp/abi/vendor_lib/hw/libfoo.so" [] = (Ok missing, log') ∧
    StronglySorted str_lt missing ∧
    NoDup missing ∧
    (∀ s, s ∈ missing <->
          dump_line_symbol ("foo" ++ Py.nl ++ "  bar " ++ Py.nl ++ Py.nl ++ "foo") s ∧
          s ∉ ["foo"; "baz"]) ∧
    (missing = [] <->
     ∀ s, dump_line_symbol ("foo" ++ Py.nl ++ "  bar " ++ Py.nl ++ Py.nl ++ "foo") s ->
          s ∈ ["foo"; "baz"]).
Proof.
  apply (DiffSymbols_sorted_difference w32
           (golden_dir ++ "/libfoo.so_symbol.dump")
           "/tmp/abi/vendor_lib/hw/libfoo.so"
           ("foo" ++ Py.nl ++ "  bar " ++ Py.nl ++ Py.nl ++ "foo")
           ["foo"; "baz"] []); reflexivity.
Defined.

(** ** _DiffVtables *)

Lemma fold_lib_inv_vtable_add entries : forall inv sym,
  fold_left lib_inv_vtable_add entries inv !! sym =
  extend_offsets (inv !! sym) (offsets_in sym entries).
Proof.
  induction entries as [|[off s] entries IH]; intros inv sym; [done|].
  cbn [fold_left]. rewrite IH. unfold offsets_in.
  rewrite filter_cons. cbn [snd]. unfold lib_inv_vtable_add.
  destruct (decide (s = sym)) as [->|Hne].
  - cbn [map fst]. destruct (inv !! sym) as [l|] eqn:E; rewrite lookup_insert_eq; cbn.
    + destruct (map fst _); cbn; [done|]. by rewrite <- app_assoc.
    + by destruct (map fst _).
  - destruct (inv !! s); by rewrite lookup_insert_ne.
Qed.

Lemma build_lib_inv_vtable_lookup lib_vtables vtable sym :
  build_lib_inv_vtable lib_vtables vtable !! sym =
  match actual_offsets lib_vtables vtable sym with
  | [] => None
  | offs => Some offs
  end.
Proof.
  unfold build_lib_inv_vtable, actual_offsets.
  destruct (lib_vtables !! vtable) as [entries|]; cbn [default].
  - rewrite fold_lib_inv_vtable_add, lookup_empty. unfold offsets_in.
    by destruct (map fst _).
  - by rewrite lookup_empty.
Qed.

Lemma diff_entry_spec lib_vtables vtable entry :
  diff_entry (build_lib_inv_vtable lib_vtables vtable) vtable entry =
  spec_mismatch lib_vtables vtable entry.
Proof.
  destruct entry as [off sym]. unfold diff_entry, spec_mismatch.
  rewrite build_lib_inv_vtable_lookup.
  by destruct (actual_offsets lib_vtables vtable sym).
Qed.

Lemma fold_left_append {A B} (f : A -> list B) (l : list A) : forall acc,
  fold_left (fun acc x => acc ++ f x) l acc = acc ++ flat_map f l.
Proof.
  induction l as [|x l IH]; intros acc; cbn.
  - by rewrite app_nil_r.
  - by rewrite IH, app_assoc.
Qed.

Lemma fold_diff_vtable lib_vtables items : forall acc,
  fold_left (diff_vtable lib_vtables) items acc =
  acc ++ flat_map (fun item : string * list (Z * string) =>
                     flat_map (spec_mismatch lib_vtables item.1) item.2) items.
Proof.
  induction items as [|[vt entries] items IH]; intros acc.
  - cbn. by rewrite app_nil_r.
  - cbn [fold_left flat_map]. rewrite IH. unfold diff_vtable.
    rewrite fold_left_append, <- app_assoc. cbn [fst snd]. do 2 f_equal.
    induction entries as [|e entries IHe]; [done|].
    cbn. by rewrite diff_entry_spec, IHe.
Qed.

Lemma diff_vtables_spec dump_vtables lib_vtables :
  diff_vtables dump_vtables lib_vtables = spec_DiffVtables dump_vtables lib_vtables.
Proof. unfold diff_vtables. by rewrite fold_diff_vtable. Qed.

Lemma DiffVtables_run w dump_path lib_path text dump_vtables lib_vtables log :
  read_file w dump_path = Some text ->
  ParseVtablesFromString w (vtable_parser_dir w) text = Ok dump_vtables ->
  ParseVtablesFromLibrary w (vtable_parser_dir w) lib_path = Ok lib_vtables ->
  _DiffVtables w dump_path lib_path log =
    (Ok (diff_vtables dump_vtables lib_vtables),
     log ++ [mkLog DEBUG "%s: %s" [AStr lib_path; AVtables lib_vtables] None]).
Proof.
  intros Hr Hd Hl. unfold _DiffVtables, open_read; run_M.
  by rewrite Hr, Hd, Hl.
Qed.

Lemma elem_of_spec_DiffVtables dump_vtables lib_vtables r :
  r ∈ spec_DiffVtables dump_vtables lib_vtables <->
  ∃ vtable entries entry,
    dump_vtables !! vtable = Some entries ∧ entry ∈ entries ∧
    r ∈ spec_mismatch lib_vtables vtable entry.
Proof.
  unfold spec_DiffVtables. rewrite list_elem_of_In, in_flat_map. split.
  - intros ([vt entries] & Hin & Hr). cbn [fst snd] in Hr.
    apply in_flat_map in Hr as (entry & He & Hr).
    exists vt, entries, entry.
    rewrite <- elem_of_map_to_list, !list_elem_of_In. done.
  - intros (vt & entries & entry & Hl & He & Hr).
    exists (vt, entries). rewrite <- list_elem_of_In, elem_of_map_to_list.
    split; [done|]. cbn [fst snd]. apply in_flat_map. exists entry.
    by rewrite <- !list_elem_of_In.
Qed.

Lemma elem_of_spec_mismatch lib_vtables vtable off sym r :
  r ∈ spec_mismatch lib_vtables vtable (off, sym) <->
  ((actual_offsets lib_vtables vtable sym = [] ∧
    r = (vtable, sym, Py.str off, "missing")) ∨
   actual_offsets lib_vtables vtable sym ≠ [] ∧
   (off ∉ actual_offsets lib_vtables vtable sym) ∧
   r = (vtable, sym, Py.str off,
        Py.join "," (map Py.str (actual_offsets lib_vtables vtable sym)))).
Proof.
  unfold spec_mismatch.
  destruct (actual_offsets lib_vtables vtable sym) as [|o offs] eqn:E.
  - rewrite list_elem_of_singleton. intuition congruence.
  - case_bool_decide as Hin.
    + split; [by intros ?%elem_of_nil|]. intuition congruence.
    + rewrite list_elem_of_singleton. intuition congruence.
Qed.

Lemma elem_of_offsets_in sym entries off :
  off ∈ offsets_in sym entries <-> (off, sym) ∈ entries.
Proof.
  unfold offsets_in. rewrite list_elem_of_In, in_map_iff. split.
  - intros ([o s] & <- & Hin). apply list_elem_of_In, list_elem_of_filter in Hin.
    cbn in Hin. by destruct Hin as [-> ?].
  - intros Hin. exists (off, sym). split; [done|].
    apply list_elem_of_In, list_elem_of_filter. done.
Qed.

Lemma actual_offsets_Some lib_vtables vtable sym entries :
  lib_vtables !! vtable = Some entries ->
  actual_offsets lib_vtables vtable sym = offsets_in sym entries.
Proof. intros H. unfold actual_offsets. by rewrite H. Qed.

Lemma actual_offsets_nil lib_vtables vtable sym :
  actual_offsets lib_vtables vtable sym = [] <->
  ¬ occurs_in_actual lib_vtables vtable sym.
Proof.
  unfold occurs_in_actual. split.
  - intros Hnil (entries & off & Hl & Hin).
    rewrite (actual_offsets_Some _ _ _ _ Hl) in Hnil.
    apply elem_of_offsets_in in Hin. rewrite Hnil in Hin.
    by apply elem_of_nil in Hin.
  - intros Hno. destruct (lib_vtables !! vtable) as [entries|] eqn:Hl.
    + rewrite (actual_offsets_Some _ _ _ _ Hl).
      destruct (offsets_in sym entries) as [|o offs] eqn:E; [done|].
      destruct Hno. exists entries, o. split; [done|].
      apply elem_of_offsets_in. rewrite E. left.
    + unfold actual_offsets. by rewrite Hl.
Qed.

Lemma elem_of_diff_vtables dump_vtables lib_vtables vtable sym expected actual :
  (vtable, sym, expected, actual) ∈ diff_vtables dump_vtables lib_vtables <->
  ∃ entries off,
    dump_vtables !! vtable = Some entries ∧ (off, sym) ∈ entries ∧
    expected = Py.str off ∧
    ((actual_offsets lib_vtables vtable sym = [] ∧ actual = "missing") ∨
     actual_offsets lib_vtables vtable sym ≠ [] ∧
     (off ∉ actual_offsets lib_vtables vtable sym) ∧
     actual = Py.join "," (map Py.str (actual_offsets lib_vtables vtable sym))).
Proof.
  rewrite diff_vtables_spec, elem_of_spec_DiffVtables. split.
  - intros (vt & entries & [off s] & Hl & Hin & Hr).
    apply elem_of_spec_mismatch in Hr as [[Hnil [= -> -> -> ->]]|
                                          (Hne & Hoff & [= -> -> -> ->])];
      exists entries, off; auto 10.
  - intros (entries & off & Hl & Hin & -> & Hcase).
    exists vtable, entries, (off, sym). split; [done|]. split; [done|].
    apply elem_of_spec_mismatch.
    destruct Hcase as [[Hnil ->]|(Hne & Hoff & ->)]; auto.
Qed.

(** *** What a returned diff holds

    The three results below are about a run in which the dump is read and
    both layouts are parsed. *)

Section ReturnedDiff.

Variables (w : World) (dump_path lib_path text : string).
Variables (dump_vtables lib_vtables : Vtables).

Hypothesis dump_read : read_file w dump_path = Some text.
Hypothesis dump_parsed :
  ParseVtablesFromString w (vtable_parser_dir w) text = Ok dump_vtables.
Hypothesis lib_parsed :
  ParseVtablesFromLibrary w (vtable_parser_dir w) lib_path = Ok lib_vtables.

(** C2.  When the dump is read and both layouts are parsed, [_DiffVtables]
    returns what the specification describes.  The inverse index built for a
    vtable id is empty when the library has no vtable of that id, and
    otherwise maps each symbol to the offsets at which it appears, in entry
    order with repetitions.  The result is, for each vtable of the golden
    layout and each expected (offset, symbol) pair, the record
    (vtable, symbol, str(offset), "missing") when the symbol has no actual
    offset, the record with the comma-joined actual offsets when the
    expected offset is not among them, and nothing otherwise.  Every record
    names a vtable of the golden layout, so a vtable present only in the
    library is never reported. *)
Theorem DiffVtables_reports_regressions (log : Log) :
  ∃ diff log',
    _DiffVtables w dump_path lib_path log = (Ok diff, log') ∧
    (∀ vtable, lib_vtables !! vtable = None ->
               build_lib_inv_vtable lib_vtables vtable = ∅) ∧
    (∀ vtable sym,
       build_lib_inv_vtable lib_vtables vtable !! sym =
         match actual_offsets lib_vtables vtable sym with
         | [] => None
         | offs => Some offs
         end) ∧
    diff = spec_DiffVtables dump_vtables lib_vtables ∧
    (∀ vtable sym expected actual,
       (vtable, sym, expected, actual) ∈ diff <->
       ∃ entries off,
         dump_vtables !! vtable = Some entries ∧ (off, sym) ∈ entries ∧
         expected = Py.str off ∧
         ((actual_offsets lib_vtables vtable sym = [] ∧ actual = "missing") ∨
          actual_offsets lib_vtables vtable sym ≠ [] ∧
          (off ∉ actual_offsets lib_vtables vtable sym) ∧
          actual =
            Py.join "," (map Py.str (actual_offsets lib_vtables vtable sym)))) ∧
    (∀ vtable sym expected actual,
       (vtable, sym, expected, actual) ∈ diff -> is_Some (dump_vtables !! vtable)).
Proof.
  eexists _, _. split; [by eapply DiffVtables_run|].
  split; [|split; [|split; [|split]]].
  - intros vtable Hnone. unfold build_lib_inv_vtable. by rewrite Hnone.
  - apply build_lib_inv_vtable_lookup.
  - apply diff_vtables_spec.
  - apply elem_of_diff_vtables.
  - intros vtable sym expected actual Hin.
    apply elem_of_diff_vtables in Hin as (entries & _ & Hlook & _). eauto.
Qed.


(** C10.  In every record [_DiffVtables] returns, the fourth component is
    "missing" if and only if the symbol occurs at no offset in the actual
    vtable of the same name.  When it does occur, the component is the
    non-empty comma-joined list of the decimal actual offsets; it consists
    of digits, minus signs and commas only, which "missing" does not. *)
Theorem missing_marker_is_unambiguous (log : Log) :
  ∃ diff log',
    _DiffVtables w dump_path lib_path log = (Ok diff, log') ∧
    ∀ vtable sym expected actual,
      (vtable, sym, expected, actual) ∈ diff ->
      (actual = "missing" <-> ¬ occurs_in_actual lib_vtables vtable sym) ∧
      (occurs_in_actual lib_vtables vtable sym ->
       actual_offsets lib_vtables vtable sym ≠ [] ∧
       actual = Py.join "," (map Py.str (actual_offsets lib_vtables vtable sym)) ∧
       actual ≠ "" ∧
       string_forall offset_char actual = true ∧
       string_forall offset_char "missing" = false).
Proof.
  eexists _, _. split; [by eapply DiffVtables_run|].
  intros vtable sym expected actual Hin.
  apply elem_of_diff_vtables in Hin as (entries & off & _ & _ & _ & Hcase).
  rewrite <- actual_offsets_nil.
  destruct Hcase as [[Hnil ->]|(Hne & _ & ->)].
  - split; [done|]. intros Hocc. by apply actual_offsets_nil in Hnil.
  - split.
    + split; [|done]. intros Hm. by apply join_offsets_not_missing in Hm.
    + intros _. split; [done|]. split; [done|].
      split; [by apply join_offsets_nonempty|].
      split; [apply join_offsets_chars|done].
Qed.

End ReturnedDiff.

Lemma DiffVtables_reports_regressions_witness :
  ∃ diff log',
    _DiffVtables w32 (golden_dir ++ "/libfoo.so_vtable.dump")
      "/tmp/abi/vendor_lib/hw/libfoo.so" [] = (Ok diff, log') ∧
    diff = spec_DiffVtables golden0 actual0.
Proof.
  destruct (DiffVtables_reports_regressions w32
              (golden_dir ++ "/libfoo.so_vtable.dump")
              "/tmp/abi/vendor_lib/hw/libfoo.so" "vtables" golden0 actual0
              eq_refl eq_refl eq_refl [])
    as (diff & log' & Hrun & _ & _ & Hspec & _).
  exists diff, log'. split; [exact Hrun|exact Hspec].
Defined.



Lemma missing_marker_is_unambiguous_witness :
  ∃ diff log',
    _DiffVtables w32 (golden_dir ++ "/libfoo.so_vtable.dump")
      "/tmp/abi/vendor_lib/hw/libfoo.so" [] = (Ok diff, log') ∧
    (("Vtable_X", "m3", "32", "missing") ∈ diff ->
     ¬ occurs_in_actual actual0 "Vtable_X" "m3").
Proof.
  destruct (missing_marker_is_unambiguous w32
              (golden_dir ++ "/libfoo.so_vtable.dump")
              "/tmp/abi/vendor_lib/hw/libfoo.so" "vtables" golden0 actual0
              eq_refl eq_refl eq_refl [])
    as (diff & log' & Hrun & Hall).
  exists diff, log'. split; [exact Hrun|].
  intros Hin. by apply (Hall _ _ _ _ Hin).
Defined.

(** ** Running the differs again *)

(** C9.  The outcome of [_DiffSymbols] and of [_DiffVtables] (the returned list
    with its order, or the exception) is a function of the inputs alone: two
    runs agree whenever the dump text is the same and the parsers answer the
    same (for the symbols it is enough that the libraries' symbol lists hold
    the same set), whatever the log, the paths and the rest of the host
    are.  In particular a second run, started in the state the first one
    left, yields the same outcome as the first. *)
Theorem differs_depend_only_on_inputs w1 w2 dump1 dump2 lib1 lib2 log1 log2 :
  read_file w1 dump1 = read_file w2 dump2 ->
  (ListGlobalDynamicSymbols w1 lib1 = ListGlobalDynamicSymbols w2 lib2 ∨
   ∃ syms1 syms2,
     ListGlobalDynamicSymbols w1 lib1 = Ok syms1 ∧
     ListGlobalDynamicSymbols w2 lib2 = Ok syms2 ∧
     ∀ s, s ∈ syms1 <-> s ∈ syms2) ->
  (∀ text, ParseVtablesFromString w1 (vtable_parser_dir w1) text =
           ParseVtablesFromString w2 (vtable_parser_dir w2) text) ->
  ParseVtablesFromLibrary w1 (vtable_parser_dir w1) lib1 =
    ParseVtablesFromLibrary w2 (vtable_parser_dir w2) lib2 ->
  (_DiffSymbols w1 dump1 lib1 log1).1 = (_DiffSymbols w2 dump2 lib2 log2).1 ∧
  (_DiffVtables w1 dump1 lib1 log1).1 = (_DiffVtables w2 dump2 lib2 log2).1 ∧
  (_DiffSymbols w1 dump1 lib1 (_DiffSymbols w1 dump1 lib1 log1).2).1 =
    (_DiffSymbols w1 dump1 lib1 log1).1 ∧
  (_DiffVtables w1 dump1 lib1 (_DiffVtables w1 dump1 lib1 log1).2).1 =
    (_DiffVtables w1 dump1 lib1 log1).1.
Proof.
  intros Hread Hsym Hstr Hlib.
  assert (Hs : ∀ w dump lib log log',
            (_DiffSymbols w dump lib log).1 = (_DiffSymbols w dump lib log').1).
  { intros. unfold _DiffSymbols, open_read; run_M.
    destruct (read_file w dump); [|done].
    by destruct (ListGlobalDynamicSymbols w lib). }
  assert (Hv : ∀ w dump lib log log',
            (_DiffVtables w dump lib log).1 = (_DiffVtables w dump lib log').1).
  { intros. unfold _DiffVtables, open_read; run_M.
    destruct (read_file w dump) as [text|]; [|done].
    destruct (ParseVtablesFromString w _ text); [|done].
    by destruct (ParseVtablesFromLibrary w _ lib). }
  split; [|split; [|split; [apply Hs|apply Hv]]].
  - unfold _DiffSymbols, open_read; run_M.
    rewrite Hread. destruct (read_file w2 dump2) as [text|]; [|done].
    destruct Hsym as [->|(syms1 & syms2 & -> & -> & Hsame)].
    + by destruct (ListGlobalDynamicSymbols w2 lib2).
    + cbn. do 4 f_equal. apply set_eq. intros s.
      by rewrite !elem_of_list_to_set.
  - unfold _DiffVtables, open_read; run_M.
    rewrite Hread. destruct (read_file w2 dump2) as [text|]; [|done].
    rewrite Hstr, Hlib.
    destruct (ParseVtablesFromString w2 _ text); [|done].
    by destruct (ParseVtablesFromLibrary w2 _ lib2).
Qed.

Lemma differs_depend_only_on_inputs_witness :
  (_DiffSymbols w32 (golden_dir ++ "/libfoo.so_symbol.dump") "a.so" []).1 =
  (_DiffSymbols w32_reordered (golden_dir ++ "/libfoo.so_symbol.dump") "b.so"
     [check_record "32"]).1 ∧
  (_DiffVtables w32 (golden_dir ++ "/libfoo.so_vtable.dump") "a.so" []).1 =
  (_DiffVtables w32_reordered (golden_dir ++ "/libfoo.so_vtable.dump") "b.so"
     [check_record "32"]).1.
Proof.
  destruct (differs_depend_only_on_inputs w32 w32_reordered
              (golden_dir ++ "/libfoo.so_symbol.dump")
              (golden_dir ++ "/libfoo.so_symbol.dump") "a.so" "b.so"
              [] [check_record "32"]) as (Hs & _).
  - reflexivity.
  - right. exists ["foo"; "baz"], ["baz"; "foo"; "baz"].
    split; [reflexivity|]. split; [reflexivity|].
    intros s. rewrite !elem_of_cons, !elem_of_nil. tauto.
  - reflexivity.
  - reflexivity.
  - split; [exact Hs|].
    apply (differs_depend_only_on_inputs w32 w32_reordered
             (golden_dir ++ "/libfoo.so_vtable.dump")
             (golden_dir ++ "/libfoo.so_vtable.dump") "a.so" "b.so"
             [] [check_record "32"]).
    + reflexivity.
    + right. exists ["foo"; "baz"], ["baz"; "foo"; "baz"].
      split; [reflexivity|]. split; [reflexivity|].
      intros s. rewrite !elem_of_cons, !elem_of_nil. tauto.
    + reflexivity.
    + reflexivity.
Defined.

(** ** The loop over the libraries *)

Lemma nonempty_true {A} (l : list A) : nonempty l = true <-> l ≠ [].
Proof. by destruct l. Qed.

Lemma report_lib_run rel_path has_exception missing vdiff error_count log :
  ∃ log',
    report_lib rel_path has_exception missing vdiff error_count log =
      (Ok (if has_exception || nonempty missing || nonempty vdiff
           then S error_count else error_count), log') ∧
    (has_exception || nonempty missing || nonempty vdiff = false ->
     log' = log ++ [pass_record rel_path]) ∧
    (has_exception || nonempty missing || nonempty vdiff = true ->
     pass_record rel_path ∈ log' -> pass_record rel_path ∈ log).
Proof.
  unfold report_lib; run_M.
  destruct has_exception, missing as [|m ms], vdiff as [|v vs]; cbn;
    eexists; (split; [reflexivity|]); split; try done; intros _;
    rewrite ?elem_of_app, ?list_elem_of_singleton; unfold pass_record;
    intuition congruence.
Qed.

Lemma scan_lib_not_found w d error_count lib_name bound log :
  Py.truthy bound = false ->
  scan_lib w d error_count (lib_name, bound) log =
    (Ok error_count, log ++ [not_found_record lib_name]).
Proof.
  intros Hb. unfold scan_lib. by rewrite Hb.
Qed.

(** The body of the loop once the library has a path. *)
Lemma scan_lib_resolved w d error_count lib_name lib_path log :
  lib_path ≠ "" ->
  scan_lib w d error_count (lib_name, Some lib_path) log =
    (let rel_path := relpath w lib_path (_temp_dir w) in
     let* (missing_symbols, has_exception) :=
       compare_symbols w d lib_name lib_path rel_path false in
     let* (vtable_diff, has_exception) :=
       compare_vtables w d lib_name lib_path rel_path has_exception in
     report_lib rel_path has_exception missing_symbols vtable_diff error_count)
      log.
Proof.
  intros Hp. apply truthy_Some in Hp. unfold scan_lib. by rewrite Hp.
Qed.

Lemma register_dump_total d item log :
  ∃ d' log', register_dump d item log = (Ok d', log').
Proof.
  destruct item as [root_dir file_name]. unfold register_dump; run_M.
  repeat case_match; by eexists _, _.
Qed.

(** *** The differs and the log *)

Lemma appends_only_ret {A} (a : A) : appends_only (ret a).
Proof. intros log. cbn. by rewrite app_nil_r. Qed.

Lemma appends_only_raise {A} e : appends_only (@raise A e).
Proof. intros log. cbn. by rewrite app_nil_r. Qed.

Lemma appends_only_call {A} (r : result A) : appends_only (call r).
Proof. intros log. cbn. by rewrite app_nil_r. Qed.

Lemma appends_only_logging lv m a exc : appends_only (logging lv m a exc).
Proof. by intros log. Qed.

Lemma appends_only_bind {A B} (m : M A) (k : A -> M B) :
  appends_only m -> (∀ a, appends_only (k a)) -> appends_only (bind m k).
Proof.
  intros Hm Hk log. unfold bind. rewrite (Hm log).
  destruct (m []) as [[a|e] l0]; cbn [fst snd]; [|done].
  rewrite (Hk a (log ++ l0)), (Hk a l0). cbn [fst snd]. by rewrite app_assoc.
Qed.

Lemma appends_only_try_except {A} (body : M A) classes handler :
  appends_only body -> (∀ e, appends_only (handler e)) ->
  appends_only (try_except body classes handler).
Proof.
  intros Hm Hk log. unfold try_except. rewrite (Hm log).
  destruct (body []) as [[a|e] l0]; cbn [fst snd]; [done|].
  destruct (classes e); [|done].
  rewrite (Hk e (log ++ l0)), (Hk e l0). cbn [fst snd]. by rewrite app_assoc.
Qed.

Lemma appends_only_for_each {A S} (body : S -> A -> M S) xs :
  (∀ s x, appends_only (body s x)) -> ∀ s, appends_only (for_each xs body s).
Proof.
  intros Hbody. induction xs as [|x xs IH]; intros s; cbn [for_each].
  - apply appends_only_ret.
  - apply appends_only_bind; [apply Hbody|apply IH].
Qed.

(** Deciding [appends_only] along the structure of a computation. *)
Ltac appends :=
  repeat first
    [ progress intros
    | apply appends_only_ret | apply appends_only_raise
    | apply appends_only_call | apply appends_only_logging
    | apply appends_only_bind | apply appends_only_try_except
    | apply appends_only_for_each
    | case_match ].

Lemma DiffSymbols_appends w dump_path lib_path :
  appends_only (_DiffSymbols w dump_path lib_path).
Proof. unfold _DiffSymbols, open_read. appends. Qed.

Lemma DiffVtables_appends w dump_path lib_path :
  appends_only (_DiffVtables w dump_path lib_path).
Proof. unfold _DiffVtables, open_read. appends. Qed.

Lemma scan_lib_appends w d error_count item :
  appends_only (scan_lib w d error_count item).
Proof.
  unfold scan_lib, compare_symbols, compare_vtables, report_lib.
  appends; unfold open_read; appends.
Qed.

Lemma DiffSymbols_fails w dump_path lib_path log :
  symbols_diff_fails w dump_path lib_path ->
  ∃ e, _DiffSymbols w dump_path lib_path log = (Raised e, log).
Proof.
  unfold _DiffSymbols, open_read; run_M.
  intros [Hr|[e He]].
  - exists IOError. by rewrite Hr.
  - destruct (read_file w dump_path) as [text|].
    + exists e. by rewrite He.
    + by exists IOError.
Qed.

Lemma DiffVtables_fails w dump_path lib_path log :
  vtables_diff_fails w dump_path lib_path ->
  ∃ e, _DiffVtables w dump_path lib_path log = (Raised e, log).
Proof.
  unfold vtables_diff_fails.
  unfold _DiffVtables, open_read; run_M.
  intros [Hr|(text & Hr & [[e He]|[e He]])]; rewrite Hr.
  - by exists IOError.
  - exists e. by rewrite He.
  - destruct (ParseVtablesFromString w _ text) as [dv|e'].
    + exists e. by rewrite He.
    + by exists e'.
Qed.

(** The answer of a differ is the same from every log. *)
Lemma symbols_result_inj w d lib_name lib_path r1 r2 :
  symbols_result w d lib_name lib_path r1 ->
  symbols_result w d lib_name lib_path r2 -> r1 = r2.
Proof.
  intros (dump1 & log1 & Hd1 & <-) (dump2 & log2 & Hd2 & <-).
  rewrite Hd1 in Hd2. injection Hd2 as <-.
  by rewrite (DiffSymbols_appends w dump1 lib_path log1),
    (DiffSymbols_appends w dump1 lib_path log2).
Qed.

Lemma vtables_result_inj w d lib_name lib_path r1 r2 :
  vtables_result w d lib_name lib_path r1 ->
  vtables_result w d lib_name lib_path r2 -> r1 = r2.
Proof.
  intros (dump1 & log1 & Hd1 & <-) (dump2 & log2 & Hd2 & <-).
  rewrite Hd1 in Hd2. injection Hd2 as <-.
  by rewrite (DiffVtables_appends w dump1 lib_path log1),
    (DiffVtables_appends w dump1 lib_path log2).
Qed.

(** *** The two comparisons of the loop body *)

(** With parsers that fail as documented, [_DiffSymbols] returns, having
    logged at level DEBUG only, or raises [IOError] or [ElfError] and leaves
    the log as it was. *)
Lemma DiffSymbols_outcome w dump_path lib_path log :
  documented_failures w ->
  (∃ missing new,
     _DiffSymbols w dump_path lib_path log = (Ok missing, log ++ new) ∧
     Forall (fun r => level r = DEBUG) new) ∨
  (∃ e, _DiffSymbols w dump_path lib_path log = (Raised e, log) ∧
        (e = IOError ∨ e = ElfError)).
Proof.
  intros (Hsym & _).
  destruct (read_file w dump_path) as [text|] eqn:Hr.
  - destruct (ListGlobalDynamicSymbols w lib_path) as [syms|e] eqn:Hl.
    + left. eexists _, _. split; [by eapply DiffSymbols_run|].
      by repeat constructor.
    + right. exists e. split; [|by eapply Hsym].
      unfold _DiffSymbols, open_read; run_M. by rewrite Hr, Hl.
  - right. exists IOError. split; [|by left].
    unfold _DiffSymbols, open_read; run_M. by rewrite Hr.
Qed.

Lemma DiffVtables_outcome w dump_path lib_path log :
  documented_failures w ->
  (∃ vtable_diff new,
     _DiffVtables w dump_path lib_path log = (Ok vtable_diff, log ++ new) ∧
     Forall (fun r => level r = DEBUG) new) ∨
  (∃ e, _DiffVtables w dump_path lib_path log = (Raised e, log) ∧
        (e = IOError ∨ e = VtableError)).
Proof.
  intros (_ & Hstr & Hlib).
  destruct (read_file w dump_path) as [text|] eqn:Hr.
  - destruct (ParseVtablesFromString w (vtable_parser_dir w) text)
      as [dv|e] eqn:Hd.
    + destruct (ParseVtablesFromLibrary w (vtable_parser_dir w) lib_path)
        as [lv|e] eqn:Hl.
      * left. eexists _, _. split; [by eapply DiffVtables_run|].
        by repeat constructor.
      * right. exists e. split; [|by eapply Hlib].
        unfold _DiffVtables, open_read; run_M. by rewrite Hr, Hd, Hl.
    + right. exists e. split; [|by eapply Hstr].
      unfold _DiffVtables, open_read; run_M. by rewrite Hr, Hd.
  - right. exists IOError. split; [|by left].
    unfold _DiffVtables, open_read; run_M. by rewrite Hr.
Qed.

(** The symbol comparison returns.  Either the library has no symbol dump,
    or [_DiffSymbols] returned the list, or it raised an exception that the
    [except] clause caught and logged. *)
Lemma compare_symbols_spec w d lib_name lib_path rel_path f log :
  documented_failures w ->
  ∃ missing f' new,
    compare_symbols w d lib_name lib_path rel_path f log =
      (Ok (missing, f'), log ++ new) ∧
    ((symbol_dumps d !! lib_name = None ∧ missing = [] ∧ f' = f ∧ new = []) ∨
     (symbols_result w d lib_name lib_path (Ok missing) ∧ f' = f ∧
      Forall (fun r => level r = DEBUG) new) ∨
     (∃ e, symbols_result w d lib_name lib_path (Raised e) ∧
           (e = IOError ∨ e = ElfError) ∧ missing = [] ∧ f' = true ∧
           new = [exception_record "%s: Cannot diff symbols" rel_path e])).
Proof.
  intros Hw. unfold compare_symbols.
  destruct (symbol_dumps d !! lib_name) as [dump_path|] eqn:Hd.
  2:{ exists [], f, []. unfold ret. rewrite app_nil_r. split; [done|]. by left. }
  destruct (DiffSymbols_outcome w dump_path lib_path log Hw)
    as [(missing & new & Hrun & Hnew)|(e & Hrun & He)].
  - exists missing, f, new. split.
    + unfold try_except, bind at 1. by rewrite Hrun.
    + right. left. split; [|done]. exists dump_path, log.
      split; [done|]. by rewrite Hrun.
  - exists [], true, [exception_record "%s: Cannot diff symbols" rel_path e].
    split.
    + unfold try_except, bind at 1. rewrite Hrun.
      by destruct He as [-> | ->].
    + right. right. exists e. split; [|done]. exists dump_path, log.
      split; [done|]. by rewrite Hrun.
Qed.

Lemma compare_vtables_spec w d lib_name lib_path rel_path f log :
  documented_failures w ->
  ∃ vtable_diff f' new,
    compare_vtables w d lib_name lib_path rel_path f log =
      (Ok (vtable_diff, f'), log ++ new) ∧
    ((vtable_dumps d !! lib_name = None ∧ vtable_diff = [] ∧ f' = f ∧
      new = []) ∨
     (vtables_result w d lib_name lib_path (Ok vtable_diff) ∧ f' = f ∧
      Forall (fun r => level r = DEBUG) new) ∨
     (∃ e, vtables_result w d lib_name lib_path (Raised e) ∧
           (e = IOError ∨ e = VtableError) ∧ vtable_diff = [] ∧ f' = true ∧
           new = [exception_record "%s: Cannot diff vtables" rel_path e])).
Proof.
  intros Hw. unfold compare_vtables.
  destruct (vtable_dumps d !! lib_name) as [dump_path|] eqn:Hd.
  2:{ exists [], f, []. unfold ret. rewrite app_nil_r. split; [done|]. by left. }
  destruct (DiffVtables_outcome w dump_path lib_path log Hw)
    as [(vtable_diff & new & Hrun & Hnew)|(e & Hrun & He)].
  - exists vtable_diff, f, new. split.
    + unfold try_except, bind at 1. by rewrite Hrun.
    + right. left. split; [|done]. exists dump_path, log.
      split; [done|]. by rewrite Hrun.
  - exists [], true, [exception_record "%s: Cannot diff vtables" rel_path e].
    split.
    + unfold try_except, bind at 1. rewrite Hrun.
      by destruct He as [-> | ->].
    + right. right. exists e. split; [|done]. exists dump_path, log.
      split; [done|]. by rewrite Hrun.
Qed.

(** The tail of the loop body, record by record. *)
Lemma report_lib_spec rel_path has_exception missing vdiff error_count log :
  report_lib rel_path has_exception missing vdiff error_count log =
    (Ok (if has_exception || nonempty missing || nonempty vdiff
         then S error_count else error_count),
     log ++
     (if nonempty missing then [missing_symbols_record rel_path missing] else [])
     ++ (if nonempty vdiff then [vtable_difference_record rel_path vdiff] else [])
     ++ (if has_exception || nonempty missing || nonempty vdiff
         then [] else [pass_record rel_path])).
Proof.
  unfold report_lib; run_M.
  destruct has_exception, missing as [|m ms], vdiff as [|v vs]; cbn;
    rewrite <- ?app_assoc, ?app_nil_r; reflexivity.
Qed.

Lemma symbols_result_dump w d lib_name lib_path r :
  symbols_result w d lib_name lib_path r -> symbol_dumps d !! lib_name ≠ None.
Proof. intros (dump_path & log & Hd & _). by rewrite Hd. Qed.

Lemma vtables_result_dump w d lib_name lib_path r :
  vtables_result w d lib_name lib_path r -> vtable_dumps d !! lib_name ≠ None.
Proof. intros (dump_path & log & Hd & _). by rewrite Hd. Qed.

(** *** The loop body on a library with a path *)

Lemma Forall_optional {A} (P : A -> Prop) (b : bool) x :
  P x -> Forall P (if b then [x] else []).
Proof. destruct b; by repeat constructor. Qed.

(** With parsers that fail as documented the loop body returns.  It
    returns the count plus one exactly for an incompatible library, having
    then logged a record of level ERROR about it and no pass record;
    otherwise it returns the count as it was and its last record is the pass
    record.  Every exception a differ raised is logged. *)
Lemma scan_lib_found w d error_count lib_name lib_path log :
  documented_failures w ->
  lib_path ≠ "" ->
  ∃ count new,
    scan_lib w d error_count (lib_name, Some lib_path) log =
      (Ok count, log ++ new) ∧
    ((count = S error_count ∧ library_incompatible w d lib_name lib_path ∧
      Forall (fun r => level r ≠ INFO) new ∧
      ∃ r, r ∈ new ∧ level r = ERROR ∧
           head (args r) = Some (AStr (relpath w lib_path (_temp_dir w)))) ∨
     (count = error_count ∧ ¬ library_incompatible w d lib_name lib_path ∧
      ∃ new0, new = new0 ++ [pass_record (relpath w lib_path (_temp_dir w))] ∧
              Forall (fun r => level r = DEBUG) new0)) ∧
    (∀ e, symbols_result w d lib_name lib_path (Raised e) ->
          (e = IOError ∨ e = ElfError) ∧
          exception_record "%s: Cannot diff symbols"
            (relpath w lib_path (_temp_dir w)) e ∈ new) ∧
    (∀ e, vtables_result w d lib_name lib_path (Raised e) ->
          (e = IOError ∨ e = VtableError) ∧
          exception_record "%s: Cannot diff vtables"
            (relpath w lib_path (_temp_dir w)) e ∈ new).
Proof.
  intros Hw Hp. set (rel := relpath w lib_path (_temp_dir w)).
  destruct (compare_symbols_spec w d lib_name lib_path rel false log Hw)
    as (missing & f1 & new1 & Hs & Hsym).
  destruct (compare_vtables_spec w d lib_name lib_path rel f1 (log ++ new1) Hw)
    as (vdiff & f2 & new2 & Hv & Hvt).
  pose proof (report_lib_spec rel f2 missing vdiff error_count
                ((log ++ new1) ++ new2)) as Hrep.
  eexists _, _. split.
  { rewrite (scan_lib_resolved _ _ _ _ _ _ Hp). cbv zeta. fold rel.
    erewrite run_bind by exact Hs. cbn beta iota.
    erewrite run_bind by exact Hv. cbn beta iota.
    rewrite Hrep, <- !app_assoc. reflexivity. }
  assert (Hlevel1 : Forall (fun r => level r ≠ INFO) new1).
  { destruct Hsym as [(_ & _ & _ & ->)|[(_ & _ & Hd)|(e & _ & _ & _ & _ & ->)]].
    - constructor.
    - eapply Forall_impl; [exact Hd|]. intros r ->. done.
    - by repeat constructor. }
  assert (Hlevel2 : Forall (fun r => level r ≠ INFO) new2).
  { destruct Hvt as [(_ & _ & _ & ->)|[(_ & _ & Hd)|(e & _ & _ & _ & _ & ->)]].
    - constructor.
    - eapply Forall_impl; [exact Hd|]. intros r ->. done.
    - by repeat constructor. }
  split; [|split].
  - destruct (f2 || nonempty missing || nonempty vdiff) eqn:Hflag.
    + left. split; [done|]. split; [|split].
      * apply orb_true_iff in Hflag as [Hflag|Hvd].
        -- apply orb_true_iff in Hflag as [->|Hm].
           ++ destruct Hvt as [(_ & _ & Hf & _)|[(_ & Hf & _)|(e & Hr & _)]].
              ** subst f1.
                 destruct Hsym as [(_ & _ & Hf & _)|[(_ & Hf & _)|(e & Hr & _)]];
                   [done..|]. right. right. left. by exists e.
              ** subst f1.
                 destruct Hsym as [(_ & _ & Hf & _)|[(_ & Hf & _)|(e & Hr & _)]];
                   [done..|]. right. right. left. by exists e.
              ** do 3 right. by exists e.
           ++ apply nonempty_true in Hm.
              destruct Hsym as [(_ & -> & _)|[(Hr & _)|(e & _ & _ & -> & _)]];
                [done| |done]. left. by exists missing.
        -- apply nonempty_true in Hvd.
           destruct Hvt as [(_ & -> & _)|[(Hr & _)|(e & _ & _ & -> & _)]];
             [done| |done]. right. left. by exists vdiff.
      * rewrite !Forall_app.
        repeat split; try done; apply Forall_optional; done.
      * apply orb_true_iff in Hflag as [Hflag|Hvd].
        -- apply orb_true_iff in Hflag as [->|Hm].
           ++ assert (∃ m e, exception_record m rel e ∈ new1 ++ new2)
                as (m & e & Hin).
              { destruct Hvt as [(_ & _ & Hf & _)|[(_ & Hf & _)|(e & _ & _ & _ & _ & ->)]].
                - subst f1.
                  destruct Hsym as [(_ & _ & Hf & _)|[(_ & Hf & _)|(e & _ & _ & _ & _ & ->)]];
                    [done..|]. eexists _, e. apply elem_of_app. left. left.
                - subst f1.
                  destruct Hsym as [(_ & _ & Hf & _)|[(_ & Hf & _)|(e & _ & _ & _ & _ & ->)]];
                    [done..|]. eexists _, e. apply elem_of_app. left. left.
                - eexists _, e. apply elem_of_app. right. left. }
              exists (exception_record m rel e). split; [|done].
              rewrite app_assoc. apply elem_of_app. by left.
           ++ exists (missing_symbols_record rel missing). split; [|done].
              rewrite Hm. rewrite !elem_of_app. right. right. left. left.
        -- exists (vtable_difference_record rel vdiff). split; [|done].
           rewrite Hvd. rewrite !elem_of_app. do 3 right. left. left.
    + right. apply orb_false_iff in Hflag as [Hflag Hvd].
      apply orb_false_iff in Hflag as [-> Hm].
      rewrite Hm, Hvd. destruct missing; [|done]. destruct vdiff; [|done].
      assert (f1 = false ∧ Forall (fun r => level r = DEBUG) new2 ∧
              (vtable_dumps d !! lib_name = None ∨
               vtables_result w d lib_name lib_path (Ok []))) as (-> & Hd2 & Hv2).
      { destruct Hvt as [(Hn & _ & <- & ->)|[(Hr & <- & Hd)|(e & _ & _ & _ & ? & _)]];
          [auto..|done]. }
      assert (Forall (fun r => level r = DEBUG) new1 ∧
              (symbol_dumps d !! lib_name = None ∨
               symbols_result w d lib_name lib_path (Ok []))) as (Hd1 & Hs1).
      { destruct Hsym as [(Hn & _ & _ & ->)|[(Hr & _ & Hd)|(e & _ & _ & _ & ? & _)]];
          [auto..|done]. }
      split; [done|]. split.
      * intros [(m & Hr & Hne)|[(v & Hr & Hne)|[(e & Hr)|(e & Hr)]]].
        -- destruct Hs1 as [Hn|Hs1]; [by apply symbols_result_dump in Hr|].
           pose proof (symbols_result_inj _ _ _ _ _ _ Hr Hs1). congruence.
        -- destruct Hv2 as [Hn|Hv2]; [by apply vtables_result_dump in Hr|].
           pose proof (vtables_result_inj _ _ _ _ _ _ Hr Hv2). congruence.
        -- destruct Hs1 as [Hn|Hs1]; [by apply symbols_result_dump in Hr|].
           pose proof (symbols_result_inj _ _ _ _ _ _ Hr Hs1). congruence.
        -- destruct Hv2 as [Hn|Hv2]; [by apply vtables_result_dump in Hr|].
           pose proof (vtables_result_inj _ _ _ _ _ _ Hr Hv2). congruence.
      * exists (new1 ++ new2). cbn [app]. rewrite <- app_assoc.
        split; [done|]. by apply Forall_app_2.
  - intros e Hr.
    destruct Hsym as [(Hn & _)|[(Hr' & _)|(e' & Hr' & He & _ & _ & ->)]].
    + by apply symbols_result_dump in Hr.
    + pose proof (symbols_result_inj _ _ _ _ _ _ Hr Hr'). congruence.
    + pose proof (symbols_result_inj _ _ _ _ _ _ Hr Hr') as [= ->].
      split; [done|]. apply elem_of_app. left. left.
  - intros e Hr.
    destruct Hvt as [(Hn & _)|[(Hr' & _)|(e' & Hr' & He & _ & _ & ->)]].
    + by apply vtables_result_dump in Hr.
    + pose proof (vtables_result_inj _ _ _ _ _ _ Hr Hr'). congruence.
    + pose proof (vtables_result_inj _ _ _ _ _ _ Hr Hr') as [= ->].
      split; [done|]. rewrite !elem_of_app. right. left. left.
Qed.

(** C3.  Let the parsers fail as documented.  For a library with a resolved
    path the loop body of [_ScanLibDirs] returns.  It returns the count plus
    one if and only if [_DiffSymbols] returned a non-empty list of missing
    symbols for the library, or [_DiffVtables] returned a non-empty list of
    mismatches, or one of the two raised an exception, which the [except]
    clause caught and logged; no pass record is logged then.  Otherwise it
    returns the count unchanged and its last record is the pass record of
    the library. *)
Theorem scan_lib_counts_incompatible w d error_count lib_name lib_path log :
  documented_failures w ->
  lib_path ≠ "" ->
  ∃ count new,
    scan_lib w d error_count (lib_name, Some lib_path) log =
      (Ok count, log ++ new) ∧
    (count = S error_count <-> library_incompatible w d lib_name lib_path) ∧
    (count = error_count <-> ¬ library_incompatible w d lib_name lib_path) ∧
    (library_incompatible w d lib_name lib_path ->
     pass_record (relpath w lib_path (_temp_dir w)) ∉ new) ∧
    (¬ library_incompatible w d lib_name lib_path ->
     last new = Some (pass_record (relpath w lib_path (_temp_dir w)))) ∧
    (∀ e, symbols_result w d lib_name lib_path (Raised e) ->
          exception_record "%s: Cannot diff symbols"
            (relpath w lib_path (_temp_dir w)) e ∈ new) ∧
    (∀ e, vtables_result w d lib_name lib_path (Raised e) ->
          exception_record "%s: Cannot diff vtables"
            (relpath w lib_path (_temp_dir w)) e ∈ new).
Proof.
  intros Hw Hp.
  destruct (scan_lib_found w d error_count lib_name lib_path log Hw Hp)
    as (count & new & Hrun & Hcase & Hsym & Hvt).
  exists count, new. split; [exact Hrun|].
  split; [|split; [|split; [|split; [|split]]]].
  - destruct Hcase as [(-> & Hinc & _)|(-> & Hno & _)]; [done|].
    split; [lia|done].
  - destruct Hcase as [(-> & Hinc & _)|(-> & Hno & _)]; [|done].
    split; [lia|done].
  - intros Hinc Hin.
    destruct Hcase as [(_ & _ & Hlevel & _)|(_ & Hno & _)]; [|done].
    rewrite Forall_forall in Hlevel. by apply Hlevel in Hin.
  - intros Hno.
    destruct Hcase as [(_ & Hinc & _)|(_ & _ & new0 & -> & _)]; [done|].
    apply last_snoc.
  - intros e Hr. by apply Hsym.
  - intros e Hr. by apply Hvt.
Qed.

Lemma scan_lib_counts_incompatible_witness :
  symbols_result w32_builds dumps32 "libfoo.so"
    "/tmp/abi/vendor_lib/hw/libfoo.so" (Ok ["bar"]) ∧
  vtables_result w32_builds dumps32 "libfoo.so"
    "/tmp/abi/vendor_lib/hw/libfoo.so" (Ok []) ∧
  ∃ count new,
    scan_lib w32_builds dumps32 0
      ("libfoo.so", Some "/tmp/abi/vendor_lib/hw/libfoo.so") [] =
      (Ok count, new) ∧
    count = 1.
Proof.
  assert (Hsym : symbols_result w32_builds dumps32 "libfoo.so"
                   "/tmp/abi/vendor_lib/hw/libfoo.so" (Ok ["bar"])).
  { exists (golden_dir ++ "/libfoo.so_symbol.dump")%string, [].
    split; vm_compute; reflexivity. }
  split; [exact Hsym|]. split.
  { exists (golden_dir ++ "/libfoo.so_vtable.dump")%string, [].
    split; vm_compute; reflexivity. }
  destruct (scan_lib_counts_incompatible w32_builds dumps32 0 "libfoo.so"
              "/tmp/abi/vendor_lib/hw/libfoo.so" [])
    as (count & new & Hrun & Hcount & _).
  - split; [|split]; intros until e; cbn; repeat case_match; discriminate.
  - discriminate.
  - exists count, new. split; [exact Hrun|].
    apply Hcount. left. exists ["bar"]. split; [exact Hsym|discriminate].
Defined.

(** *** The whole loop *)

Lemma examined_app w item before new after :
  examined w item new -> examined w item (before ++ new ++ after).
Proof.
  unfold examined. destruct (Py.truthy item.2).
  - intros (r & Hin & Hr). exists r. split; [|done].
    rewrite !elem_of_app. auto.
  - rewrite !elem_of_app. auto.
Qed.

(** With parsers that fail as documented the loop over [lib_paths] returns,
    having examined every item; each incompatible library has added to the
    count, and the exceptions of the differs are in the log. *)
Lemma scan_loop_examines w d items :
  documented_failures w ->
  ∀ error_count log,
    ∃ total new,
      for_each items (scan_lib w d) error_count log = (Ok total, log ++ new) ∧
      error_count <= total ∧
      (∀ item, item ∈ items -> examined w item new) ∧
      (∀ lib_name lib_path,
         (lib_name, Some lib_path) ∈ items -> lib_path ≠ "" ->
         (library_incompatible w d lib_name lib_path -> error_count < total) ∧
         (∀ e, symbols_result w d lib_name lib_path (Raised e) ->
               exception_record "%s: Cannot diff symbols"
                 (relpath w lib_path (_temp_dir w)) e ∈ new) ∧
         (∀ e, vtables_result w d lib_name lib_path (Raised e) ->
               exception_record "%s: Cannot diff vtables"
                 (relpath w lib_path (_temp_dir w)) e ∈ new)).
Proof.
  intros Hw. induction items as [|[lib_name bound] items IH];
    intros error_count log.
  - exists error_count, []. cbn. rewrite app_nil_r. split; [done|].
    split; [done|]. split.
    + by intros item ?%elem_of_nil.
    + by intros ? ? ?%elem_of_nil.
  - assert (∃ count new1,
              scan_lib w d error_count (lib_name, bound) log =
                (Ok count, log ++ new1) ∧
              error_count <= count ∧
              examined w (lib_name, bound) new1 ∧
              (∀ lib_path, bound = Some lib_path -> lib_path ≠ "" ->
                 (library_incompatible w d lib_name lib_path ->
                  error_count < count) ∧
                 (∀ e, symbols_result w d lib_name lib_path (Raised e) ->
                       exception_record "%s: Cannot diff symbols"
                         (relpath w lib_path (_temp_dir w)) e ∈ new1) ∧
                 (∀ e, vtables_result w d lib_name lib_path (Raised e) ->
                       exception_record "%s: Cannot diff vtables"
                         (relpath w lib_path (_temp_dir w)) e ∈ new1)))
      as (count & new1 & Hrun & Hle & Hex & Hlib).
    { destruct (Py.truthy bound) eqn:Hb.
      - destruct bound as [lib_path|]; [|done].
        pose proof (proj1 (truthy_Some lib_path) Hb) as Hp.
        destruct (scan_lib_found w d error_count lib_name lib_path log Hw Hp)
          as (count & new1 & Hrun & Hcase & Hsym & Hvt).
        exists count, new1. split; [exact Hrun|]. split; [|split].
        + destruct Hcase as [(-> & _)|(-> & _)]; lia.
        + unfold examined. cbn [fst snd]. rewrite Hb. cbn [default].
          destruct Hcase as [(_ & _ & _ & r & Hin & Hr)|(_ & _ & new0 & -> & _)].
          * exists r. split; [done|]. by right.
          * eexists. split; [|by left]. apply elem_of_app. right. left.
        + intros ? [= <-] _. split; [|split].
          * intros Hinc. destruct Hcase as [(-> & _)|(_ & Hno & _)]; [lia|done].
          * intros e Hr. by apply Hsym.
          * intros e Hr. by apply Hvt.
      - exists error_count, [not_found_record lib_name].
        split; [by apply scan_lib_not_found|]. split; [done|]. split.
        + unfold examined. cbn [fst snd]. rewrite Hb. left.
        + intros lib_path -> Hp. apply truthy_Some in Hp. congruence. }
    destruct (IH count (log ++ new1)) as (total & new2 & Hloop & Hle2 & Hex2 & Hlib2).
    exists total, (new1 ++ new2). split.
    { cbn [for_each]. erewrite run_bind by exact Hrun.
      by rewrite Hloop, app_assoc. }
    split; [lia|]. split.
    + intros item [->|Hin]%elem_of_cons.
      * apply (examined_app w _ [] new1 new2). done.
      * rewrite <- (app_nil_r new2). apply (examined_app w _ new1 new2 []).
        by apply Hex2.
    + intros name path [[= <- <-]|Hin]%elem_of_cons Hp.
      * destruct (Hlib path eq_refl Hp) as (Hc & Hs & Hv).
        split; [|split].
        -- intros Hinc. apply Hc in Hinc. lia.
        -- intros e Hr. apply elem_of_app. left. by apply Hs.
        -- intros e Hr. apply elem_of_app. left. by apply Hv.
      * destruct (Hlib2 name path Hin Hp) as (Hc & Hs & Hv).
        split; [|split].
        -- intros Hinc. apply Hc in Hinc. lia.
        -- intros e Hr. apply elem_of_app. right. by apply Hs.
        -- intros e Hr. apply elem_of_app. right. by apply Hv.
Qed.

(** A failed diff is an exception of the differ. *)
Lemma failed_diff_raises w d lib_name lib_path :
  (∃ dump_path, symbol_dumps d !! lib_name = Some dump_path ∧
                symbols_diff_fails w dump_path lib_path) ∨
  (∃ dump_path, vtable_dumps d !! lib_name = Some dump_path ∧
                vtables_diff_fails w dump_path lib_path) ->
  (∃ e, symbols_result w d lib_name lib_path (Raised e)) ∨
  (∃ e, vtables_result w d lib_name lib_path (Raised e)).
Proof.
  intros [(dump_path & Hd & Hf)|(dump_path & Hd & Hf)].
  - left. destruct (DiffSymbols_fails w dump_path lib_path [] Hf) as [e He].
    exists e, dump_path, []. by rewrite He.
  - right. destruct (DiffVtables_fails w dump_path lib_path [] Hf) as [e He].
    exists e, dump_path, []. by rewrite He.
Qed.

(** C8.  Let the parsers fail as documented: the ELF parser with [IOError]
    or [ElfError], the vtable parser with [IOError] or [VtableError].  Take
    a library that the scan of a dump directory binds to a path, and whose
    symbol or vtable diff fails (dump unreadable, binary not loadable,
    vtable parse failure).  Wherever the loop over the libraries meets it,
    the loop body returns the count plus one, having logged the exception,
    which is an [IOError], an [ElfError] or a [VtableError]; the loop then
    goes through all the remaining libraries and returns a total that
    includes it.  [_ScanLibDirs] as a whole returns a count of at least one;
    its log holds the exception of the library and what the loop has to say
    about every library of [lib_paths]. *)
Theorem library_failure_is_contained w dump_dir lib_dirs d log0 log1
    lib_name lib_path :
  documented_failures w ->
  for_each (iterate_files w dump_dir) register_dump (mkDumps ∅ ∅ ∅) log0
    = (Ok d, log1) ->
  (lib_name, Some lib_path) ∈
    map_to_list (resolve_lib_paths w (lib_paths d) lib_dirs) ->
  lib_path ≠ "" ->
  (∃ dump_path, symbol_dumps d !! lib_name = Some dump_path ∧
                symbols_diff_fails w dump_path lib_path) ∨
  (∃ dump_path, vtable_dumps d !! lib_name = Some dump_path ∧
                vtables_diff_fails w dump_path lib_path) ->
  (∀ error_count rest log,
     ∃ new m e,
       scan_lib w d error_count (lib_name, Some lib_path) log =
         (Ok (S error_count), log ++ new) ∧
       exception_record m (relpath w lib_path (_temp_dir w)) e ∈ new ∧
       (e = IOError ∨ e = ElfError ∨ e = VtableError) ∧
       ∃ total more,
         for_each ((lib_name, Some lib_path) :: rest) (scan_lib w d)
           error_count log = (Ok total, log ++ new ++ more) ∧
         S error_count <= total ∧
         ∀ item, item ∈ rest -> examined w item more) ∧
  ∃ total new,
    _ScanLibDirs w dump_dir lib_dirs log0 = (Ok total, log1 ++ new) ∧
    1 <= total ∧
    (∃ m e, exception_record m (relpath w lib_path (_temp_dir w)) e ∈ new) ∧
    ∀ item,
      item ∈ map_to_list (resolve_lib_paths w (lib_paths d) lib_dirs) ->
      examined w item new.
Proof.
  intros Hw Hreg Hitem Hp Hfail.
  apply failed_diff_raises in Hfail.
  assert (Hinc : library_incompatible w d lib_name lib_path).
  { unfold library_incompatible. tauto. }
  split.
  - intros error_count rest log.
    destruct (scan_lib_found w d error_count lib_name lib_path log Hw Hp)
      as (count & new & Hrun & Hcase & Hsym & Hvt).
    destruct Hcase as [(-> & _)|(_ & Hno & _)]; [|done].
    assert (∃ m e, exception_record m (relpath w lib_path (_temp_dir w)) e ∈ new ∧
                   (e = IOError ∨ e = ElfError ∨ e = VtableError))
      as (m & e & Hin & He).
    { destruct Hfail as [[e Hr]|[e Hr]].
      - destruct (Hsym e Hr) as [He Hin]. eexists _, e. split; [exact Hin|tauto].
      - destruct (Hvt e Hr) as [He Hin]. eexists _, e. split; [exact Hin|tauto]. }
    exists new, m, e. split; [exact Hrun|]. split; [exact Hin|].
    split; [exact He|].
    destruct (scan_loop_examines w d rest Hw (S error_count) (log ++ new))
      as (total & more & Hloop & Hle & Hex & _).
    exists total, more. split; [|split; [exact Hle|exact Hex]].
    cbn [for_each]. erewrite run_bind by exact Hrun.
    by rewrite Hloop, app_assoc.
  - destruct (scan_loop_examines w d
                (map_to_list (resolve_lib_paths w (lib_paths d) lib_dirs))
                Hw 0 log1) as (total & new & Hloop & _ & Hex & Hlib).
    destruct (Hlib lib_name lib_path Hitem Hp) as (Hcount & Hsym & Hvt).
    exists total, new. split; [|split; [|split; [|exact Hex]]].
    + unfold _ScanLibDirs. erewrite run_bind by exact Hreg. exact Hloop.
    + apply Hcount in Hinc. lia.
    + destruct Hfail as [[e Hr]|[e Hr]]; eexists _, e; eauto.
Qed.

Lemma library_failure_is_contained_witness :
  documented_failures w32_unloadable ∧
  ListGlobalDynamicSymbols w32_unloadable "/tmp/abi/system_lib/libbaz.so"
    = Raised ElfError ∧
  ∃ total new,
    _ScanLibDirs w32_unloadable golden_dir
      [_vendor_lib w32_unloadable; _system_lib w32_unloadable] [] =
      (Ok total, [unknown_dump_record] ++ new) ∧
    1 <= total ∧
    ∃ m e, exception_record m "system_lib/libbaz.so" e ∈ new.
Proof.
  assert (Hw : documented_failures w32_unloadable).
  { split; [|split].
    - intros lib_path e. cbn. case_match; [|done]. intros [= <-]. by right.
    - intros dir text e. cbn. done.
    - intros dir lib_path e. cbn. intros [= <-]. by right. }
  split; [exact Hw|]. split; [reflexivity|].
  destruct (library_failure_is_contained w32_unloadable golden_dir
              [_vendor_lib w32_unloadable; _system_lib w32_unloadable]
              dumps32 [] [unknown_dump_record]
              "libbaz.so" "/tmp/abi/system_lib/libbaz.so" Hw)
    as (_ & total & new & Hrun & Htotal & Hexc & _).
  - vm_compute. reflexivity.
  - apply (bool_decide_unpack _). vm_compute. exact I.
  - discriminate.
  - left. exists (golden_dir ++ "/libbaz.so_symbol.dump")%string.
    split; [vm_compute; reflexivity|]. right. by exists ElfError.
  - exists total, new. split; [exact Hrun|]. split; [exact Htotal|exact Hexc].
Defined.

(** ** Resolving the libraries *)

Lemma registered_insert_symbol d name path lib_name :
  registered (mkDumps (<[name := path]> (symbol_dumps d)) (vtable_dumps d)
                      (<[name := None]> (lib_paths d))) lib_name <->
  name = lib_name ∨ registered d lib_name.
Proof.
  unfold registered. cbn. rewrite lookup_insert_is_Some.
  destruct (decide (name = lib_name)); intuition.
Qed.

Lemma registered_insert_vtable d name path lib_name :
  registered (mkDumps (symbol_dumps d) (<[name := path]> (vtable_dumps d))
                      (<[name := None]> (lib_paths d))) lib_name <->
  name = lib_name ∨ registered d lib_name.
Proof.
  unfold registered. cbn. rewrite lookup_insert_is_Some.
  destruct (decide (name = lib_name)); intuition.
Qed.

Lemma register_dump_paths d item log d' log' :
  paths_match_dumps d ->
  register_dump d item log = (Ok d', log') ->
  paths_match_dumps d'.
Proof.
  destruct item as [root_dir file_name]. intros Hd.
  unfold register_dump; run_M.
  repeat case_match; intros [= <- <-]; try done; intros lib_name;
    cbn [lib_paths]; rewrite lookup_insert, (Hd lib_name);
    pose proof (registered_insert_symbol d
                  (Py.rpartition file_name "_symbol.dump").1.1
                  (Py.path_join root_dir [file_name]) lib_name) as Hsym;
    pose proof (registered_insert_vtable d
                  (Py.rpartition file_name "_vtable.dump").1.1
                  (Py.path_join root_dir [file_name]) lib_name) as Hvt;
    repeat case_decide; try done; tauto.
Qed.

Lemma registered_dumps_unbound w dump_dir d log log' lib_name :
  for_each (iterate_files w dump_dir) register_dump (mkDumps ∅ ∅ ∅) log
    = (Ok d, log') ->
  registered d lib_name ->
  lib_paths d !! lib_name = Some None.
Proof.
  intros Hloop Hreg.
  assert (paths_match_dumps d) as Hd.
  { eapply (for_each_invariant paths_match_dumps); [|
      |exact Hloop].
    - intros. eapply register_dump_paths; eauto.
    - intros name. unfold registered. cbn. rewrite !lookup_empty.
      case_decide as H; [|done]. destruct H as [[? ?]|[? ?]]; done. }
  rewrite Hd. by case_decide.
Qed.

Lemma resolve_lib_paths_fold w paths lib_dirs :
  resolve_lib_paths w paths lib_dirs =
  fold_left bind_lib_path (files_in_order w lib_dirs) paths.
Proof.
  unfold resolve_lib_paths, files_in_order. revert paths.
  induction lib_dirs as [|dir dirs IH]; intros paths; [done|].
  cbn [fold_left flat_map]. by rewrite IH, fold_left_app.
Qed.

Lemma bind_lib_path_other paths root_dir file_name lib_name :
  file_name ≠ lib_name ->
  bind_lib_path paths (root_dir, file_name) !! lib_name = paths !! lib_name.
Proof.
  intros Hne. unfold bind_lib_path. repeat case_match; try done.
  by rewrite lookup_insert_ne.
Qed.

Lemma fold_bind_lib_path_no_match files : ∀ paths lib_name,
  (∀ root_dir, (root_dir, lib_name) ∉ files) ->
  fold_left bind_lib_path files paths !! lib_name = paths !! lib_name.
Proof.
  induction files as [|[r f] files IH]; intros paths lib_name Hno; [done|].
  cbn [fold_left]. rewrite IH.
  - apply bind_lib_path_other. intros ->. apply (Hno r). left.
  - intros r' Hin. apply (Hno r'). by right.
Qed.

Lemma fold_bind_lib_path_bound files : ∀ paths lib_name lib_path,
  paths !! lib_name = Some (Some lib_path) -> lib_path ≠ "" ->
  fold_left bind_lib_path files paths !! lib_name = Some (Some lib_path).
Proof.
  induction files as [|[r f] files IH]; intros paths lib_name lib_path Hl Hne;
    [done|].
  cbn [fold_left]. apply IH; [|done].
  destruct (decide (f = lib_name)) as [->|Hf].
  - unfold bind_lib_path. rewrite Hl. apply truthy_Some in Hne. by rewrite Hne.
  - by rewrite bind_lib_path_other.
Qed.

Lemma fold_bind_lib_path_first before root_dir after paths lib_name :
  paths !! lib_name = Some None ->
  (∀ r, (r, lib_name) ∉ before) ->
  lib_name ≠ "" ->
  fold_left bind_lib_path (before ++ (root_dir, lib_name) :: after) paths
    !! lib_name = Some (Some (Py.path_join root_dir [lib_name])).
Proof.
  intros Hl Hno Hne. rewrite fold_left_app. cbn [fold_left].
  apply fold_bind_lib_path_bound; [|by apply path_join_nonempty].
  unfold bind_lib_path. rewrite fold_bind_lib_path_no_match, Hl by done.
  cbn. by rewrite lookup_insert_eq.
Qed.

Lemma first_match_in_first_dir (files1 files2 before after : list (string * string))
    root_dir r lib_name :
  files1 ++ files2 = before ++ (root_dir, lib_name) :: after ->
  (∀ r', (r', lib_name) ∉ before) ->
  (r, lib_name) ∈ files1 ->
  (root_dir, lib_name) ∈ files1.
Proof.
  revert before. induction files1 as [|[r1 f1] files1 IH];
    intros before Heq Hno Hin.
  - by apply elem_of_nil in Hin.
  - destruct before as [|b before]; cbn in Heq.
    + injection Heq as -> -> _. left.
    + injection Heq as <- Heq. apply elem_of_cons in Hin as [[= <- <-]|Hin].
      * destruct (Hno r). left.
      * right. apply (IH before); [done| |done].
        intros r' H. apply (Hno r'). by right.
Qed.

(** C5.  Let the search directories list no file with an empty name, let a
    library name have a dump, and take the first file of that name among the
    files of the search directories, visited in list order.  [_ScanLibDirs]
    is the loop of its body over the resolved [lib_paths], and there the
    name is bound to the path of that first file and to nothing else,
    whatever follows it.  That path is the one the loop body diffs: with
    parsers that fail as documented, the body counts the library if and only
    if [_DiffSymbols] or [_DiffVtables], run on that path, report a
    difference or fail, and [_ScanLibDirs] returns with the verdict on that
    path in its log.  In particular, with the directories [vendor; system]
    and a file of that name under vendor, the file diffed is one under
    vendor. *)
Theorem resolver_binds_first_match w dump_dir lib_dirs lib_name d log log1
    before root_dir after :
  for_each (iterate_files w dump_dir) register_dump (mkDumps ∅ ∅ ∅) log
    = (Ok d, log1) ->
  registered d lib_name ->
  (∀ r file_name,
     (r, file_name) ∈ files_in_order w lib_dirs -> file_name ≠ "") ->
  files_in_order w lib_dirs = before ++ (root_dir, lib_name) :: after ->
  (∀ r, (r, lib_name) ∉ before) ->
  _ScanLibDirs w dump_dir lib_dirs log =
    for_each (map_to_list (resolve_lib_paths w (lib_paths d) lib_dirs))
      (scan_lib w d) 0 log1 ∧
  (∀ bound,
     (lib_name, bound) ∈
       map_to_list (resolve_lib_paths w (lib_paths d) lib_dirs) <->
     bound = Some (Py.path_join root_dir [lib_name])) ∧
  (documented_failures w ->
   (∀ error_count l,
      ∃ count new,
        scan_lib w d error_count
          (lib_name, Some (Py.path_join root_dir [lib_name])) l =
          (Ok count, l ++ new) ∧
        (count = S error_count <->
         library_incompatible w d lib_name (Py.path_join root_dir [lib_name]))) ∧
   ∃ total new,
     _ScanLibDirs w dump_dir lib_dirs log = (Ok total, log1 ++ new) ∧
     examined w (lib_name, Some (Py.path_join root_dir [lib_name])) new ∧
     (library_incompatible w d lib_name (Py.path_join root_dir [lib_name]) ->
      1 <= total)) ∧
  (∀ vendor system r,
     lib_dirs = [vendor; system] ->
     (r, lib_name) ∈ iterate_files w vendor ->
     (root_dir, lib_name) ∈ iterate_files w vendor).
Proof.
  intros Hloop Hreg Hnames Hfiles Hno.
  pose proof (registered_dumps_unbound _ _ _ _ _ _ Hloop Hreg) as Hnone.
  assert (Hname : lib_name ≠ "").
  { apply (Hnames root_dir). rewrite Hfiles, elem_of_app. right. left. }
  assert (Hpath : Py.path_join root_dir [lib_name] ≠ "")
    by by apply path_join_nonempty.
  assert (Hbound : resolve_lib_paths w (lib_paths d) lib_dirs !! lib_name =
                     Some (Some (Py.path_join root_dir [lib_name]))).
  { rewrite resolve_lib_paths_fold, Hfiles.
    by apply fold_bind_lib_path_first. }
  assert (Hscan : _ScanLibDirs w dump_dir lib_dirs log =
    for_each (map_to_list (resolve_lib_paths w (lib_paths d) lib_dirs))
      (scan_lib w d) 0 log1).
  { unfold _ScanLibDirs. by erewrite run_bind by exact Hloop. }
  split; [exact Hscan|]. split; [|split].
  - intros bound. rewrite elem_of_map_to_list, Hbound. split; congruence.
  - intros Hw. split.
    + intros error_count l.
      destruct (scan_lib_found w d error_count lib_name
                  (Py.path_join root_dir [lib_name]) l Hw Hpath)
        as (count & new & Hrun & Hcase & _).
      exists count, new. split; [exact Hrun|].
      destruct Hcase as [(-> & Hinc & _)|(-> & Hcomp & _)]; [done|].
      split; [lia|done].
    + destruct (scan_loop_examines w d
                  (map_to_list (resolve_lib_paths w (lib_paths d) lib_dirs))
                  Hw 0 log1) as (total & new & Hrun & _ & Hex & Hlib).
      assert (Hitem : (lib_name, Some (Py.path_join root_dir [lib_name])) ∈
                map_to_list (resolve_lib_paths w (lib_paths d) lib_dirs))
        by by apply elem_of_map_to_list.
      exists total, new. split; [by rewrite Hscan|].
      split; [by apply Hex|].
      intros Hinc. destruct (Hlib _ _ Hitem Hpath) as (Hcount & _).
      apply Hcount in Hinc. lia.
  - intros vendor system r -> Hin.
    unfold files_in_order in Hfiles. cbn [flat_map] in Hfiles.
    eapply first_match_in_first_dir; [exact Hfiles|exact Hno|exact Hin].
Qed.

Lemma resolver_binds_first_match_witness :
  _ScanLibDirs w32 golden_dir [_vendor_lib w32; _system_lib w32] [] =
    for_each
      (map_to_list (resolve_lib_paths w32 (lib_paths dumps32)
                      [_vendor_lib w32; _system_lib w32]))
      (scan_lib w32 dumps32) 0 [unknown_dump_record] ∧
  ("libfoo.so", Some "/tmp/abi/vendor_lib/hw/libfoo.so") ∈
    map_to_list (resolve_lib_paths w32 (lib_paths dumps32)
                   [_vendor_lib w32; _system_lib w32]) ∧
  ("libfoo.so", Some "/tmp/abi/system_lib/libfoo.so") ∉
    map_to_list (resolve_lib_paths w32 (lib_paths dumps32)
                   [_vendor_lib w32; _system_lib w32]).
Proof.
  destruct (resolver_binds_first_match w32 golden_dir
              [_vendor_lib w32; _system_lib w32] "libfoo.so" dumps32
              [] [unknown_dump_record]
              [] "/tmp/abi/vendor_lib/hw"
              [("/tmp/abi/system_lib", "libfoo.so");
               ("/tmp/abi/system_lib", "libbaz.so");
               ("/tmp/abi/system_lib", "libc.so")])
    as (Hscan & Hbound & _).
  - vm_compute. reflexivity.
  - left. eexists. vm_compute. reflexivity.
  - intros root_dir file_name Hin.
    apply (proj1 (Forall_forall (fun item : string * string => item.2 ≠ "")
                    (files_in_order w32 [_vendor_lib w32; _system_lib w32])))
      with (x := (root_dir, file_name)); [|exact Hin].
    apply (bool_decide_unpack _). vm_compute. exact I.
  - vm_compute. reflexivity.
  - intros r Hin. by apply elem_of_nil in Hin.
  - split; [exact Hscan|]. split.
    + by apply Hbound.
    + intros Hin. apply Hbound in Hin. discriminate.
Defined.

(** C6.  A library name that has a dump but no file of that name in any
    search directory stays unbound, and the loop body of [_ScanLibDirs] on it
    only logs "Not found on target": it returns the count unchanged, whatever
    the parsers would answer, and logs neither a pass nor a difference. *)
Theorem unresolved_library_is_skipped w dump_dir lib_dirs lib_name d log log1 :
  for_each (iterate_files w dump_dir) register_dump (mkDumps ∅ ∅ ∅) log
    = (Ok d, log1) ->
  registered d lib_name ->
  (∀ root_dir, (root_dir, lib_name) ∉ files_in_order w lib_dirs) ->
  (lib_name, None) ∈ map_to_list (resolve_lib_paths w (lib_paths d) lib_dirs) ∧
  ∀ error_count log2,
    scan_lib w d error_count (lib_name, None) log2 =
      (Ok error_count, log2 ++ [not_found_record lib_name]).
Proof.
  intros Hloop Hreg Hno. split.
  - apply elem_of_map_to_list.
    rewrite resolve_lib_paths_fold, fold_bind_lib_path_no_match by done.
    eapply registered_dumps_unbound; eauto.
  - intros. by apply scan_lib_not_found.
Qed.

Lemma unresolved_library_is_skipped_witness :
  ("libbar.so", None) ∈
    map_to_list (resolve_lib_paths w32 (lib_paths dumps32)
                   [_vendor_lib w32; _system_lib w32]) ∧
  ∀ error_count log2,
    scan_lib w32 dumps32 error_count ("libbar.so", None) log2 =
      (Ok error_count, log2 ++ [not_found_record "libbar.so"]).
Proof.
  apply (unresolved_library_is_skipped w32 golden_dir
           [_vendor_lib w32; _system_lib w32] "libbar.so" dumps32
           [] [unknown_dump_record]).
  - vm_compute. reflexivity.
  - left. eexists. vm_compute. reflexivity.
  - intros root_dir Hin.
    apply (proj1 (Forall_forall
                    (fun item : string * string => item.2 ≠ "libbar.so")
                    (files_in_order w32 [_vendor_lib w32; _system_lib w32])))
      with (x := (root_dir, "libbar.so")) in Hin; [by apply Hin|].
    apply (bool_decide_unpack _). vm_compute. exact I.
Defined.

(** ** testAbiCompatibility *)

Lemma abi_families_pure abi log r log' :
  abi_families abi log = (r, log') ->
  log' = log ∧ ∀ l, abi_families abi l = (r, l).
Proof.
  unfold abi_families, asserts.fail, raise, ret.
  repeat case_match; intros [= <- <-]; done.
Qed.

(** C4, as stated, fails on a 64-bit device whose 64-bit dump directory is
    absent: the test ends in the configuration error, but only after the
    32-bit libraries have been examined (one of them is logged as a pass). *)
Lemma config_error_after_32bit_scan :
  is64Bit w64 = true ∧
  isdir w64 (dump_dir w64 "arm64") = false ∧
  (∃ log', testAbiCompatibility w64 [] =
             (Raised (TestFailure (no_dump_files w64)), log') ∧
           pass_record "vendor_lib/libfoo.so" ∈ log') ∧
  ¬ fails_before_any_library w64 [].
Proof.
  split; [reflexivity|]. split; [reflexivity|].
  assert (Hrun : testAbiCompatibility w64 [] =
    (Raised (TestFailure "No dump files for SDK version 26"),
     [check_record "32";
      mkLog DEBUG "%s: %s"
        [AStr "/tmp/abi/vendor_lib/libfoo.so"; ASymbols ["foo"; "bar"]] None;
      pass_record "vendor_lib/libfoo.so";
      check_record "64"])) by (vm_compute; reflexivity).
  split.
  - eexists. split; [exact Hrun|]. do 2 right. left.
  - intros (log' & Hfail & Hlib). rewrite Hrun in Hfail.
    injection Hfail as <-. vm_compute in Hlib. discriminate.
Qed.

(** C4, amended.  For a known ABI: if the 32-bit dump directory is absent,
    [testAbiCompatibility] fails with the configuration error having logged
    nothing but the 32-bit banner.  If it is present, the 32-bit scan returns,
    the device is 64-bit and the 64-bit dump directory is absent, the test
    fails with the configuration error after the 32-bit scan and before any
    64-bit library is examined.  If the test succeeds, the dump directory of
    every required width exists and the counts of the scans sum to zero. *)
Theorem missing_dump_dir_is_fatal w abi_32 abi_64 log0 log :
  abi_families (cpu_abi w) log0 = (Ok (abi_32, abi_64), log0) ->
  (isdir w (dump_dir w abi_32) = false ->
   testAbiCompatibility w log =
     (Raised (TestFailure (no_dump_files w)), log ++ [check_record "32"])) ∧
  (∀ n32 log1,
     isdir w (dump_dir w abi_32) = true ->
     _ScanLibDirs w (dump_dir w abi_32) [_vendor_lib w; _system_lib w]
       (log ++ [check_record "32"]) = (Ok n32, log1) ->
     is64Bit w = true ->
     isdir w (dump_dir w abi_64) = false ->
     testAbiCompatibility w log =
       (Raised (TestFailure (no_dump_files w)), log1 ++ [check_record "64"])) ∧
  (∀ log',
     testAbiCompatibility w log = (Ok tt, log') ->
     isdir w (dump_dir w abi_32) = true ∧
     (is64Bit w = true -> isdir w (dump_dir w abi_64) = true) ∧
     ∃ n32 log1,
       _ScanLibDirs w (dump_dir w abi_32) [_vendor_lib w; _system_lib w]
         (log ++ [check_record "32"]) = (Ok n32, log1) ∧
       if is64Bit w
       then ∃ n64,
              _ScanLibDirs w (dump_dir w abi_64) [_vendor_lib64 w; _system_lib64 w]
                (log1 ++ [check_record "64"]) = (Ok n64, log') ∧
              n32 + n64 = 0
       else n32 = 0 ∧ log' = log1).
Proof.
  intros Habi. apply abi_families_pure in Habi as [_ Habi].
  unfold testAbiCompatibility, dump_dir.
  split; [|split].
  - intros H32. erewrite run_bind by apply Habi. cbn beta iota.
    unfold bind at 1. unfold logging at 1.
    unfold bind at 1. by rewrite H32.
  - intros n32 log1 H32 Hscan H64 Hd64.
    erewrite run_bind by apply Habi. cbn beta iota.
    unfold bind at 1. unfold logging at 1.
    unfold bind at 1. rewrite H32. unfold asserts.assertTrue at 1, ret at 1.
    erewrite run_bind by exact Hscan.
    rewrite H64, Hd64. reflexivity.
  - intros log' H.
    apply bind_Ok_inv in H as ([a32 a64] & l1 & Ha & H).
    rewrite Habi in Ha. injection Ha as <- <- <-.
    apply bind_Ok_inv in H as ([] & l2 & Hlog & H).
    unfold logging in Hlog. injection Hlog as <-.
    apply bind_Ok_inv in H as ([] & l3 & Hassert & H).
    unfold asserts.assertTrue, asserts.fail, raise, ret in Hassert.
    destruct (isdir w (Py.path_join _DUMP_DIR [_sdk_version w; abi_32]))
      eqn:H32; [|done].
    injection Hassert as <-.
    apply bind_Ok_inv in H as (n32 & log1 & Hscan & H).
    apply bind_Ok_inv in H as (total & l4 & Hif & H).
    unfold asserts.assertEqual, asserts.fail, raise, ret in H.
    destruct (Nat.eqb_spec total 0) as [->|Hz]; [|done].
    injection H as <-.
    split; [done|]. destruct (is64Bit w) eqn:H64.
    + apply bind_Ok_inv in Hif as ([] & l5 & Hlog & Hif).
      unfold logging in Hlog. injection Hlog as <-.
      apply bind_Ok_inv in Hif as ([] & l6 & Hassert & Hif).
      unfold asserts.assertTrue, asserts.fail, raise, ret in Hassert.
      destruct (isdir w (Py.path_join _DUMP_DIR [_sdk_version w; abi_64]))
        eqn:Hd64; [|done].
      injection Hassert as <-.
      apply bind_Ok_inv in Hif as (n64 & l7 & Hscan64 & Hif).
      unfold ret in Hif. injection Hif as Hsum <-.
      split; [done|]. exists n32, log1. split; [done|]. by exists n64.
    + unfold ret in Hif. injection Hif as -> <-.
      split; [done|]. by exists 0, log1.
Qed.

Lemma missing_dump_dir_is_fatal_witness :
  abi_families (cpu_abi w64) [] = (Ok ("arm", "arm64"), []) ∧
  isdir w64 (dump_dir w64 "arm64") = false ∧
  ∃ log',
    testAbiCompatibility w64 [] =
      (Raised (TestFailure (no_dump_files w64)), log' ++ [check_record "64"]).
Proof.
  split; [reflexivity|]. split; [reflexivity|].
  eexists.
  eapply (proj1 (proj2 (missing_dump_dir_is_fatal w64 "arm" "arm64" [] []
                          eq_refl))).
  - reflexivity.
  - vm_compute. reflexivity.
  - reflexivity.
  - reflexivity.
Defined.

(** * The other parts of the module *)

(** ** File names and their suffixes *)

Lemma string_length_app s t :
  String.length (s ++ t) = String.length s + String.length t.
Proof.
  induction s as [|c s IH]; [done|].
  change (S (String.length (s ++ t)) = S (String.length s + String.length t)).
  by rewrite IH.
Qed.

Lemma string_app_assoc (a b c : string) :
  (a ++ (b ++ c) = (a ++ b) ++ c)%string.
Proof.
  induction a as [|x a IH]; [done|].
  change (String x (a ++ (b ++ c)) = String x ((a ++ b) ++ c))%string.
  by rewrite IH.
Qed.

Lemma substring_prefix s t : substring 0 (String.length s) (s ++ t) = s.
Proof.
  induction s as [|c s IH]; [by destruct t|].
  change (String c (substring 0 (String.length s) (s ++ t)) = String c s).
  by rewrite IH.
Qed.

Lemma substring_all t : substring 0 (String.length t) t = t.
Proof. induction t as [|c t IH]; [done|]. cbn. by rewrite IH. Qed.

Lemma substring_suffix s t :
  substring (String.length s) (String.length t) (s ++ t) = t.
Proof.
  induction s as [|c s IH]; [apply substring_all|].
  change (substring (String.length s) (String.length t) (s ++ t) = t).
  exact IH.
Qed.

Lemma substring_split s n :
  n <= String.length s ->
  (substring 0 n s ++ substring n (String.length s - n) s)%string = s.
Proof.
  revert n. induction s as [|c s IH]; intros n Hn.
  - by destruct n.
  - destruct n as [|n].
    + change (substring 0 (String.length (String c s)) (String c s) = String c s).
      apply substring_all.
    + cbn in Hn.
      change (String c (substring 0 n s ++ substring n (String.length s - n) s)
              = String c s).
      rewrite IH by lia. done.
Qed.

Lemma substring_none n s : substring n 0 s = "".
Proof.
  revert n. induction s as [|c s IH]; intros [|n]; try done. apply IH.
Qed.

(** [endswith] holds exactly of the strings that are some head followed by
    the suffix. *)
Lemma endswith_app s suffix :
  Py.endswith s suffix = true <-> ∃ head, s = (head ++ suffix)%string.
Proof.
  unfold Py.endswith. rewrite andb_true_iff, Nat.leb_le, String.eqb_eq. split.
  - intros [Hlen Hsub].
    exists (substring 0 (String.length s - String.length suffix) s).
    pose proof (substring_split s (String.length s - String.length suffix))
      as Hsplit.
    replace (String.length s - (String.length s - String.length suffix))
      with (String.length suffix) in Hsplit by lia.
    rewrite Hsub in Hsplit. symmetry. apply Hsplit. lia.
  - intros [head ->]. rewrite string_length_app. split; [lia|].
    replace (String.length head + String.length suffix - String.length suffix)
      with (String.length head) by lia.
    apply substring_suffix.
Qed.

(** Stripping the suffix with [rpartition] gives the head back. *)
Lemma rpartition_app head suffix :
  Py.rpartition (head ++ suffix) suffix = (head, suffix, "").
Proof.
  unfold Py.rpartition. rewrite string_length_app.
  replace (String.length head + String.length suffix - String.length suffix)
    with (String.length head) by lia.
  assert (Hfind : Py.rfind_from suffix (head ++ suffix) (String.length head)
                  = Some (String.length head)).
  { destruct (String.length head) eqn:E; cbn [Py.rfind_from]; rewrite <- ?E;
      by rewrite substring_suffix, String.eqb_refl. }
  rewrite Hfind, substring_prefix.
  replace (String.length head + String.length suffix
           - (String.length head + String.length suffix)) with 0 by lia.
  by rewrite substring_none.
Qed.

Lemma string_app_inv_tail h1 h2 t1 t2 :
  (h1 ++ t1)%string = (h2 ++ t2)%string ->
  String.length t1 = String.length t2 ->
  h1 = h2 ∧ t1 = t2.
Proof.
  revert h2. induction h1 as [|c h1 IH]; intros h2 Heq Hlen.
  - destruct h2 as [|c2 h2]; [done|].
    apply (f_equal String.length) in Heq.
    change (String.length t1 = S (String.length (h2 ++ t2))) in Heq.
    rewrite string_length_app in Heq. lia.
  - destruct h2 as [|c2 h2].
    + apply (f_equal String.length) in Heq.
      change (S (String.length (h1 ++ t1)) = String.length t2) in Heq.
      rewrite string_length_app in Heq. lia.
    + injection Heq as -> Heq. destruct (IH _ Heq Hlen) as [-> ->]. done.
Qed.

(** A file name carries at most one of the two suffixes. *)
Lemma symbol_dump_not_vtable lib_name :
  Py.endswith (lib_name ++ "_symbol.dump") "_vtable.dump" = false.
Proof.
  destruct (Py.endswith _ _) eqn:E; [|done].
  apply endswith_app in E as [head Heq].
  by apply string_app_inv_tail in Heq as [_ [=]].
Qed.

Lemma vtable_dump_not_symbol lib_name :
  Py.endswith (lib_name ++ "_vtable.dump") "_symbol.dump" = false.
Proof.
  destruct (Py.endswith _ _) eqn:E; [|done].
  apply endswith_app in E as [head Heq].
  by apply string_app_inv_tail in Heq as [_ [=]].
Qed.

Lemma startswith_app a rest : Py.startswith (a ++ rest) a = true.
Proof.
  unfold Py.startswith. apply String.prefix_correct, substring_prefix.
Qed.

(** [os.path.join(a, name)] for a relative [name] is [a], perhaps a slash,
    and [name]. *)
Lemma path_join_relative a name :
  Py.startswith name "/" = false ->
  ∃ sep, Py.path_join a [name] = (a ++ sep ++ name)%string.
Proof.
  intros Hrel. unfold Py.path_join, Py.path_join2. cbn [fold_left].
  rewrite Hrel. destruct (_ || _); [by exists ""|by exists "/"].
Qed.

Lemma lib_dir_not_lib64 temp_dir :
  Py.endswith (Py.path_join temp_dir ["vendor_lib"]) "lib64" = false ∧
  Py.endswith (Py.path_join temp_dir ["system_lib"]) "lib64" = false.
Proof.
  split.
  - destruct (path_join_relative temp_dir "vendor_lib" eq_refl) as [sep ->].
    destruct (Py.endswith _ _) eqn:E; [|done].
    apply endswith_app in E as [head Heq].
    change "vendor_lib" with ("vendo" ++ "r_lib")%string in Heq.
    rewrite !string_app_assoc in Heq.
    by apply string_app_inv_tail in Heq as [_ [=]].
  - destruct (path_join_relative temp_dir "system_lib" eq_refl) as [sep ->].
    destruct (Py.endswith _ _) eqn:E; [|done].
    apply endswith_app in E as [head Heq].
    change "system_lib" with ("syste" ++ "m_lib")%string in Heq.
    rewrite !string_app_assoc in Heq.
    by apply string_app_inv_tail in Heq as [_ [=]].
Qed.

(** ** The loop over the dump directory *)

Lemma register_dump_symbol d root_dir lib_name log :
  register_dump d (root_dir, (lib_name ++ "_symbol.dump")%string) log =
    (Ok (mkDumps
           (<[lib_name := Py.path_join root_dir [(lib_name ++ "_symbol.dump")%string]]>
              (symbol_dumps d))
           (vtable_dumps d)
           (<[lib_name := None]> (lib_paths d))), log).
Proof.
  unfold register_dump.
  assert (Py.endswith (lib_name ++ "_symbol.dump") "_symbol.dump" = true) as ->
    by (apply endswith_app; eauto).
  by rewrite rpartition_app.
Qed.

Lemma register_dump_vtable d root_dir lib_name log :
  register_dump d (root_dir, (lib_name ++ "_vtable.dump")%string) log =
    (Ok (mkDumps
           (symbol_dumps d)
           (<[lib_name := Py.path_join root_dir [(lib_name ++ "_vtable.dump")%string]]>
              (vtable_dumps d))
           (<[lib_name := None]> (lib_paths d))), log).
Proof.
  unfold register_dump. rewrite vtable_dump_not_symbol.
  assert (Py.endswith (lib_name ++ "_vtable.dump") "_vtable.dump" = true) as ->
    by (apply endswith_app; eauto).
  by rewrite rpartition_app.
Qed.

Lemma register_dump_unknown d item log :
  unknown_dump item = true ->
  register_dump d item log = (Ok d, log ++ [unknown_dump_warning item]).
Proof.
  destruct item as [root_dir file_name]. unfold unknown_dump. cbn [snd].
  intros [H1 H2]%andb_true_iff. apply negb_true_iff in H1, H2.
  unfold register_dump. by rewrite H1, H2.
Qed.

Lemma last_dump_path_cons suffix lib_name root_dir file_name files :
  last_dump_path suffix lib_name ((root_dir, file_name) :: files) =
    match last_dump_path suffix lib_name files with
    | Some p => Some p
    | None =>
        if decide (file_name = (lib_name ++ suffix)%string)
        then Some (Py.path_join root_dir [file_name]) else None
    end.
Proof.
  unfold last_dump_path, dump_files_of. rewrite filter_cons. cbn [snd].
  case_decide; [rewrite last_cons|]; by destruct (last _) as [[r f]|].
Qed.

Lemma for_each_register_dump files : ∀ d0 log,
  ∃ d,
    for_each files register_dump d0 log = (Ok d, log ++ unknown_dump_warnings files) ∧
    (∀ lib_name,
       symbol_dumps d !! lib_name =
         match last_dump_path "_symbol.dump" lib_name files with
         | Some p => Some p
         | None => symbol_dumps d0 !! lib_name
         end) ∧
    (∀ lib_name,
       vtable_dumps d !! lib_name =
         match last_dump_path "_vtable.dump" lib_name files with
         | Some p => Some p
         | None => vtable_dumps d0 !! lib_name
         end).
Proof.
  induction files as [|[root_dir file_name] files IH]; intros d0 log.
  - exists d0. cbn. by rewrite app_nil_r.
  - cbn [for_each]. unfold unknown_dump_warnings. rewrite filter_cons.
    destruct (Py.endswith file_name "_symbol.dump") eqn:Hs;
      [|destruct (Py.endswith file_name "_vtable.dump") eqn:Hv].
    + apply endswith_app in Hs as [head ->].
      erewrite run_bind by apply register_dump_symbol.
      destruct (IH (mkDumps
           (<[head := Py.path_join root_dir [(head ++ "_symbol.dump")%string]]>
              (symbol_dumps d0))
           (vtable_dumps d0)
           (<[head := None]> (lib_paths d0))) log) as (d & Hrun & Hsym & Hvt).
      exists d. split; [|split].
      * rewrite Hrun. unfold unknown_dump, unknown_dump_warnings. cbn [snd].
        assert (Py.endswith (head ++ "_symbol.dump") "_symbol.dump" = true) as ->
          by (apply endswith_app; eauto).
        cbn [negb andb]. by case_decide.
      * intros lib_name. rewrite Hsym, last_dump_path_cons. cbn [symbol_dumps].
        destruct (last_dump_path _ _ files); [done|].
        rewrite lookup_insert. case_decide as Hd; case_decide as Hd'; try done.
        -- by destruct Hd'; subst.
        -- by apply string_app_inv_tail in Hd' as [-> _].
      * intros lib_name. rewrite Hvt, last_dump_path_cons. cbn [vtable_dumps].
        destruct (last_dump_path _ _ files); [done|].
        case_decide as Hd; [|done].
        by apply string_app_inv_tail in Hd as [_ [=]].
    + apply endswith_app in Hv as [head ->].
      erewrite run_bind by apply register_dump_vtable.
      destruct (IH (mkDumps
           (symbol_dumps d0)
           (<[head := Py.path_join root_dir [(head ++ "_vtable.dump")%string]]>
              (vtable_dumps d0))
           (<[head := None]> (lib_paths d0))) log) as (d & Hrun & Hsym & Hvt).
      exists d. split; [|split].
      * rewrite Hrun. unfold unknown_dump, unknown_dump_warnings. cbn [snd].
        assert (Py.endswith (head ++ "_vtable.dump") "_vtable.dump" = true) as ->
          by (apply endswith_app; eauto).
        rewrite andb_false_r. by case_decide.
      * intros lib_name. rewrite Hsym, last_dump_path_cons. cbn [symbol_dumps].
        destruct (last_dump_path _ _ files); [done|].
        case_decide as Hd; [|done].
        by apply string_app_inv_tail in Hd as [_ [=]].
      * intros lib_name. rewrite Hvt, last_dump_path_cons. cbn [vtable_dumps].
        destruct (last_dump_path _ _ files); [done|].
        rewrite lookup_insert. case_decide as Hd; case_decide as Hd'; try done.
        -- by destruct Hd'; subst.
        -- by apply string_app_inv_tail in Hd' as [-> _].
    + assert (Hu : unknown_dump (root_dir, file_name) = true)
        by (unfold unknown_dump; cbn [snd]; by rewrite Hs, Hv).
      erewrite run_bind by (by apply register_dump_unknown).
      destruct (IH d0 (log ++ [unknown_dump_warning (root_dir, file_name)]))
        as (d & Hrun & Hsym & Hvt).
      exists d. split; [|split].
      * rewrite Hrun, Hu. case_decide; [|done].
        unfold unknown_dump_warnings. cbn [map]. by rewrite <- app_assoc.
      * intros lib_name. rewrite Hsym, last_dump_path_cons.
        destruct (last_dump_path _ _ files); [done|].
        case_decide as Hd; [|done]. subst.
        assert (Py.endswith (lib_name ++ "_symbol.dump") "_symbol.dump" = true)
          by (apply endswith_app; eauto). congruence.
      * intros lib_name. rewrite Hvt, last_dump_path_cons.
        destruct (last_dump_path _ _ files); [done|].
        case_decide as Hd; [|done]. subst.
        assert (Py.endswith (lib_name ++ "_vtable.dump") "_vtable.dump" = true)
          by (apply endswith_app; eauto). congruence.
Qed.

Lemma last_dump_path_is_Some suffix lib_name files :
  is_Some (last_dump_path suffix lib_name files) <->
  ∃ root_dir, (root_dir, (lib_name ++ suffix)%string) ∈ files.
Proof.
  unfold last_dump_path, dump_files_of. split.
  - destruct (last _) as [[r f]|] eqn:E; [|by intros [? ?]]. intros _.
    apply last_Some_elem_of, list_elem_of_filter in E as [Hf Hin].
    cbn in Hf. subst. eauto.
  - intros [r Hin].
    assert ((r, (lib_name ++ suffix)%string) ∈
              filter (fun item : string * string =>
                        item.2 = (lib_name ++ suffix)%string) files) as Hf
      by (by apply list_elem_of_filter).
    destruct (filter _ files) as [|x l] eqn:E; [by apply elem_of_nil in Hf|].
    rewrite last_cons. destruct (last l) as [[??]|]; [done|]. by destruct x.
Qed.

(** X1.  The loop of [_ScanLibDirs] over the dump directory never raises.  It
    logs one warning for each file whose name ends in neither
    "_symbol.dump" nor "_vtable.dump", in listing order, and nothing else.
    For every library name, the symbol dump it registers is the path of the
    last listed file named <name>_symbol.dump (none when there is no such
    file), and likewise for the vtable dump. *)
Theorem dumps_registered_from_files w dump_dir log :
  ∃ d,
    for_each (iterate_files w dump_dir) register_dump (mkDumps ∅ ∅ ∅) log =
      (Ok d, log ++ unknown_dump_warnings (iterate_files w dump_dir)) ∧
    ∀ lib_name,
      symbol_dumps d !! lib_name =
        last_dump_path "_symbol.dump" lib_name (iterate_files w dump_dir) ∧
      vtable_dumps d !! lib_name =
        last_dump_path "_vtable.dump" lib_name (iterate_files w dump_dir).
Proof.
  destruct (for_each_register_dump (iterate_files w dump_dir) (mkDumps ∅ ∅ ∅) log)
    as (d & Hrun & Hsym & Hvt).
  exists d. split; [exact Hrun|]. intros lib_name.
  rewrite Hsym, Hvt. cbn. rewrite !lookup_empty.
  split; by destruct (last_dump_path _ _ _).
Qed.

(** X2.  After the loop over the dump directory, [lib_paths] maps a library
    name to [None] when a file <name>_symbol.dump or <name>_vtable.dump was
    listed, and has no entry for the name otherwise. *)
Theorem lib_paths_hold_dumped_names w dump_dir log d log' lib_name :
  for_each (iterate_files w dump_dir) register_dump (mkDumps ∅ ∅ ∅) log
    = (Ok d, log') ->
  ((∃ root_dir,
      (root_dir, (lib_name ++ "_symbol.dump")%string) ∈ iterate_files w dump_dir ∨
      (root_dir, (lib_name ++ "_vtable.dump")%string) ∈ iterate_files w dump_dir) ->
   lib_paths d !! lib_name = Some None) ∧
  ((∀ root_dir,
      ((root_dir, (lib_name ++ "_symbol.dump")%string) ∉ iterate_files w dump_dir) ∧
      ((root_dir, (lib_name ++ "_vtable.dump")%string) ∉ iterate_files w dump_dir)) ->
   lib_paths d !! lib_name = None).
Proof.
  intros Hloop.
  destruct (for_each_register_dump (iterate_files w dump_dir) (mkDumps ∅ ∅ ∅) log)
    as (d' & Hrun & Hsym & Hvt).
  rewrite Hloop in Hrun. injection Hrun as <- _.
  assert (paths_match_dumps d) as Hd.
  { eapply (for_each_invariant paths_match_dumps); [| |exact Hloop].
    - intros. eapply register_dump_paths; eauto.
    - intros name. unfold registered. cbn. rewrite !lookup_empty.
      case_decide as H; [|done]. destruct H as [[? ?]|[? ?]]; done. }
  assert (Hreg : registered d lib_name <->
            ∃ root_dir,
              (root_dir, (lib_name ++ "_symbol.dump")%string)
                ∈ iterate_files w dump_dir ∨
              (root_dir, (lib_name ++ "_vtable.dump")%string)
                ∈ iterate_files w dump_dir).
  { unfold registered. rewrite Hsym, Hvt. cbn. rewrite !lookup_empty.
    assert (∀ o : option string,
              is_Some (match o with Some p => Some p | None => None end)
              <-> is_Some o) as Ho by (by intros [?|]).
    rewrite !Ho, !last_dump_path_is_Some. split.
    - intros [[r ?]|[r ?]]; exists r; auto.
    - intros [r [?|?]]; [left|right]; eauto. }
  rewrite (Hd lib_name). split.
  - intros H. apply Hreg in H. by case_decide.
  - intros H. case_decide as Hr; [|done]. apply Hreg in Hr as [r [Hr|Hr]].
    + by destruct (H r) as [? _].
    + by destruct (H r) as [_ ?].
Qed.

Lemma lib_paths_hold_dumped_names_witness :
  lib_paths dumps32 !! "libbar.so" = Some None ∧
  lib_paths dumps32 !! "README" = None.
Proof.
  split.
  - apply (proj1 (lib_paths_hold_dumped_names w32 golden_dir [] dumps32
                    [unknown_dump_record] "libbar.so"
                    ltac:(vm_compute; reflexivity))).
    exists golden_dir. left. apply (bool_decide_unpack _). vm_compute. exact I.
  - apply (proj2 (lib_paths_hold_dumped_names w32 golden_dir [] dumps32
                    [unknown_dump_record] "README"
                    ltac:(vm_compute; reflexivity))).
    intros root_dir.
    assert (Forall (fun item : string * string =>
                      item.2 ≠ "README_symbol.dump" ∧
                      item.2 ≠ "README_vtable.dump")
                   (iterate_files w32 golden_dir)) as Hall
      by (apply (bool_decide_unpack _); vm_compute; exact I).
    rewrite Forall_forall in Hall.
    split; intros Hin; apply Hall in Hin; cbn in Hin; tauto.
Defined.

(** ** The search for the libraries *)

(** The search only fills values in: it adds no name and removes none. *)
Lemma bind_lib_path_dom paths item lib_name :
  is_Some (bind_lib_path paths item !! lib_name) <-> is_Some (paths !! lib_name).
Proof.
  destruct item as [root_dir file_name]. unfold bind_lib_path.
  destruct (paths !! file_name) as [bound|] eqn:E; [|done].
  destruct (negb (Py.truthy bound)); [|done].
  rewrite lookup_insert_is_Some. split.
  - intros [<-|[_ ?]]; [by rewrite E|done].
  - intros H. destruct (decide (file_name = lib_name)); auto.
Qed.

Lemma resolve_lib_paths_dom w paths lib_dirs :
  dom (resolve_lib_paths w paths lib_dirs) = dom paths.
Proof.
  rewrite resolve_lib_paths_fold.
  generalize (files_in_order w lib_dirs). intros files. revert paths.
  induction files as [|item files IH]; intros paths; [done|].
  cbn [fold_left]. rewrite IH. apply set_eq. intros lib_name.
  rewrite !elem_of_dom. apply bind_lib_path_dom.
Qed.

(** X3.  The search through the library directories adds no name to
    [lib_paths] and removes none: a file found there whose name has no dump
    is not among the libraries the scan goes through. *)
Theorem library_without_dump_is_never_scanned w paths lib_dirs lib_name :
  (is_Some (resolve_lib_paths w paths lib_dirs !! lib_name)
   <-> is_Some (paths !! lib_name)) ∧
  (paths !! lib_name = None ->
   ∀ bound,
     (lib_name, bound) ∉ map_to_list (resolve_lib_paths w paths lib_dirs)).
Proof.
  assert (Hdom : is_Some (resolve_lib_paths w paths lib_dirs !! lib_name)
                 <-> is_Some (paths !! lib_name)).
  { by rewrite <- !elem_of_dom, resolve_lib_paths_dom. }
  split; [exact Hdom|].
  intros Hnone bound Hin. apply elem_of_map_to_list in Hin.
  assert (is_Some (paths !! lib_name)) as [? ?] by (apply Hdom; eauto).
  congruence.
Qed.

(** X4.  Once a library is bound to a path, searching further directories
    leaves the binding as it is. *)
Theorem bound_library_stays_bound w paths lib_dirs more_dirs lib_name lib_path :
  resolve_lib_paths w paths lib_dirs !! lib_name = Some (Some lib_path) ->
  lib_path ≠ "" ->
  resolve_lib_paths w paths (lib_dirs ++ more_dirs) !! lib_name
    = Some (Some lib_path).
Proof.
  intros Hbound Hne. rewrite resolve_lib_paths_fold in *.
  unfold files_in_order in *. rewrite flat_map_app, fold_left_app.
  by apply fold_bind_lib_path_bound.
Qed.

Lemma bound_library_stays_bound_witness :
  resolve_lib_paths w32 (lib_paths dumps32)
    ([_vendor_lib w32] ++ [_system_lib w32]) !! "libfoo.so"
  = Some (Some "/tmp/abi/vendor_lib/hw/libfoo.so").
Proof.
  apply (bound_library_stays_bound w32 (lib_paths dumps32) [_vendor_lib w32]
           [_system_lib w32] "libfoo.so" "/tmp/abi/vendor_lib/hw/libfoo.so").
  - vm_compute. reflexivity.
  - discriminate.
Defined.

(** X5.  If no file of the dump directory carries a dump suffix (the directory
    may be empty), [_ScanLibDirs] returns 0 whatever the library directories
    hold, having logged only the warnings about the unknown files. *)
Theorem no_dump_no_library w dump_dir lib_dirs log :
  Forall (fun item => unknown_dump item = true) (iterate_files w dump_dir) ->
  _ScanLibDirs w dump_dir lib_dirs log =
    (Ok 0, log ++ map unknown_dump_warning (iterate_files w dump_dir)).
Proof.
  intros Hall. unfold _ScanLibDirs.
  destruct (for_each_register_dump (iterate_files w dump_dir) (mkDumps ∅ ∅ ∅) log)
    as (d & Hrun & Hsym & Hvt).
  erewrite run_bind by exact Hrun.
  assert (Hpaths : paths_match_dumps d).
  { eapply (for_each_invariant paths_match_dumps); [| |exact Hrun].
    - intros. eapply register_dump_paths; eauto.
    - intros name. unfold registered. cbn. rewrite !lookup_empty.
      case_decide as H; [|done]. destruct H as [[? ?]|[? ?]]; done. }
  assert (Hnone : ∀ suffix lib_name,
            suffix = "_symbol.dump" ∨ suffix = "_vtable.dump" ->
            last_dump_path suffix lib_name (iterate_files w dump_dir) = None).
  { intros suffix lib_name Hsuf.
    destruct (last_dump_path _ _ _) eqn:E; [|done]. exfalso.
    assert (is_Some (last_dump_path suffix lib_name (iterate_files w dump_dir)))
      as [r Hin]%last_dump_path_is_Some by eauto.
    rewrite Forall_forall in Hall. apply Hall in Hin.
    unfold unknown_dump in Hin. cbn [snd] in Hin.
    apply andb_true_iff in Hin as [H1 H2]. apply negb_true_iff in H1, H2.
    destruct Hsuf as [->| ->].
    - assert (Py.endswith (lib_name ++ "_symbol.dump") "_symbol.dump" = true)
        by (apply endswith_app; eauto). congruence.
    - assert (Py.endswith (lib_name ++ "_vtable.dump") "_vtable.dump" = true)
        by (apply endswith_app; eauto). congruence. }
  assert (lib_paths d = ∅) as Hempty.
  { apply map_eq. intros name. rewrite (Hpaths name), lookup_empty.
    case_decide as Hr; [|done]. exfalso. unfold registered in Hr.
    rewrite Hsym, Hvt, !Hnone in Hr by auto. cbn in Hr.
    rewrite !lookup_empty in Hr. destruct Hr as [[? ?]|[? ?]]; done. }
  rewrite Hempty.
  assert (resolve_lib_paths w ∅ lib_dirs = ∅) as ->.
  { apply map_eq. intros name. rewrite lookup_empty.
    destruct (resolve_lib_paths w ∅ lib_dirs !! name) eqn:E; [|done].
    assert (is_Some ((∅ : gmap string (option string)) !! name)) as [? Hx].
    { rewrite <- elem_of_dom, <- (resolve_lib_paths_dom w ∅ lib_dirs),
        elem_of_dom. eauto. }
    by rewrite lookup_empty in Hx. }
  rewrite map_to_list_empty. cbn [for_each]. unfold ret.
  f_equal. f_equal. unfold unknown_dump_warnings.
  f_equal. clear -Hall. induction Hall as [|x l Hx _ IH]; [done|].
  rewrite filter_cons. rewrite decide_True by done. by rewrite IH.
Qed.

Lemma no_dump_no_library_witness :
  _ScanLibDirs w32 "/tmp/abi/vendor_lib" [_system_lib w32] [] =
    (Ok 0, [mkLog WARNING "Unknown dump: /tmp/abi/vendor_lib/hw/libfoo.so" []
              None]).
Proof.
  apply (no_dump_no_library w32 "/tmp/abi/vendor_lib" [_system_lib w32] []).
  apply (bool_decide_unpack _). vm_compute. exact I.
Defined.

(** ** The count of the scan *)

Lemma scan_lib_step w d error_count item log count log' :
  scan_lib w d error_count item log = (Ok count, log') ->
  (count = error_count ∨ (count = S error_count ∧ Py.truthy item.2 = true)).
Proof.
  destruct item as [lib_name bound]. cbn [snd].
  destruct (Py.truthy bound) eqn:Hb.
  - destruct bound as [lib_path|]; [|done]. apply truthy_Some in Hb.
    rewrite (scan_lib_resolved _ _ _ _ _ _ Hb). intros H.
    apply bind_Ok_inv in H as ([m f1] & l1 & _ & H).
    apply bind_Ok_inv in H as ([v f2] & l2 & _ & H).
    destruct (report_lib_run (relpath w lib_path (_temp_dir w)) f2 m v
                error_count l2) as (l3 & Hrun & _).
    rewrite Hrun in H. injection H as <- _.
    destruct (f2 || nonempty m || nonempty v); auto.
  - rewrite scan_lib_not_found by done. intros [= <- _]. by left.
Qed.

Lemma scan_loop_bounds w d items : ∀ error_count log count log',
  for_each items (scan_lib w d) error_count log = (Ok count, log') ->
  error_count <= count <= error_count + length (found_on_target items).
Proof.
  induction items as [|item items IH]; intros error_count log count log'.
  - cbn. intros [= <- _]. lia.
  - cbn [for_each]. intros H.
    apply bind_Ok_inv in H as (c1 & l1 & Hstep & H).
    apply IH in H. apply scan_lib_step in Hstep.
    unfold found_on_target in *. rewrite filter_cons.
    destruct Hstep as [->|[-> Ht]].
    + case_decide; cbn [length]; lia.
    + rewrite decide_True by done. cbn [length]. lia.
Qed.

(** X6.  The count [_ScanLibDirs] returns is at most the number of libraries
    found on the target, which is at most the number of library names that
    have a dump: libraries not found never count. *)
Theorem error_count_bounded_by_found_libraries w dump_dir lib_dirs log count log' :
  _ScanLibDirs w dump_dir lib_dirs log = (Ok count, log') ->
  ∃ d log1,
    for_each (iterate_files w dump_dir) register_dump (mkDumps ∅ ∅ ∅) log
      = (Ok d, log1) ∧
    count <= length (found_on_target
                       (map_to_list (resolve_lib_paths w (lib_paths d) lib_dirs))) ∧
    length (found_on_target
              (map_to_list (resolve_lib_paths w (lib_paths d) lib_dirs)))
      <= size (lib_paths d).
Proof.
  unfold _ScanLibDirs. intros H.
  apply bind_Ok_inv in H as (d & log1 & Hd & H).
  exists d, log1. split; [exact Hd|]. split.
  - apply scan_loop_bounds in H. lia.
  - unfold found_on_target. etransitivity; [apply length_filter|].
    rewrite length_map_to_list.
    rewrite <- !size_dom, resolve_lib_paths_dom. done.
Qed.

Lemma error_count_bounded_by_found_libraries_witness :
  ∃ d log1,
    for_each (iterate_files w32 golden_dir) register_dump (mkDumps ∅ ∅ ∅) []
      = (Ok d, log1) ∧
    2 <= length (found_on_target
                   (map_to_list (resolve_lib_paths w32 (lib_paths d)
                                   [_vendor_lib w32; _system_lib w32]))) ∧
    length (found_on_target
              (map_to_list (resolve_lib_paths w32 (lib_paths d)
                              [_vendor_lib w32; _system_lib w32])))
      <= size (lib_paths d).
Proof.
  apply (error_count_bounded_by_found_libraries w32 golden_dir
           [_vendor_lib w32; _system_lib w32] [] 2
           (_ScanLibDirs w32 golden_dir [_vendor_lib w32; _system_lib w32] []).2).
  vm_compute. reflexivity.
Defined.

(** X7.  An exception of a class the handler does not name is not contained.
    If [_DiffSymbols] raises one for a found library, the loop over the
    libraries raises it at once and the remaining libraries are not
    examined; the same holds for [_DiffVtables] once the symbol comparison
    of that library has returned. *)
Theorem uncaught_exception_aborts_scan w d error_count lib_name lib_path rest
    log :
  lib_path ≠ "" ->
  (∀ dump_path e log1,
     symbol_dumps d !! lib_name = Some dump_path ->
     _DiffSymbols w dump_path lib_path log = (Raised e, log1) ->
     symbol_handler_catches e = false ->
     for_each ((lib_name, Some lib_path) :: rest) (scan_lib w d) error_count log
       = (Raised e, log1)) ∧
  (∀ missing f1 log1 dump_path e log2,
     compare_symbols w d lib_name lib_path (relpath w lib_path (_temp_dir w))
       false log = (Ok (missing, f1), log1) ->
     vtable_dumps d !! lib_name = Some dump_path ->
     _DiffVtables w dump_path lib_path log1 = (Raised e, log2) ->
     vtable_handler_catches e = false ->
     for_each ((lib_name, Some lib_path) :: rest) (scan_lib w d) error_count log
       = (Raised e, log2)).
Proof.
  intros Hp. split.
  - intros dump_path e log1 Hd Hrun Hc. cbn [for_each].
    apply run_bind_raised. rewrite (scan_lib_resolved _ _ _ _ _ _ Hp).
    apply run_bind_raised. unfold compare_symbols. rewrite Hd.
    unfold try_except. erewrite run_bind_raised by exact Hrun. by rewrite Hc.
  - intros missing f1 log1 dump_path e log2 Hs Hd Hrun Hc. cbn [for_each].
    apply run_bind_raised. rewrite (scan_lib_resolved _ _ _ _ _ _ Hp).
    erewrite run_bind by exact Hs. cbn beta iota.
    apply run_bind_raised. unfold compare_vtables. rewrite Hd.
    unfold try_except. erewrite run_bind_raised by exact Hrun. by rewrite Hc.
Qed.

Lemma uncaught_exception_aborts_scan_witness :
  for_each [("libfoo.so", Some "/tmp/abi/vendor_lib/hw/libfoo.so");
            ("libbaz.so", Some "/tmp/abi/system_lib/libbaz.so")]
    (scan_lib w32_broken dumps32) 0 [] =
    (Raised (OtherException "struct.error"), []).
Proof.
  apply (proj1 (uncaught_exception_aborts_scan w32_broken dumps32 0 "libfoo.so"
                  "/tmp/abi/vendor_lib/hw/libfoo.so"
                  [("libbaz.so", Some "/tmp/abi/system_lib/libbaz.so")] []
                  ltac:(discriminate))
           (golden_dir ++ "/libfoo.so_symbol.dump")%string).
  - vm_compute. reflexivity.
  - vm_compute. reflexivity.
  - reflexivity.
Defined.

(** X8.  A failed symbol comparison does not cancel the vtable comparison of
    the same library.  With an unreadable symbol dump and a readable,
    parsable vtable dump, the loop body logs the exception, then diffs the
    vtables, logs their difference if there is one, and counts the library
    as incompatible. *)
Theorem vtables_compared_after_symbol_failure w d error_count lib_name lib_path
    symbol_dump vtable_dump text dump_vtables lib_vtables log :
  lib_path ≠ "" ->
  symbol_dumps d !! lib_name = Some symbol_dump ->
  read_file w symbol_dump = None ->
  vtable_dumps d !! lib_name = Some vtable_dump ->
  read_file w vtable_dump = Some text ->
  ParseVtablesFromString w (vtable_parser_dir w) text = Ok dump_vtables ->
  ParseVtablesFromLibrary w (vtable_parser_dir w) lib_path = Ok lib_vtables ->
  scan_lib w d error_count (lib_name, Some lib_path) log =
    (Ok (S error_count),
     log ++
     [exception_record "%s: Cannot diff symbols"
        (relpath w lib_path (_temp_dir w)) IOError;
      mkLog DEBUG "%s: %s" [AStr lib_path; AVtables lib_vtables] None] ++
     match diff_vtables dump_vtables lib_vtables with
     | [] => []
     | vtable_diff =>
         [vtable_difference_record (relpath w lib_path (_temp_dir w)) vtable_diff]
     end).
Proof.
  intros Hp Hsd Hsr Hvd Hvr Hps Hpl.
  rewrite (scan_lib_resolved _ _ _ _ _ _ Hp). cbv zeta.
  assert (Hsym : compare_symbols w d lib_name lib_path
                   (relpath w lib_path (_temp_dir w)) false log =
                 (Ok ([], true),
                  log ++ [exception_record "%s: Cannot diff symbols"
                            (relpath w lib_path (_temp_dir w)) IOError])).
  { unfold compare_symbols. rewrite Hsd.
    unfold _DiffSymbols, open_read. rewrite Hsr. reflexivity. }
  erewrite run_bind by exact Hsym. cbn beta iota.
  assert (Hvt : compare_vtables w d lib_name lib_path
                  (relpath w lib_path (_temp_dir w)) true
                  (log ++ [exception_record "%s: Cannot diff symbols"
                             (relpath w lib_path (_temp_dir w)) IOError]) =
                (Ok (diff_vtables dump_vtables lib_vtables, true),
                 (log ++ [exception_record "%s: Cannot diff symbols"
                            (relpath w lib_path (_temp_dir w)) IOError])
                 ++ [mkLog DEBUG "%s: %s"
                       [AStr lib_path; AVtables lib_vtables] None])).
  { unfold compare_vtables. rewrite Hvd. unfold try_except.
    erewrite run_bind by (by eapply DiffVtables_run). reflexivity. }
  erewrite run_bind by exact Hvt. cbn beta iota.
  unfold report_lib. run_M. cbn [nonempty orb].
  destruct (diff_vtables dump_vtables lib_vtables) as [|x l]; cbn [nonempty];
    by rewrite <- ?app_assoc.
Qed.

Lemma vtables_compared_after_symbol_failure_witness :
  (scan_lib w32
     (mkDumps {[ "libfoo.so" := "unreadable" ]}
              {[ "libfoo.so" := (golden_dir ++ "/libfoo.so_vtable.dump")%string ]}
              ∅)
     0 ("libfoo.so", Some "/tmp/abi/vendor_lib/hw/libfoo.so") []).1 = Ok 1.
Proof.
  rewrite (vtables_compared_after_symbol_failure w32
     (mkDumps {[ "libfoo.so" := "unreadable" ]}
              {[ "libfoo.so" := (golden_dir ++ "/libfoo.so_vtable.dump")%string ]}
              ∅)
     0 "libfoo.so" "/tmp/abi/vendor_lib/hw/libfoo.so" "unreadable"
     (golden_dir ++ "/libfoo.so_vtable.dump") "vtables" golden0 actual0 []).
  - reflexivity.
  - discriminate.
  - vm_compute. reflexivity.
  - reflexivity.
  - vm_compute. reflexivity.
  - reflexivity.
  - reflexivity.
  - reflexivity.
Defined.

(** ** More on _DiffSymbols *)

Lemma readlines_go_forall p text : ∀ cur,
  string_forall p (String.rev cur) = true ->
  string_forall p text = true ->
  Forall (fun line => string_forall p line = true) (Py.readlines_go cur text).
Proof.
  assert (Hrev : ∀ c cur, string_forall p (String.rev (String c cur)) =
                          string_forall p (String.rev cur) && p c).
  { intros c cur. unfold String.rev.
    change (String.rev_app (String c cur) "") with
      (String.rev_app cur ("" ++ String c "")%string).
    rewrite <- (rev_app_app cur "" (String c "")), string_forall_app.
    cbn. by rewrite andb_true_r. }
  induction text as [|c text IH]; intros cur Hcur Htext.
  - cbn. destruct cur; repeat constructor. done.
  - cbn in Htext. apply andb_true_iff in Htext as [Hc Htext].
    cbn [Py.readlines_go]. destruct (Ascii.eqb c "010").
    + constructor; [by rewrite Hrev, Hcur, Hc|]. by apply IH.
    + apply IH; [|done]. by rewrite Hrev, Hcur, Hc.
Qed.

Lemma blank_dump_symbol_set text :
  string_forall Py.is_space text = true -> dump_symbol_set text = ∅.
Proof.
  intros Hblank. unfold dump_symbol_set.
  assert (Hall : Forall (fun line => string_forall Py.is_space line = true)
                        (Py.readlines text))
    by (by apply readlines_go_forall).
  assert (filter (fun line => Py.strip line ≠ "") (Py.readlines text) = []) as ->.
  { induction Hall as [|line lines Hline _ IH]; [done|].
    rewrite filter_cons. apply strip_blank in Hline.
    case_decide; [done|apply IH]. }
  done.
Qed.

(** X9.  A dump that holds nothing but white space (an empty file included)
    yields no missing symbol, whatever the library exports. *)
Theorem blank_dump_has_no_missing_symbol w dump_path lib_path text lib_symbols
    log :
  read_file w dump_path = Some text ->
  string_forall Py.is_space text = true ->
  ListGlobalDynamicSymbols w lib_path = Ok lib_symbols ->
  (_DiffSymbols w dump_path lib_path log).1 = Ok [].
Proof.
  intros Hr Hblank Hl. rewrite (DiffSymbols_run _ _ _ _ _ _ Hr Hl). cbn [fst].
  rewrite blank_dump_symbol_set by done.
  assert ((∅ : gset string) ∖ list_to_set lib_symbols = ∅) as ->
    by (apply set_eq; intros s; rewrite elem_of_difference; split; [by intros [? _]|by intros ?%elem_of_empty]).
  by rewrite elements_empty.
Qed.

Lemma blank_dump_has_no_missing_symbol_witness :
  (_DiffSymbols w32_builds "blank_symbol.dump" "libfoo.so" []).1 = Ok [].
Proof.
  apply (blank_dump_has_no_missing_symbol w32_builds "blank_symbol.dump"
           "libfoo.so" (" " ++ Py.nl ++ String "009" Py.nl)%string
           ["foo"; "baz"] []); reflexivity.
Defined.

Lemma str_lt_asym a b : str_lt a b -> str_lt b a -> False.
Proof.
  unfold str_lt. intros Hab Hba. rewrite String.compare_antisym, Hba in Hab.
  discriminate.
Qed.

Lemma str_lt_irrefl a : ¬ str_lt a a.
Proof. intros H. exact (str_lt_asym a a H H). Qed.

(** Of two strictly ascending lists, one that holds only elements of the
    other is a sublist of it. *)
Lemma sorted_incl_sublist l1 : ∀ l2,
  StronglySorted str_lt l1 -> StronglySorted str_lt l2 ->
  (∀ s, s ∈ l2 -> s ∈ l1) ->
  l2 `sublist_of` l1.
Proof.
  induction l1 as [|x l1 IH]; intros l2 S1 S2 Hincl.
  - destruct l2 as [|y l2]; [done|].
    specialize (Hincl y ltac:(left)). by apply elem_of_nil in Hincl.
  - apply StronglySorted_inv in S1 as [S1 Hx].
    destruct l2 as [|y l2]; [apply sublist_nil_l|].
    pose proof S2 as S2'. apply StronglySorted_inv in S2' as [S2t Hy].
    rewrite Forall_forall in Hx, Hy.
    destruct (decide (x = y)) as [->|Hne].
    + apply sublist_skip. apply IH; [done..|].
      intros s Hs. pose proof (Hincl s ltac:(by right)) as Hin.
      apply elem_of_cons in Hin as [->|Hin]; [|done].
      destruct (str_lt_irrefl y). by apply Hy.
    + apply sublist_cons. apply IH; [done..|].
      intros s Hs. pose proof (Hincl s Hs) as Hin.
      apply elem_of_cons in Hin as [->|Hin]; [|done].
      exfalso. apply elem_of_cons in Hs as [->|Hs]; [done|].
      pose proof (Hincl y ltac:(left)) as Hyx.
      apply elem_of_cons in Hyx as [->|Hyx]; [done|].
      exact (str_lt_asym x y (Hx _ Hyx) (Hy _ Hs)).
Qed.

(** X10.  Against one dump, a library that exports every symbol another one
    exports has no missing symbol the other one does not have: its list of
    missing symbols is a sublist of the other's. *)
Theorem more_exports_never_add_missing_symbols w dump_path lib1 lib2 text
    symbols1 symbols2 log1 log2 :
  read_file w dump_path = Some text ->
  ListGlobalDynamicSymbols w lib1 = Ok symbols1 ->
  ListGlobalDynamicSymbols w lib2 = Ok symbols2 ->
  (∀ s, s ∈ symbols1 -> s ∈ symbols2) ->
  ∃ missing1 missing2,
    (_DiffSymbols w dump_path lib1 log1).1 = Ok missing1 ∧
    (_DiffSymbols w dump_path lib2 log2).1 = Ok missing2 ∧
    missing2 `sublist_of` missing1.
Proof.
  intros Hr H1 H2 Hsub. eexists _, _.
  rewrite (DiffSymbols_run _ _ _ _ _ _ Hr H1), (DiffSymbols_run _ _ _ _ _ _ Hr H2).
  split; [done|]. split; [done|].
  apply sorted_incl_sublist; try apply sorted_strict, NoDup_elements.
  intros s. rewrite !elem_of_sorted, !elem_of_elements.
  rewrite !elem_of_difference, !elem_of_list_to_set.
  intros [Hd Hn]. split; [done|]. intros Hin. apply Hn. by apply Hsub.
Qed.

Lemma more_exports_never_add_missing_symbols_witness :
  ∃ missing1 missing2,
    (_DiffSymbols w32_builds (golden_dir ++ "/libfoo.so_symbol.dump")
       "old/libfoo.so" []).1 = Ok missing1 ∧
    (_DiffSymbols w32_builds (golden_dir ++ "/libfoo.so_symbol.dump")
       "new/libfoo.so" []).1 = Ok missing2 ∧
    missing2 `sublist_of` missing1.
Proof.
  apply (more_exports_never_add_missing_symbols w32_builds
           (golden_dir ++ "/libfoo.so_symbol.dump") "old/libfoo.so"
           "new/libfoo.so"
           ("foo" ++ Py.nl ++ "  bar " ++ Py.nl ++ Py.nl ++ "foo")%string
           ["baz"] ["foo"; "baz"] [] []); try reflexivity.
  intros s Hs. by right.
Defined.

(** ** More on _DiffVtables *)

Lemma elem_of_actual_offsets lib_vtables vtable sym off :
  off ∈ actual_offsets lib_vtables vtable sym <->
  ∃ lib_entries, lib_vtables !! vtable = Some lib_entries ∧
                 (off, sym) ∈ lib_entries.
Proof.
  destruct (lib_vtables !! vtable) as [entries|] eqn:E.
  - rewrite (actual_offsets_Some _ _ _ _ E), elem_of_offsets_in.
    split; [eauto|]. by intros (? & [= <-] & ?).
  - unfold actual_offsets. rewrite E.
    split; [by intros ?%elem_of_nil|]. by intros (? & ? & _).
Qed.

Lemma diff_vtables_nil_iff dump_vtables lib_vtables :
  diff_vtables dump_vtables lib_vtables = [] <->
  layout_kept dump_vtables lib_vtables.
Proof.
  split.
  - intros Hnil vtable entries off sym Hl Hin.
    apply elem_of_actual_offsets.
    destruct (decide (off ∈ actual_offsets lib_vtables vtable sym)) as [|Hno];
      [done|]. exfalso.
    assert (∃ actual, (vtable, sym, Py.str off, actual)
                        ∈ diff_vtables dump_vtables lib_vtables) as [a Ha].
    { destruct (actual_offsets lib_vtables vtable sym) as [|o offs] eqn:E.
      - exists "missing". apply elem_of_diff_vtables.
        exists entries, off. rewrite E. split; [done|]. split; [done|].
        split; [done|]. by left.
      - eexists. apply elem_of_diff_vtables.
        exists entries, off. rewrite E. split; [done|]. split; [done|].
        split; [done|]. right. split; [done|]. split; [done|]. reflexivity. }
    rewrite Hnil in Ha. by apply elem_of_nil in Ha.
  - intros Hkept.
    destruct (diff_vtables dump_vtables lib_vtables) as [|[[[vt sym] e] a] l] eqn:E;
      [done|]. exfalso.
    assert ((vt, sym, e, a) ∈ diff_vtables dump_vtables lib_vtables) as Hin
      by (rewrite E; left).
    apply elem_of_diff_vtables in Hin as (entries & off & Hl & Hin & _ & Hcase).
    pose proof (proj2 (elem_of_actual_offsets lib_vtables vt sym off)
                  (Hkept vt entries off sym Hl Hin)) as Hocc.
    clear Hin. rename Hocc into Hin.
    destruct Hcase as [[Hnil _]|(_ & Hno & _)]; [|done].
    rewrite Hnil in Hin. by apply elem_of_nil in Hin.
Qed.

(** X11.  [_DiffVtables] returns the empty list if and only if every expected
    (offset, symbol) pair of every golden vtable is an entry of the actual
    vtable of the same name. *)
Theorem no_vtable_diff_iff_layout_kept w dump_path lib_path text dump_vtables
    lib_vtables log :
  read_file w dump_path = Some text ->
  ParseVtablesFromString w (vtable_parser_dir w) text = Ok dump_vtables ->
  ParseVtablesFromLibrary w (vtable_parser_dir w) lib_path = Ok lib_vtables ->
  ∃ diff log',
    _DiffVtables w dump_path lib_path log = (Ok diff, log') ∧
    (diff = [] <-> layout_kept dump_vtables lib_vtables).
Proof.
  intros Hr Hd Hl. eexists _, _. split; [by eapply DiffVtables_run|].
  apply diff_vtables_nil_iff.
Qed.

Lemma no_vtable_diff_iff_layout_kept_witness :
  ∃ diff log',
    _DiffVtables w32 (golden_dir ++ "/libfoo.so_vtable.dump") "libfoo.so" []
      = (Ok diff, log') ∧
    (diff = [] <-> layout_kept golden0 actual0).
Proof.
  apply (no_vtable_diff_iff_layout_kept w32
           (golden_dir ++ "/libfoo.so_vtable.dump") "libfoo.so" "vtables"
           golden0 actual0 []); reflexivity.
Defined.

(** X12.  A library whose vtable layout is the one the dump records has an
    empty vtable diff. *)
Theorem library_matches_its_own_dump w dump_path lib_path text vtables log :
  read_file w dump_path = Some text ->
  ParseVtablesFromString w (vtable_parser_dir w) text = Ok vtables ->
  ParseVtablesFromLibrary w (vtable_parser_dir w) lib_path = Ok vtables ->
  (_DiffVtables w dump_path lib_path log).1 = Ok [].
Proof.
  intros Hr Hd Hl. rewrite (DiffVtables_run _ _ _ _ _ _ _ Hr Hd Hl). cbn [fst].
  f_equal. apply diff_vtables_nil_iff. intros vtable entries off sym ? ?. eauto.
Qed.

Lemma library_matches_its_own_dump_witness :
  (_DiffVtables w32_builds (golden_dir ++ "/libfoo.so_vtable.dump")
     "libfoo.so" []).1 = Ok [].
Proof.
  apply (library_matches_its_own_dump w32_builds
           (golden_dir ++ "/libfoo.so_vtable.dump") "libfoo.so" "vtables"
           golden0 []); reflexivity.
Defined.

Lemma spec_mismatch_absent lib_vtables vtable entry :
  lib_vtables !! vtable = None ->
  spec_mismatch lib_vtables vtable entry = [missing_record vtable entry].
Proof.
  intros Hnone. destruct entry as [off sym].
  unfold spec_mismatch, actual_offsets. by rewrite Hnone.
Qed.

(** X13.  For a golden vtable the library does not have at all, the loop body
    of [_DiffVtables] appends one "missing" record per expected entry, in
    the order of the entries. *)
Theorem absent_vtable_is_all_missing lib_vtables diff vtable dump_symbols :
  lib_vtables !! vtable = None ->
  diff_vtable lib_vtables diff (vtable, dump_symbols) =
    diff ++ map (missing_record vtable) dump_symbols.
Proof.
  intros Hnone.
  pose proof (fold_diff_vtable lib_vtables [(vtable, dump_symbols)] diff) as H.
  cbn [fold_left flat_map fst snd] in H. rewrite H, app_nil_r. f_equal.
  clear H. induction dump_symbols as [|e es IH]; [done|].
  cbn [flat_map map]. rewrite spec_mismatch_absent by done. by rewrite IH.
Qed.

Lemma absent_vtable_is_all_missing_witness :
  diff_vtable actual0 [] ("Vtable_Y", [(0, "y1"); (8, "y2")]%Z) =
    [("Vtable_Y", "y1", "0", "missing"); ("Vtable_Y", "y2", "8", "missing")].
Proof.
  apply (absent_vtable_is_all_missing actual0 [] "Vtable_Y"
           [(0, "y1"); (8, "y2")]%Z).
  vm_compute. reflexivity.
Defined.

Lemma spec_mismatch_length lib_vtables vtable entry :
  length (spec_mismatch lib_vtables vtable entry) <= 1.
Proof.
  destruct entry as [off sym]. unfold spec_mismatch.
  destruct (actual_offsets _ _ _); [cbn; lia|]. case_bool_decide; cbn; lia.
Qed.

(** X14.  The diff of [_DiffVtables] has at most one record per expected
    (offset, symbol) pair of the golden layout. *)
Theorem at_most_one_record_per_expected_pair dump_vtables lib_vtables :
  length (diff_vtables dump_vtables lib_vtables) <= expected_pairs dump_vtables.
Proof.
  rewrite diff_vtables_spec. unfold spec_DiffVtables, expected_pairs.
  induction (map_to_list dump_vtables) as [|[vt entries] items IH]; [done|].
  cbn [flat_map map sum_list fst snd]. rewrite length_app.
  assert (length (flat_map (spec_mismatch lib_vtables vt) entries)
          <= length entries).
  { clear. induction entries as [|e es IHe]; [done|].
    cbn [flat_map]. rewrite length_app.
    pose proof (spec_mismatch_length lib_vtables vt e). cbn [length]. lia. }
  cbn in *. lia.
Qed.

(** ** More on testAbiCompatibility *)

(** X15.  On a device whose ABI starts with none of "arm", "x86" and "mips",
    [testAbiCompatibility] fails with "Unknown ABI <abi>" before it logs
    anything or looks at any directory. *)
Theorem unknown_abi_fails_first w log :
  Py.startswith (cpu_abi w) "arm" = false ->
  Py.startswith (cpu_abi w) "x86" = false ->
  Py.startswith (cpu_abi w) "mips" = false ->
  testAbiCompatibility w log =
    (Raised (TestFailure ("Unknown ABI " ++ cpu_abi w)), log).
Proof.
  intros Harm Hx86 Hmips. unfold testAbiCompatibility.
  apply run_bind_raised. unfold abi_families. by rewrite Harm, Hx86, Hmips.
Qed.

Lemma unknown_abi_fails_first_witness :
  testAbiCompatibility w_riscv [] =
    (Raised (TestFailure "Unknown ABI riscv64"), []).
Proof.
  apply (unknown_abi_fails_first w_riscv []); reflexivity.
Defined.

Lemma assertEqual_verdict error_count m log :
  m = ("Total number of errors: " ++ Py.str (Z.of_nat error_count))%string ->
  asserts.assertEqual error_count 0 m log = (verdict error_count, log).
Proof. intros ->. by destruct error_count. Qed.

(** X16.  Once the 32-bit scan has returned its count: on a 32-bit device the
    test passes if that count is 0 and otherwise fails with
    "Total number of errors: <count>"; on a 64-bit device with the 64-bit
    dump directory present, the same holds of the sum of the two counts, and
    an exception escaping the 64-bit scan fails the test as it is. *)
Theorem test_verdict_is_the_summed_count w abi_32 abi_64 log0 log n32 log1 :
  abi_families (cpu_abi w) log0 = (Ok (abi_32, abi_64), log0) ->
  isdir w (dump_dir w abi_32) = true ->
  _ScanLibDirs w (dump_dir w abi_32) [_vendor_lib w; _system_lib w]
    (log ++ [check_record "32"]) = (Ok n32, log1) ->
  (is64Bit w = false ->
   testAbiCompatibility w log = (verdict n32, log1)) ∧
  (is64Bit w = true ->
   isdir w (dump_dir w abi_64) = true ->
   ∀ r64 log2,
     _ScanLibDirs w (dump_dir w abi_64) [_vendor_lib64 w; _system_lib64 w]
       (log1 ++ [check_record "64"]) = (r64, log2) ->
     testAbiCompatibility w log =
       (match r64 with
        | Ok n64 => verdict (n32 + n64)
        | Raised e => Raised e
        end, log2)).
Proof.
  intros Habi H32 Hscan. apply abi_families_pure in Habi as [_ Habi].
  unfold testAbiCompatibility, dump_dir in *.
  split.
  - intros H64. erewrite run_bind by apply Habi. cbn beta iota.
    erewrite run_bind by reflexivity. rewrite H32.
    erewrite run_bind by reflexivity. erewrite run_bind by exact Hscan.
    rewrite H64. erewrite run_bind by reflexivity.
    by apply assertEqual_verdict.
  - intros H64 Hd64 r64 log2 Hscan64.
    erewrite run_bind by apply Habi. cbn beta iota.
    erewrite run_bind by reflexivity. rewrite H32.
    erewrite run_bind by reflexivity. erewrite run_bind by exact Hscan.
    rewrite H64, Hd64. destruct r64 as [n64|e].
    + erewrite run_bind.
      * by apply assertEqual_verdict.
      * erewrite run_bind by reflexivity. erewrite run_bind by reflexivity.
        erewrite run_bind by exact Hscan64. reflexivity.
    + apply run_bind_raised.
      erewrite run_bind by reflexivity. erewrite run_bind by reflexivity.
      by apply run_bind_raised.
Qed.

Lemma test_verdict_is_the_summed_count_witness :
  ∃ log1,
    testAbiCompatibility w32 [] =
      (Raised (TestFailure "Total number of errors: 2"), log1).
Proof.
  eexists.
  apply (proj1 (test_verdict_is_the_summed_count w32 "arm" "arm64" [] [] 2
                  (_ScanLibDirs w32 (dump_dir w32 "arm")
                     [_vendor_lib w32; _system_lib w32] [check_record "32"]).2
                  eq_refl eq_refl ltac:(vm_compute; reflexivity))).
  reflexivity.
Defined.

(** ** Set-up and tear-down *)

Ltac run_H :=
  unfold SetUp.hbind, SetUp.hret, SetUp.framework, SetUp.external,
    SetUp.hlogging.

Lemma hbind_inv {A B} (m : SetUp.H A) (k : A -> SetUp.H B) h r h' :
  SetUp.hbind m k h = (r, h') ->
  (∃ e, m h = (Raised e, h') ∧ r = Raised e) ∨
  (∃ a h1, m h = (Ok a, h1) ∧ k a h1 = (r, h')).
Proof.
  unfold SetUp.hbind. destruct (m h) as [[a|e] h1].
  - intros H. right. by exists a, h1.
  - intros [= <- <-]. left. by exists e.
Qed.

Lemma hbind_Ok_inv {A B} (m : SetUp.H A) (k : A -> SetUp.H B) h b h' :
  SetUp.hbind m k h = (Ok b, h') ->
  ∃ a h1, m h = (Ok a, h1) ∧ k a h1 = (Ok b, h').
Proof.
  intros [(e & _ & [=])|H]%hbind_inv. exact H.
Qed.

Lemma issued_refl P h : issued P h h.
Proof. exists []. by rewrite app_nil_r. Qed.

Lemma issued_trans P h1 h2 h3 : issued P h1 h2 -> issued P h2 h3 -> issued P h1 h3.
Proof.
  intros (n1 & H1 & F1) (n2 & H2 & F2). exists (n1 ++ n2).
  rewrite H2, H1, app_assoc. split; [done|]. by apply Forall_app.
Qed.

Lemma issued_weaken (P Q : HostOp -> Prop) h h' :
  (∀ op, P op -> Q op) -> issued P h h' -> issued Q h h'.
Proof.
  intros HPQ (new & H & F). exists new. split; [done|].
  eapply Forall_impl; eauto.
Qed.

Lemma issued_external {A} (P : HostOp -> Prop) op (r : result A) h r' h' :
  SetUp.external op r h = (r', h') -> P op -> issued P h h'.
Proof. intros [= _ <-] HP. exists [op]. split; [done|]. by constructor. Qed.

Lemma issued_hlogging P lv m a h r h' :
  SetUp.hlogging lv m a h = (r, h') -> issued P h h'.
Proof. intros [= _ <-]. exists []. cbn. by rewrite app_nil_r. Qed.

Lemma issued_hbind {A B} P (m : SetUp.H A) (k : A -> SetUp.H B) h r h' :
  (∀ r1 h1, m h = (r1, h1) -> issued P h h1) ->
  (∀ a h1, m h = (Ok a, h1) -> k a h1 = (r, h') -> issued P h1 h') ->
  SetUp.hbind m k h = (r, h') ->
  issued P h h'.
Proof.
  intros Hm Hk [(e & He & _)|(a & h1 & Ha & Hr)]%hbind_inv.
  - by eapply Hm.
  - eapply issued_trans; [by eapply Hm|by eapply Hk].
Qed.

Lemma PullOrCreateDir_returns b target_dir host_dir h u h' :
  SetUp._PullOrCreateDir b target_dir host_dir h = (Ok u, h') ->
  SetUp.host_ops h' = SetUp.host_ops h ++ provision_ops b target_dir host_dir.
Proof.
  unfold SetUp._PullOrCreateDir, provision_ops. run_H. cbn.
  destruct (adb_shell_exit_code b _) as [[|p|p]|e]; cbn [negb Z.eqb];
    try done.
  - destruct (adb_pull b target_dir host_dir); [|done].
    intros [= _ <-]. cbn. by rewrite <- app_assoc.
  - destruct (os_mkdir b host_dir 488); [|done].
    intros [= _ <-]. cbn. by rewrite <- app_assoc.
  - destruct (os_mkdir b host_dir 488); [|done].
    intros [= _ <-]. cbn. by rewrite <- app_assoc.
Qed.

Lemma PullOrCreateDir_issues b target_dir host_dir h r h' :
  SetUp._PullOrCreateDir b target_dir host_dir h = (r, h') ->
  issued (fun op => op ∈ [OpShell ("test -d " ++ target_dir);
                          OpMkdir host_dir 488; OpPull target_dir host_dir])
         h h'.
Proof.
  unfold SetUp._PullOrCreateDir. run_H. cbn.
  destruct (adb_shell_exit_code b _) as [[|p|p]|e]; cbn [negb Z.eqb].
  - destruct (adb_pull b target_dir host_dir); intros [= _ <-]; cbn;
      exists [OpShell ("test -d " ++ target_dir); OpPull target_dir host_dir];
      (split; [cbn [SetUp.host_ops]; rewrite <- ?app_assoc; reflexivity|]);
      repeat constructor.
  - intros [= _ <-]; cbn.
    exists [OpShell ("test -d " ++ target_dir); OpMkdir host_dir 488].
    split; [cbn [SetUp.host_ops]; rewrite <- ?app_assoc; reflexivity|].
    repeat constructor.
  - intros [= _ <-]; cbn.
    exists [OpShell ("test -d " ++ target_dir); OpMkdir host_dir 488].
    split; [cbn [SetUp.host_ops]; rewrite <- ?app_assoc; reflexivity|].
    repeat constructor.
  - intros [= _ <-]; cbn. exists [OpShell ("test -d " ++ target_dir)].
    split; [done|].
    repeat constructor.
Qed.

Example setUpClass_bench32 :
  (SetUp.setUpClass bench32 host0).1 = Ok (mkAttributes "/data" "/tmp/abi" "26") ∧
  SetUp.host_ops (SetUp.setUpClass bench32 host0).2 =
    [OpMkdtemp;
     OpShell "test -d /vendor/lib"; OpPull "/vendor/lib" "/tmp/abi/vendor_lib";
     OpShell "test -d /system/lib"; OpMkdir "/tmp/abi/system_lib" 488;
     OpShell "getprop ro.build.version.sdk"].
Proof. split; vm_compute; reflexivity. Qed.

(** X17.  When [setUpClass] returns, the temporary directory is the one
    [mkdtemp] gave and the SDK version is the output of getprop without
    trailing white space.  The calls it issued are, in order: mkdtemp; for
    /vendor/lib, then /system/lib, and on a 64-bit device /vendor/lib64 and
    /system/lib64, the test "test -d" followed by a pull when the directory
    exists on the device and by a mkdir with mode 0750 otherwise; getprop.
    Hence every host directory [testAbiCompatibility] scans on that device
    was pulled or created. *)
Theorem setUpClass_provisions_scanned_dirs b h self h' :
  SetUp.setUpClass b h = (Ok self, h') ->
  mkdtemp b = Ok (attr_temp_dir self) ∧
  (∃ output, adb_shell b "getprop ro.build.version.sdk" = Ok output ∧
             attr_sdk_version self = Py.rstrip output) ∧
  Py.rstrip (attr_sdk_version self) = attr_sdk_version self ∧
  SetUp.host_ops h' =
    SetUp.host_ops h ++ [OpMkdtemp]
    ++ provision_ops b "/vendor/lib"
         (Py.path_join (attr_temp_dir self) ["vendor_lib"])
    ++ provision_ops b "/system/lib"
         (Py.path_join (attr_temp_dir self) ["system_lib"])
    ++ (if dut_is64Bit b
        then provision_ops b "/vendor/lib64"
               (Py.path_join (attr_temp_dir self) ["vendor_lib64"])
             ++ provision_ops b "/system/lib64"
                  (Py.path_join (attr_temp_dir self) ["system_lib64"])
        else [])
    ++ [OpShell "getprop ro.build.version.sdk"] ∧
  ∀ dir, dir ∈ scanned_dirs (attr_temp_dir self) (dut_is64Bit b) ->
         OpMkdir dir 488 ∈ SetUp.host_ops h' ∨
         ∃ target_dir, OpPull target_dir dir ∈ SetUp.host_ops h'.
Proof.
  intros H. unfold SetUp.setUpClass in H.
  apply hbind_Ok_inv in H as (data & h1 & Hdata & H).
  apply hbind_Ok_inv in H as ([] & h2 & Hctl & H).
  apply hbind_Ok_inv in H as (temp & h3 & Htemp & H).
  apply hbind_Ok_inv in H as ([] & h4 & Hlog & H).
  apply hbind_Ok_inv in H as ([] & h5 & Hv & H).
  apply hbind_Ok_inv in H as ([] & h6 & Hs & H).
  apply hbind_Ok_inv in H as ([] & h7 & H64 & H).
  apply hbind_Ok_inv in H as ([] & h8 & Hlog2 & H).
  apply hbind_Ok_inv in H as (output & h9 & Hout & H).
  apply hbind_Ok_inv in H as ([] & h10 & Hlog3 & H).
  injection H as <- <-. cbn [attr_temp_dir attr_sdk_version].
  injection Hdata as _ <-. injection Hctl as _ <-.
  injection Htemp as Htemp <-. injection Hlog as <-.
  apply PullOrCreateDir_returns in Hv. apply PullOrCreateDir_returns in Hs.
  injection Hlog2 as <-. injection Hout as Hout <-. injection Hlog3 as <-.
  cbn [SetUp.host_ops] in *.
  assert (Hops64 : SetUp.host_ops h7 = SetUp.host_ops h6 ++
            (if dut_is64Bit b
             then provision_ops b "/vendor/lib64"
                    (Py.path_join temp ["vendor_lib64"])
                  ++ provision_ops b "/system/lib64"
                       (Py.path_join temp ["system_lib64"])
             else [])).
  { destruct (dut_is64Bit b).
    - apply hbind_Ok_inv in H64 as ([] & h6' & Hv64 & Hs64).
      apply PullOrCreateDir_returns in Hv64, Hs64.
      by rewrite Hs64, Hv64, <- app_assoc.
    - injection H64 as <-. by rewrite app_nil_r. }
  assert (Hall : SetUp.host_ops h7 ++ [OpShell "getprop ro.build.version.sdk"] =
    SetUp.host_ops h ++ [OpMkdtemp]
    ++ provision_ops b "/vendor/lib" (Py.path_join temp ["vendor_lib"])
    ++ provision_ops b "/system/lib" (Py.path_join temp ["system_lib"])
    ++ (if dut_is64Bit b
        then provision_ops b "/vendor/lib64" (Py.path_join temp ["vendor_lib64"])
             ++ provision_ops b "/system/lib64"
                  (Py.path_join temp ["system_lib64"])
        else [])
    ++ [OpShell "getprop ro.build.version.sdk"]).
  { rewrite Hops64, Hs, Hv. by rewrite <- !app_assoc. }
  split; [done|]. split; [by exists output|]. split; [apply rstrip_idemp|].
  split; [exact Hall|].
  rewrite Hall. clear.
  assert (Hprov : ∀ target dir,
            OpMkdir dir 488 ∈ provision_ops b target dir ∨
            OpPull target dir ∈ provision_ops b target dir).
  { intros target dir. unfold provision_ops.
    destruct (adb_shell_exit_code b _) as [[|p|p]|e];
      [right|left|left|left]; right; left. }
  intros dir Hin. unfold scanned_dirs in Hin.
  rewrite !elem_of_app, !elem_of_cons in Hin.
  destruct Hin as [[->|[->|[]%elem_of_nil]]|Hin].
  - destruct (Hprov "/vendor/lib" (Py.path_join temp ["vendor_lib"])) as [Hp|Hp];
      [left|right; eexists]; rewrite !elem_of_app; eauto.
  - destruct (Hprov "/system/lib" (Py.path_join temp ["system_lib"])) as [Hp|Hp];
      [left|right; eexists]; rewrite !elem_of_app; eauto.
  - destruct (dut_is64Bit b); [|by apply elem_of_nil in Hin].
    rewrite !elem_of_cons in Hin. destruct Hin as [->|[->|[]%elem_of_nil]].
    + destruct (Hprov "/vendor/lib64" (Py.path_join temp ["vendor_lib64"]))
        as [Hp|Hp]; [left|right; eexists]; rewrite !elem_of_app; eauto 10.
    + destruct (Hprov "/system/lib64" (Py.path_join temp ["system_lib64"]))
        as [Hp|Hp]; [left|right; eexists]; rewrite !elem_of_app; eauto 10.
Qed.

Lemma setUpClass_provisions_scanned_dirs_witness :
  (SetUp.setUpClass bench32 host0).1 = Ok (mkAttributes "/data" "/tmp/abi" "26") ∧
  (OpMkdir "/tmp/abi/system_lib" 488
     ∈ SetUp.host_ops (SetUp.setUpClass bench32 host0).2 ∨
   ∃ target_dir,
     OpPull target_dir "/tmp/abi/system_lib"
       ∈ SetUp.host_ops (SetUp.setUpClass bench32 host0).2).
Proof.
  split; [vm_compute; reflexivity|].
  refine (proj2 (proj2 (proj2 (proj2
    (setUpClass_provisions_scanned_dirs bench32 host0
       (mkAttributes "/data" "/tmp/abi" "26")
       (SetUp.setUpClass bench32 host0).2 _)))) "/tmp/abi/system_lib" _).
  - vm_compute. reflexivity.
  - right. left.
Defined.

(** X18.  On a 32-bit device [setUpClass], whether it returns or raises, issues
    no shell command, pull or mkdir on a path ending in "lib64". *)
Theorem setUpClass_32bit_leaves_lib64_alone b h r h' :
  dut_is64Bit b = false ->
  SetUp.setUpClass b h = (r, h') ->
  issued (fun op => touches_lib64 op = false) h h'.
Proof.
  intros H32. unfold SetUp.setUpClass. rewrite H32.
  assert (Hprov : ∀ target host h1 r1 h2,
            Py.endswith target "lib64" = false ->
            Py.endswith host "lib64" = false ->
            Py.endswith ("test -d " ++ target) "lib64" = false ->
            SetUp._PullOrCreateDir b target host h1 = (r1, h2) ->
            issued (fun op => touches_lib64 op = false) h1 h2).
  { intros target host h1 r1 h2 Ht Hh Hc Hrun.
    eapply issued_weaken; [|by eapply PullOrCreateDir_issues].
    intros op Hop. rewrite !elem_of_cons in Hop.
    destruct Hop as [->|[->|[->|[]%elem_of_nil]]]; cbn; by rewrite ?Ht, ?Hh. }
  intros H.
  eapply issued_hbind; [| |exact H];
    [intros ? ? [= _ <-]; apply issued_refl|intros data h1 _; clear H; intros H].
  eapply issued_hbind; [| |exact H];
    [intros ? ? [= _ <-]; apply issued_refl|intros [] h2 _; clear H; intros H].
  eapply issued_hbind; [| |exact H];
    [intros ? ? Hx; by eapply issued_external
    |intros temp h3 _; clear H; intros H].
  destruct (lib_dir_not_lib64 temp) as [Hvendor Hsystem].
  eapply issued_hbind; [| |exact H];
    [intros ? ? Hx; by eapply issued_hlogging
    |intros [] h4 _; clear H; intros H].
  eapply issued_hbind; [| |exact H];
    [intros ? ? Hx; eapply Hprov in Hx; [exact Hx|done..]
    |intros [] h5 _; clear H; intros H].
  eapply issued_hbind; [| |exact H];
    [intros ? ? Hx; eapply Hprov in Hx; [exact Hx|done..]
    |intros [] h6 _; clear H; intros H].
  eapply issued_hbind; [| |exact H];
    [intros ? ? [= _ <-]; apply issued_refl|intros [] h7 _; clear H; intros H].
  eapply issued_hbind; [| |exact H];
    [intros ? ? Hx; by eapply issued_hlogging
    |intros [] h8 _; clear H; intros H].
  eapply issued_hbind; [| |exact H];
    [intros ? ? Hx; by eapply issued_external
    |intros output h9 _; clear H; intros H].
  eapply issued_hbind; [| |exact H];
    [intros ? ? Hx; by eapply issued_hlogging
    |intros [] h10 _; clear H; intros H].
  injection H as _ <-. apply issued_refl.
Qed.

Lemma setUpClass_32bit_leaves_lib64_alone_witness :
  issued (fun op => touches_lib64 op = false) host0
         (SetUp.setUpClass bench32 host0).2.
Proof.
  apply (setUpClass_32bit_leaves_lib64_alone bench32 host0
           (SetUp.setUpClass bench32 host0).1); [reflexivity|].
  by destruct (SetUp.setUpClass bench32 host0).
Defined.

(** X19.  [tearDownClass] after [setUpClass] issues exactly one call, the
    removal of the temporary directory [mkdtemp] gave, and returns or raises
    as that call does; every host library directory of the set-up lies
    below that directory. *)
Theorem tearDownClass_removes_what_was_set_up b h self h1 r h2 :
  SetUp.setUpClass b h = (Ok self, h1) ->
  SetUp.tearDownClass b self h1 = (r, h2) ->
  mkdtemp b = Ok (attr_temp_dir self) ∧
  SetUp.host_ops h2 = SetUp.host_ops h1 ++ [OpRmtree (attr_temp_dir self)] ∧
  r = shutil_rmtree b (attr_temp_dir self) ∧
  ∀ dir, dir ∈ scanned_dirs (attr_temp_dir self) true ->
         Py.startswith dir (attr_temp_dir self) = true.
Proof.
  intros Hup Hdown. split; [|split; [|split]].
  - unfold SetUp.setUpClass in Hup.
    apply hbind_Ok_inv in Hup as (data & ? & _ & H).
    apply hbind_Ok_inv in H as ([] & ? & _ & H).
    apply hbind_Ok_inv in H as (temp & ? & Htemp & H).
    injection Htemp as Htemp _.
    repeat (apply hbind_Ok_inv in H as (? & ? & _ & H)).
    by injection H as <- _.
  - by injection Hdown as _ <-.
  - by injection Hdown as <- _.
  - intros dir Hin. unfold scanned_dirs in Hin.
    rewrite !elem_of_app, !elem_of_cons in Hin.
    destruct Hin as [[->|[->|[]%elem_of_nil]]|[->|[->|[]%elem_of_nil]]];
      match goal with
      | |- Py.startswith (Py.path_join ?a [?n]) _ = true =>
          destruct (path_join_relative a n eq_refl) as [sep ->]
      end; apply startswith_app.
Qed.

Lemma tearDownClass_removes_what_was_set_up_witness :
  SetUp.host_ops
    (SetUp.tearDownClass bench32 (mkAttributes "/data" "/tmp/abi" "26")
       (SetUp.setUpClass bench32 host0).2).2 =
  SetUp.host_ops (SetUp.setUpClass bench32 host0).2 ++ [OpRmtree "/tmp/abi"].
Proof.
  refine (proj1 (proj2
    (tearDownClass_removes_what_was_set_up bench32 host0
       (mkAttributes "/data" "/tmp/abi" "26")
       (SetUp.setUpClass bench32 host0).2
       (SetUp.tearDownClass bench32 (mkAttributes "/data" "/tmp/abi" "26")
          (SetUp.setUpClass bench32 host0).2).1
       (SetUp.tearDownClass bench32 (mkAttributes "/data" "/tmp/abi" "26")
          (SetUp.setUpClass bench32 host0).2).2 _ _))).
  - vm_compute. reflexivity.
  - vm_compute. reflexivity.
Defined.

(** ** The order in which a dict is iterated

    The two loops over [iteritems()] visit their items in an order the
    model does not know.  Whatever that order is, [_DiffVtables] returns the
    same records, those of one vtable in the same order, and the loop of
    [_ScanLibDirs] returns the same count and logs the same records. *)

Lemma filter_all {A} (P : A -> Prop) `{∀ x, Decision (P x)} (l : list A) :
  Forall P l -> filter P l = l.
Proof.
  induction 1 as [|x l Hx Hl IH]; [done|].
  rewrite filter_cons. case_decide; [|done]. by rewrite IH.
Qed.

Lemma filter_none {A} (P : A -> Prop) `{∀ x, Decision (P x)} (l : list A) :
  Forall (fun x => ¬ P x) l -> filter P l = [].
Proof.
  induction 1 as [|x l Hx Hl IH]; [done|].
  rewrite filter_cons. by case_decide.
Qed.

Lemma spec_mismatch_vtable lib_vtables vtable entry :
  Forall (fun r : Mismatch => r.1.1.1 = vtable)
         (spec_mismatch lib_vtables vtable entry).
Proof.
  destruct entry as [off sym]. unfold spec_mismatch.
  repeat case_match; by repeat constructor.
Qed.

Lemma vtable_records_vtable lib_vtables vtable entries :
  Forall (fun r : Mismatch => r.1.1.1 = vtable)
         (flat_map (spec_mismatch lib_vtables vtable) entries).
Proof.
  induction entries as [|e entries IH]; [constructor|].
  cbn [flat_map]. apply Forall_app_2; [apply spec_mismatch_vtable|done].
Qed.

Lemma filter_vtable_records lib_vtables vtable
    (items : list (string * list (Z * string))) :
  NoDup items.*1 ->
  filter (fun r : Mismatch => r.1.1.1 = vtable)
    (flat_map (fun item : string * list (Z * string) =>
                 flat_map (spec_mismatch lib_vtables item.1) item.2) items) =
  flat_map (fun item : string * list (Z * string) =>
              if decide (item.1 = vtable)
              then flat_map (spec_mismatch lib_vtables item.1) item.2
              else []) items.
Proof.
  induction items as [|[vt es] items IH]; [done|].
  intros [Hvt Hnd]%NoDup_cons. cbn [flat_map fst snd].
  rewrite filter_app, IH by done. f_equal.
  case_decide as Heq.
  - apply filter_all. subst vt. apply vtable_records_vtable.
  - apply filter_none.
    eapply Forall_impl; [apply vtable_records_vtable|].
    intros r Hr. cbn beta in *. congruence.
Qed.

Lemma flat_map_one_vtable lib_vtables vtable entries
    (items : list (string * list (Z * string))) :
  NoDup items.*1 -> (vtable, entries) ∈ items ->
  flat_map (fun item : string * list (Z * string) =>
              if decide (item.1 = vtable)
              then flat_map (spec_mismatch lib_vtables item.1) item.2
              else []) items =
  flat_map (spec_mismatch lib_vtables vtable) entries.
Proof.
  induction items as [|[vt es] items IH]; intros Hnd Hin.
  - by apply elem_of_nil in Hin.
  - apply NoDup_cons in Hnd as [Hvt Hnd]. cbn [flat_map fst snd].
    apply elem_of_cons in Hin as [[= <- <-]|Hin].
    + rewrite decide_True by done.
      assert (flat_map (fun item : string * list (Z * string) =>
                 if decide (item.1 = vtable)
                 then flat_map (spec_mismatch lib_vtables item.1) item.2
                 else []) items = []) as ->; [|by rewrite app_nil_r].
      clear IH Hnd. induction items as [|[vt' es'] items IH']; [done|].
      cbn [flat_map fst snd]. rewrite decide_False.
      * apply IH'. intros H. apply Hvt. by right.
      * intros ->. apply Hvt. left.
    + rewrite decide_False; [by apply IH|].
      intros ->. apply Hvt. apply list_elem_of_fmap. by exists (vtable, entries).
Qed.

(** X20.  Let the loop of [_DiffVtables] visit the vtables of the dump in any
    order.  The diff it builds is a permutation of the one the model builds,
    and the records of each golden vtable are, in this order, those of its
    expected entries. *)
Theorem vtable_diff_any_order dump_vtables lib_vtables
    (items : list (string * list (Z * string))) :
  items ≡ₚ map_to_list dump_vtables ->
  fold_left (diff_vtable lib_vtables) items [] ≡ₚ
    diff_vtables dump_vtables lib_vtables ∧
  ∀ vtable entries,
    dump_vtables !! vtable = Some entries ->
    filter (fun r : Mismatch => r.1.1.1 = vtable)
           (fold_left (diff_vtable lib_vtables) items []) =
    flat_map (spec_mismatch lib_vtables vtable) entries.
Proof.
  intros Hperm. rewrite fold_diff_vtable. cbn [app]. split.
  - unfold diff_vtables. rewrite fold_diff_vtable. cbn [app].
    by apply Permutation_flat_map.
  - intros vtable entries Hl.
    assert (Hnd : NoDup items.*1).
    { rewrite Hperm. apply NoDup_fst_map_to_list. }
    rewrite filter_vtable_records by done.
    apply flat_map_one_vtable; [done|].
    rewrite Hperm. by apply elem_of_map_to_list.
Qed.

Lemma vtable_diff_any_order_witness :
  fold_left (diff_vtable actual_unordered) (rev (map_to_list golden24)) [] ≡ₚ
    diff_vtables golden24 actual_unordered ∧
  rev (map_to_list golden24) ≠ map_to_list golden24.
Proof.
  split.
  - apply (vtable_diff_any_order golden24 actual_unordered
             (rev (map_to_list golden24))).
    symmetry. apply Permutation_rev.
  - vm_compute. discriminate.
Defined.

(** What the loop body does to the count and to the log depends neither on
    the count nor on the log. *)
Lemma scan_lib_shift w d error_count item log :
  scan_lib w d error_count item log =
    (match (scan_lib w d 0 item []).1 with
     | Ok n => Ok (error_count + n)
     | Raised e => Raised e
     end, log ++ (scan_lib w d 0 item []).2).
Proof.
  rewrite (scan_lib_appends w d error_count item log). f_equal.
  - destruct item as [lib_name bound]. unfold scan_lib.
    destruct (negb (Py.truthy bound)).
    + cbn. f_equal. lia.
    + unfold bind.
      destruct (compare_symbols _ _ _ _ _ _ _) as [[[m f1]|e] l1];
        cbn [fst]; [|done].
      destruct (compare_vtables _ _ _ _ _ _ _) as [[[v f2]|e] l2];
        cbn [fst]; [|done].
      rewrite !report_lib_spec. cbn [fst].
      destruct (f2 || nonempty m || nonempty v); f_equal; lia.
  - destruct item as [lib_name bound]. unfold scan_lib.
    destruct (negb (Py.truthy bound)); [done|].
    unfold bind.
    destruct (compare_symbols _ _ _ _ _ _ _) as [[[m f1]|e] l1];
      cbn [snd]; [|done].
    destruct (compare_vtables _ _ _ _ _ _ _) as [[[v f2]|e] l2];
      cbn [snd]; [|done].
    by rewrite !report_lib_spec.
Qed.

Lemma scan_loop_from_any_log w d items error_count log1 log2 total log1' :
  for_each items (scan_lib w d) error_count log1 = (Ok total, log1') ->
  log1 ≡ₚ log2 ->
  ∃ log2', for_each items (scan_lib w d) error_count log2 = (Ok total, log2') ∧
           log1' ≡ₚ log2'.
Proof.
  intros Hrun Hperm.
  pose proof (appends_only_for_each (scan_lib w d) items
                (fun s x => scan_lib_appends w d s x) error_count) as Happ.
  rewrite (Happ log1) in Hrun. injection Hrun as Hres <-.
  eexists. split.
  - rewrite (Happ log2), Hres. reflexivity.
  - by rewrite Hperm.
Qed.

Lemma scan_loop_permutation w d items1 items2 :
  items1 ≡ₚ items2 ->
  ∀ error_count log total log',
    for_each items1 (scan_lib w d) error_count log = (Ok total, log') ->
    ∃ log'', for_each items2 (scan_lib w d) error_count log = (Ok total, log'') ∧
             log' ≡ₚ log''.
Proof.
  induction 1 as [|x l1 l2 Hperm IH|x y l|l1 l2 l3 H12 IH12 H23 IH23];
    intros error_count log total log' Hrun.
  - by exists log'.
  - cbn [for_each] in *. apply bind_Ok_inv in Hrun as (c1 & log1 & Hx & Hrun).
    destruct (IH _ _ _ _ Hrun) as (log'' & Hrun2 & Hp).
    exists log''. split; [|done]. by erewrite run_bind by exact Hx.
  - cbn [for_each] in *.
    apply bind_Ok_inv in Hrun as (c1 & log1 & Hy & Hrun).
    apply bind_Ok_inv in Hrun as (c2 & log2 & Hx & Hrun).
    rewrite scan_lib_shift in Hy, Hx.
    destruct (scan_lib w d 0 y []) as [[ny|ey] newy] eqn:Ey; [|done].
    destruct (scan_lib w d 0 x []) as [[nx|ex] newx] eqn:Ex; [|done].
    cbn [fst snd] in *. injection Hy as <- <-. injection Hx as <- <-.
    destruct (scan_loop_from_any_log w d l (error_count + ny + nx)
                ((log ++ newy) ++ newx) ((log ++ newx) ++ newy) total log' Hrun)
      as (log'' & Hrun2 & Hp).
    { rewrite <- !app_assoc. apply Permutation_app_head, Permutation_app_comm. }
    exists log''. split; [|done].
    unfold bind. rewrite (scan_lib_shift w d error_count x log), Ex.
    cbn [fst snd]. rewrite (scan_lib_shift w d (error_count + nx) y), Ey.
    cbn [fst snd].
    replace (error_count + nx + ny) with (error_count + ny + nx) by lia.
    exact Hrun2.
  - destruct (IH12 _ _ _ _ Hrun) as (log2 & Hrun2 & Hp2).
    destruct (IH23 _ _ _ _ Hrun2) as (log3 & Hrun3 & Hp3).
    exists log3. split; [done|]. by rewrite Hp2.
Qed.

(** X21.  Let the last loop of [_ScanLibDirs] visit the libraries of
    [lib_paths] in any order.  If the loop of the model returns a count, the
    loop in that order returns the same count, and its log holds the same
    records. *)
Theorem scan_count_any_order w d (paths : gmap string (option string))
    (items : list (string * option string)) error_count log total log' :
  items ≡ₚ map_to_list paths ->
  for_each (map_to_list paths) (scan_lib w d) error_count log = (Ok total, log') ->
  ∃ log'',
    for_each items (scan_lib w d) error_count log = (Ok total, log'') ∧
    log'' ≡ₚ log'.
Proof.
  intros Hperm Hrun.
  destruct (scan_loop_permutation w d (map_to_list paths) items
              (symmetry Hperm) error_count log total log' Hrun)
    as (log'' & Hrun2 & Hp).
  by exists log''.
Qed.

Lemma scan_count_any_order_witness :
  ∃ log'',
    for_each
      (rev (map_to_list (resolve_lib_paths w32 (lib_paths dumps32)
                           [_vendor_lib w32; _system_lib w32])))
      (scan_lib w32 dumps32) 0 [] = (Ok 2, log'').
Proof.
  edestruct (scan_count_any_order w32 dumps32
               (resolve_lib_paths w32 (lib_paths dumps32)
                  [_vendor_lib w32; _system_lib w32])
               (rev (map_to_list (resolve_lib_paths w32 (lib_paths dumps32)
                                    [_vendor_lib w32; _system_lib w32])))
               0 [] 2)
    as (log'' & Hrun & _).
  - symmetry. apply Permutation_rev.
  - vm_compute. reflexivity.
  - exists log''. exact Hrun.
Defined.
